(** * Staff scheduling: the optimisation model of [staff_scheduling.py]

    A shallow embedding of [StaffScheduler]: the demand forecaster
    ([forecast_demand]), the model builder ([build_model]), the solver
    adapter ([solve_model]) and the schedule extractor ([get_schedule]),
    together with the cost breakdown that [app.py] recomputes from an
    extracted schedule.

    Python [int] is [Z]; the solver's floating-point values and PuLP's
    coefficients are rationals ([Q]); the one floating-point computation
    of the scheduler itself, [int(base * 1.1)], is carried out on binary64
    floats.  PuLP dictionaries are finite maps keyed by
    [(day, shift, category)].

    Sums of solver values ([pulp.value] of an expression, [sum] in
    [app.py]) are formed in exact arithmetic, where the program forms them
    in binary64, one addition after the other.  The two agree as long as no
    operation rounds; a statement about [total_cost] as a number therefore
    assumes that the solver left integers in the variables, and of bounded
    size where an equality is at stake.  The last part of the file carries
    the cost computations out in binary64 and shows that they do not round
    on such values. *)

From Stdlib Require Import ZArith QArith Qround Floats Lia Lqa.
From stdpp Require Import gmap strings list fin_maps.

Local Open Scope Z_scope.

(** ** The Python library functions the scheduler calls *)

Module Py.

(** [range(n)]: empty when [n <= 0]. *)
Definition range (n : Z) : list Z :=
  Z.of_nat <$> seq 0 (Z.to_nat n).

(** [range(a, b)]. *)
Definition range2 (a b : Z) : list Z :=
  (λ i : nat, a + Z.of_nat i) <$> seq 0 (Z.to_nat (b - a)).

(** [l.index(x)]: the first position of [x], [None] where Python raises
    [ValueError] with the message [repr(x) + " is not in list"]. *)
Fixpoint index (x : string) (l : list string) : option Z :=
  match l with
  | [] => None
  | y :: l' => if String.eqb y x then Some 0 else Z.succ <$> index x l'
  end.

(** [repr(s)] of a [str].  A [string] stands for the Python string of its
    characters' code points, all below 256.  Python writes the string
    between single quotes, or between double quotes when it holds a single
    quote and no double quote; it escapes the backslash and the delimiting
    quote with a backslash, writes tab, newline and carriage return as
    [\t], [\n] and [\r], every other character that is not printable
    (below 32, from 127 to 160, and 173) as [\xhh], and copies the rest. *)
Definition squote : Ascii.ascii := Ascii.ascii_of_N 39.
Definition dquote : Ascii.ascii := Ascii.ascii_of_N 34.
Definition backslash : Ascii.ascii := Ascii.ascii_of_N 92.

Definition hexdigit (n : N) : Ascii.ascii :=
  Ascii.ascii_of_N (if (n <? 10)%N then 48 + n else 87 + n)%N.

Definition isprintable (n : N) : bool :=
  negb ((n <? 32) || ((127 <=? n) && (n <? 161)) || (n =? 173))%N.

Definition repr_char (quote ch : Ascii.ascii) : string :=
  let n := Ascii.N_of_ascii ch in
  if Ascii.eqb ch quote || Ascii.eqb ch backslash
  then String backslash (String ch EmptyString)
  else if (n =? 9)%N then String backslash "t"
  else if (n =? 10)%N then String backslash "n"
  else if (n =? 13)%N then String backslash "r"
  else if isprintable n then String ch EmptyString
  else String backslash
         ("x" +:+ String (hexdigit (n / 16))
                    (String (hexdigit (n mod 16)) EmptyString)).

Fixpoint contains (ch : Ascii.ascii) (s : string) : bool :=
  match s with
  | EmptyString => false
  | String c s' => Ascii.eqb c ch || contains ch s'
  end.

Fixpoint repr_chars (quote : Ascii.ascii) (s : string) : string :=
  match s with
  | EmptyString => String quote EmptyString
  | String c s' => repr_char quote c +:+ repr_chars quote s'
  end.

Definition repr (s : string) : string :=
  let quote :=
    if contains squote s && negb (contains dquote s) then dquote else squote in
  String quote (repr_chars quote s).

(** [list(calendar.month_name)] (English locale): thirteen entries, the
    first one empty. *)
Definition month_name : list string :=
  [ ""; "January"; "February"; "March"; "April"; "May"; "June"; "July";
    "August"; "September"; "October"; "November"; "December" ]%string.

(** [calendar.isleap]. *)
Definition isleap (year : Z) : bool :=
  (year mod 4 =? 0) && (negb (year mod 100 =? 0) || (year mod 400 =? 0)).

(** [calendar.mdays]. *)
Definition mdays (month : Z) : Z :=
  match month with
  | 1 => 31 | 2 => 28 | 3 => 31 | 4 => 30 | 5 => 31 | 6 => 30
  | 7 => 31 | 8 => 31 | 9 => 30 | 10 => 31 | 11 => 30 | 12 => 31
  | _ => 0
  end.

(** [calendar.monthrange(year, month)[1]]: the number of days of the month. *)
Definition monthrange_ndays (year month : Z) : Z :=
  mdays month + (if (month =? 2) && isleap year then 1 else 0).

(** [datetime]'s proleptic Gregorian ordinal of a date. *)
Definition days_before_year (year : Z) : Z :=
  let y := year - 1 in y * 365 + y / 4 - y / 100 + y / 400.

Definition days_before_month_table (month : Z) : Z :=
  match month with
  | 1 => 0 | 2 => 31 | 3 => 59 | 4 => 90 | 5 => 120 | 6 => 151
  | 7 => 181 | 8 => 212 | 9 => 243 | 10 => 273 | 11 => 304 | 12 => 334
  | _ => 0
  end.

Definition days_before_month (year month : Z) : Z :=
  days_before_month_table month
  + (if (2 <? month) && isleap year then 1 else 0).

(** [datetime(year, month, day)], kept as its ordinal; adding
    [timedelta(days=i)] adds [i] to it. *)
Definition datetime (year month day : Z) : Z :=
  days_before_year year + days_before_month year month + day.

(** [date.weekday()]: Monday is 0, Sunday is 6. *)
Definition weekday (ordinal : Z) : Z := (ordinal + 6) mod 7.

(** [float(n)]: the binary64 float nearest to the integer [n]. *)
Definition float_of_int (n : Z) : float :=
  SF2Prim (binary_normalize prec emax n 0 false).

(** [int(x)]: truncation toward zero.  Python raises on an infinity or a
    NaN; the embedding returns 0 there. *)
Definition int_of_float (x : float) : Z :=
  match Prim2SF x with
  | S754_finite s m e =>
      let magnitude :=
        if 0 <=? e then Z.shiftl (Z.pos m) e else Z.shiftr (Z.pos m) (- e) in
      if s then - magnitude else magnitude
  | _ => 0
  end.

End Py.

(** ** Configuration of the scheduler ([StaffScheduler.__init__]) *)

Inductive Category : Set := Caregivers | Nurses | Support_Staff.
Inductive Shift : Set := Morning | Evening | Night.

Definition category_name (c : Category) : string :=
  match c with
  | Caregivers => "Caregivers" | Nurses => "Nurses"
  | Support_Staff => "Support Staff"
  end.

Definition shift_name (s : Shift) : string :=
  match s with
  | Morning => "Morning" | Evening => "Evening" | Night => "Night"
  end.

Definition staff_categories : list Category := [Caregivers; Nurses; Support_Staff].
Definition shifts : list Shift := [Morning; Evening; Night].

Definition hourly_wages (c : Category) : Z :=
  match c with Caregivers => 300 | Nurses => 450 | Support_Staff => 250 end.

Definition regular_hours (c : Category) : Z :=
  match c with Caregivers => 40 | Nurses => 35 | Support_Staff => 30 end.

Definition hiring_cost (c : Category) : Z :=
  match c with Caregivers => 5000 | Nurses => 7500 | Support_Staff => 4000 end.

Definition firing_cost (c : Category) : Z :=
  match c with Caregivers => 3500 | Nurses => 5000 | Support_Staff => 2500 end.

(** A demand table is indexed [table[shift][category]]. *)
Definition per_category (caregivers nurses support : Z) (c : Category) : Z :=
  match c with
  | Caregivers => caregivers | Nurses => nurses | Support_Staff => support
  end.

Definition per_shift (morning evening night : Category → Z) (s : Shift)
  : Category → Z :=
  match s with Morning => morning | Evening => evening | Night => night end.

Definition historical_demand_items : list (string * (Shift → Category → Z)) :=
  [ ("September"%string,
      per_shift (per_category 12 7 6) (per_category 14 6 5) (per_category 9 5 4));
    ("October"%string,
      per_shift (per_category 11 6 5) (per_category 13 5 4) (per_category 8 4 3));
    ("November"%string,
      per_shift (per_category 10 6 5) (per_category 12 5 4) (per_category 8 4 3));
    ("December"%string,
      per_shift (per_category 13 8 7) (per_category 15 7 6) (per_category 10 6 5));
    ("January"%string,
      per_shift (per_category 14 9 8) (per_category 16 8 7) (per_category 11 7 6));
    ("February"%string,
      per_shift (per_category 12 7 6) (per_category 14 6 5) (per_category 9 5 4)) ].

Definition historical_demand : gmap string (Shift → Category → Z) :=
  list_to_map historical_demand_items.

(** ** Demand forecaster *)

(** [forecast_demand(month, day_type)]: the month's table, February's for a
    month the table does not have; on a weekend every entry becomes
    [int(entry * 1.1)], computed in binary64.  The literal [1.1] denotes the
    float [0x1.199999999999ap+0]. *)
Definition forecast_demand (month day_type : string) : Shift → Category → Z :=
  let base_demand :=
    default (historical_demand !!! "February"%string) (historical_demand !! month) in
  λ shift category,
    if String.eqb day_type "weekend"
    then Py.int_of_float
           (PrimFloat.mul (Py.float_of_int (base_demand shift category)) 0x1.199999999999ap+0%float)
    else base_demand shift category.

(** The weekend demand as the specification words it: the floor of 1.1 times
    the weekday demand, in exact arithmetic. *)
Definition spec_weekend_demand (weekday_demand : Z) : Z :=
  Qfloor ((11 # 10) * inject_Z weekday_demand).


(** ** The linear program handed to PuLP *)

(** Dictionary keys [(d, s, c)]. *)
Abbreviation Key := (Z * Shift * Category)%type.

(** The variables [LpVariable.dicts] creates, one per name and index.  Every
    one of them is created with [lowBound=0] and [cat='Integer']. *)
Inductive LpVariable : Set :=
| Staff_Assigned (key : Key)
| Overtime (key : Key)
| Staff_Hired (c : Category)
| Staff_Fired (c : Category)
| Total_Staff (c : Category).

(** [LpAffineExpression]: the terms in the order they were added, and a
    constant. *)
Record LpAffineExpression : Set := AffineExpression
  { terms : list (LpVariable * Q); constant : Q }.

Inductive Sense : Set := LE | GE | EQ.

(** A constraint as the source writes it: [lhs <= rhs], [lhs >= rhs] or
    [lhs == rhs]. *)
Record LpConstraint : Set := Constraint
  { lhs : LpAffineExpression; sense : Sense; rhs : LpAffineExpression }.

(** [pulp.LpStatus]. *)
Inductive LpStatus : Set := Not_Solved | Optimal | Infeasible | Unbounded | Undefined.

Definition LpStatus_name (st : LpStatus) : string :=
  match st with
  | Not_Solved => "Not Solved" | Optimal => "Optimal"
  | Infeasible => "Infeasible" | Unbounded => "Unbounded"
  | Undefined => "Undefined"
  end.

(** Expression builders: a variable, an integer constant, [e * k],
    [e1 + e2], [e1 - e2] and [pulp.lpSum]. *)
Definition var (v : LpVariable) : LpAffineExpression :=
  AffineExpression [(v, 1%Q)] 0%Q.

Definition const (k : Z) : LpAffineExpression :=
  AffineExpression [] (inject_Z k).

Definition scale (e : LpAffineExpression) (k : Q) : LpAffineExpression :=
  AffineExpression (prod_map id (λ a, (a * k)%Q) <$> terms e) (constant e * k)%Q.

Definition add (e1 e2 : LpAffineExpression) : LpAffineExpression :=
  AffineExpression (terms e1 ++ terms e2) (constant e1 + constant e2)%Q.

Definition sub (e1 e2 : LpAffineExpression) : LpAffineExpression :=
  add e1 (scale e2 (-1)%Q).

Definition lpSum (es : list LpAffineExpression) : LpAffineExpression :=
  foldl add (AffineExpression [] 0%Q) es.

(** The sum of a list of rationals, left to right from 0 as Python's [sum]. *)
Definition qsum (l : list Q) : Q := foldl Qplus 0%Q l.

(** [pulp.value(e)] under the values the solver left in the variables. *)
Definition value (varValue : LpVariable → Q) (e : LpAffineExpression) : Q :=
  foldl (λ s t, (s + varValue t.1 * t.2)%Q) (constant e) (terms e).

Definition holds (varValue : LpVariable → Q) (c : LpConstraint) : Prop :=
  match sense c with
  | LE => (value varValue (lhs c) <= value varValue (rhs c))%Q
  | GE => (value varValue (rhs c) <= value varValue (lhs c))%Q
  | EQ => (value varValue (lhs c) == value varValue (rhs c))%Q
  end.

Definition holdsb (varValue : LpVariable → Q) (c : LpConstraint) : bool :=
  match sense c with
  | LE => Qle_bool (value varValue (lhs c)) (value varValue (rhs c))
  | GE => Qle_bool (value varValue (rhs c)) (value varValue (lhs c))
  | EQ => Qeq_bool (value varValue (lhs c)) (value varValue (rhs c))
  end.

(** [LpProblem]: objective ([None] until one is added), constraints in the
    order they were added, the solve status, and the values the last solve
    left in the variables (read only once the status is [Optimal]). *)
Record LpProblem : Type := Problem
  { objective : option LpAffineExpression;
    constraints : list LpConstraint;
    status : LpStatus;
    varValue : LpVariable → Q }.

(** ** The scheduler object *)

Inductive exn : Set :=
| ValueError (msg : string)
| KeyError (key : Key)
| KeyError_category (c : Category)
| TypeError
| AttributeError
| PulpSolverError.

#[global] Instance Category_eq_dec : EqDecision Category.
Proof. solve_decision. Defined.

#[global] Instance Shift_eq_dec : EqDecision Shift.
Proof. solve_decision. Defined.

#[global] Instance Category_countable : Countable Category.
Proof.
  refine (inj_countable'
    (λ c, match c with Caregivers => 0 | Nurses => 1 | Support_Staff => 2 end)
    (λ n, match n with 0 => Caregivers | 1 => Nurses | _ => Support_Staff end) _).
  by intros [].
Defined.

#[global] Instance Shift_countable : Countable Shift.
Proof.
  refine (inj_countable'
    (λ s, match s with Morning => 0 | Evening => 1 | Night => 2 end)
    (λ n, match n with 0 => Morning | 1 => Evening | _ => Night end) _).
  by intros [].
Defined.

#[global] Instance LpVariable_eq_dec : EqDecision LpVariable.
Proof. solve_decision. Defined.

(** The fields [__init__] sets to [None] and [build_model] fills. *)
Record StaffScheduler : Type := Scheduler
  { problem : option LpProblem;
    staff_assigned : option (gmap Key LpVariable);
    overtime_assigned : option (gmap Key LpVariable);
    staff_hired : option (gmap Category LpVariable);
    staff_fired : option (gmap Category LpVariable);
    total_staff : option (gmap Category LpVariable) }.

Definition init : StaffScheduler := Scheduler None None None None None None.

(** What [datetime.today()] returns, as far as [build_model] reads it. *)
Record Today : Set := { today_year : Z; today_month : Z }.

(** [LpVariable.dicts(name, indices, ...)]. *)
Definition LpVariable_dicts `{Countable K} (name : K → LpVariable)
  (indices : list K) : gmap K LpVariable :=
  list_to_map ((λ k, (k, name k)) <$> indices).

(** ** Model builder *)

Definition default_initial_staff (c : Category) : Z :=
  match c with Caregivers => 40 | Nurses => 30 | Support_Staff => 20 end.

(** [if num_days > monthrange(...)[1]: num_days = monthrange(...)[1]]. *)
Definition clip_num_days (year month_number num_days : Z) : Z :=
  if Py.monthrange_ndays year month_number <? num_days
  then Py.monthrange_ndays year month_number
  else num_days.

Definition day_types (first_day num_days : Z) : list string :=
  (λ i, if Py.weekday (first_day + i) <? 5
        then "weekday"%string else "weekend"%string)
    <$> Py.range num_days.

(** [[(d, s, c) for d in range(num_days) for s in shifts for c in
    staff_categories]]. *)
Definition all_keys (num_days : Z) : list Key :=
  d ← Py.range num_days; s ← shifts; c ← staff_categories; [(d, s, c)].

(** The same comprehension with [if c != 'Nurses']. *)
Definition overtime_keys (num_days : Z) : list Key :=
  d ← Py.range num_days; s ← shifts;
  c ← filter (λ c, c ≠ Nurses) staff_categories; [(d, s, c)].

(** In what follows [self.staff_assigned[(d, s, c)]] is written
    [Staff_Assigned (d, s, c)], and likewise for the other dictionaries:
    each lookup is at an index of the comprehension the dictionary was
    created from a few lines above (lemmas [staff_assigned_getitem] and
    [overtime_assigned_getitem]). *)

Definition linking_constraints (initial_staff : Category → Z) : list LpConstraint :=
  c ← staff_categories;
  [ Constraint (var (Total_Staff c)) EQ
      (sub (add (const (initial_staff c)) (var (Staff_Hired c)))
           (var (Staff_Fired c))) ].

Definition total_regular_cost (num_days : Z) : LpAffineExpression :=
  lpSum (d ← Py.range num_days; s ← shifts; c ← staff_categories;
         [ scale (scale (var (Staff_Assigned (d, s, c)))
                    (inject_Z (hourly_wages c))) 8%Q ]).

Definition total_overtime_cost (num_days : Z) : LpAffineExpression :=
  lpSum (d ← Py.range num_days; s ← shifts;
         c ← filter (λ c, c ≠ Nurses) staff_categories;
         [ scale (scale (scale (var (Overtime (d, s, c)))
                    (inject_Z (hourly_wages c))) (3 # 2)%Q) 8%Q ]).

Definition total_hiring_cost : LpAffineExpression :=
  lpSum (c ← staff_categories;
         [ scale (var (Staff_Hired c)) (inject_Z (hiring_cost c)) ]).

Definition total_firing_cost : LpAffineExpression :=
  lpSum (c ← staff_categories;
         [ scale (var (Staff_Fired c)) (inject_Z (firing_cost c)) ]).

Definition total_cost_objective (num_days : Z) : LpAffineExpression :=
  add (add (add (total_regular_cost num_days) (total_overtime_cost num_days))
           total_hiring_cost) total_firing_cost.

(** 1. Staffing requirements per shift: one constraint per [(d, s, c)]. *)
Definition coverage_constraint (month day_type : string) (d : Z) (s : Shift)
  (c : Category) : LpConstraint :=
  let demand := forecast_demand month day_type in
  if decide (c ≠ Nurses)
  then Constraint (add (var (Staff_Assigned (d, s, c))) (var (Overtime (d, s, c))))
         GE (const (demand s c))
  else Constraint (var (Staff_Assigned (d, s, c))) GE (const (demand s c)).

Definition coverage_constraints (month : string) (day_types : list string)
  (num_days : Z) : list LpConstraint :=
  d ← Py.range num_days;
  let day_type := day_types !!! Z.to_nat d in
  s ← shifts; c ← staff_categories; [ coverage_constraint month day_type d s c ].

(** 2. Maximum available staff. *)
Definition capacity_constraints (num_days : Z) : list LpConstraint :=
  c ← staff_categories; s ← shifts; d ← Py.range num_days;
  [ Constraint (var (Staff_Assigned (d, s, c))) LE (var (Total_Staff c)) ].

(** 3. Work hour limitations: one constraint per category and complete week. *)
Definition weekly_hours_constraint (num_days : Z) (c : Category) (week : Z)
  : LpConstraint :=
  let week_start := week * 7 in
  let week_end := Z.min ((week + 1) * 7) num_days in
  let total_weekly_hours :=
    lpSum (d ← Py.range2 week_start week_end; s ← shifts;
           [ scale (var (Staff_Assigned (d, s, c))) 8%Q ]) in
  Constraint total_weekly_hours LE
    (scale (var (Total_Staff c)) (inject_Z (regular_hours c))).

Definition weekly_hours_constraints (num_days : Z) : list LpConstraint :=
  c ← staff_categories; week ← Py.range (num_days / 7);
  [ weekly_hours_constraint num_days c week ].

(** 4. Shift distribution. *)
Definition shift_distribution_constraints (num_days : Z) : list LpConstraint :=
  c ← staff_categories;
  let total_morning_evening :=
    lpSum (d ← Py.range num_days; s ← [Morning; Evening];
           [ var (Staff_Assigned (d, s, c)) ]) in
  let total_night :=
    lpSum (d ← Py.range num_days; [ var (Staff_Assigned (d, Night, c)) ]) in
  [ Constraint total_morning_evening GE total_night ].

(** [LpProblem("Staff_Scheduling", LpMinimize)], before anything is added:
    no objective, no constraint. *)
Definition new_problem : LpProblem :=
  Problem None [] Not_Solved (λ _, 0%Q).

(** [build_model(month, num_days, initial_staff)].  [today] is what
    [datetime.today()] returns; [initial_staff] is [None] or a dictionary
    with an entry for each of the three categories, as [app.py] and [main]
    pass it.  The new, empty problem is stored in [self.problem] before the
    month is looked up, so it stays there when the lookup raises, with the
    message of [list.index].  The list [days] of formatted dates is never
    read and is left out. *)
Definition build_model (today : Today) (month : string) (num_days : Z)
  (initial_staff : option (Category → Z)) (self : StaffScheduler)
  : StaffScheduler * (exn + LpProblem) :=
  let self := Scheduler (Some new_problem) (staff_assigned self)
                (overtime_assigned self) (staff_hired self) (staff_fired self)
                (total_staff self) in
  let initial_staff := default default_initial_staff initial_staff in
  match Py.index month Py.month_name with
  | None => (self, inl (ValueError (Py.repr month +:+ " is not in list")))
  | Some month_number =>
      let month_number :=
        if month_number =? 0 then today_month today else month_number in
      let year := today_year today in
      let first_day := Py.datetime year month_number 1 in
      let num_days := clip_num_days year month_number num_days in
      let day_types := day_types first_day num_days in
      let problem :=
        Problem (Some (total_cost_objective num_days))
          (linking_constraints initial_staff
           ++ coverage_constraints month day_types num_days
           ++ capacity_constraints num_days
           ++ weekly_hours_constraints num_days
           ++ shift_distribution_constraints num_days)
          Not_Solved (λ _, 0%Q) in
      (Scheduler (Some problem)
         (Some (LpVariable_dicts Staff_Assigned (all_keys num_days)))
         (Some (LpVariable_dicts Overtime (overtime_keys num_days)))
         (Some (LpVariable_dicts Staff_Hired staff_categories))
         (Some (LpVariable_dicts Staff_Fired staff_categories))
         (Some (LpVariable_dicts Total_Staff staff_categories)),
       inr problem)
  end.

(** ** Solver adapter *)

(** The external solver ([PULP_CBC_CMD]): it fails to run, or it sets the
    problem's status and leaves a value in every variable. *)
Definition Solver : Type := LpProblem → option (LpStatus * (LpVariable → Q)).

(** [solve_model()]: returns the status (the source returns its name, and
    prints a warning when it is not [Optimal]).  A solve leaves the
    objective as it was, also when the problem has none. *)
Definition solve_model (cbc : Solver) (self : StaffScheduler)
  : StaffScheduler * (exn + LpStatus) :=
  match problem self with
  | None => (self, inl (ValueError "Model not built yet. Call build_model() first."))
  | Some p =>
      match cbc p with
      | None => (self, inl PulpSolverError)
      | Some (st, values) =>
          (Scheduler (Some (Problem (objective p) (constraints p) st values))
             (staff_assigned self) (overtime_assigned self) (staff_hired self)
             (staff_fired self) (total_staff self),
           inr st)
      end
  end.

(** ** Schedule extractor *)

Record StaffChanges : Set := { hired : Q; fired : Q; total : Q }.

Record Schedule : Type :=
  { regular : gmap Key Q;
    overtime : gmap Key Q;
    staff_changes : gmap Category StaffChanges;
    total_cost : Q }.

(** [for key in keys: if key not in out: out[key] = read(key)], stopping at
    the first read that raises. *)
Fixpoint extract_loop (read : Key → exn + Q) (keys : list Key) (out : gmap Key Q)
  : exn + gmap Key Q :=
  match keys with
  | [] => inr out
  | key :: keys' =>
      match out !! key with
      | Some _ => extract_loop read keys' out
      | None =>
          match read key with
          | inl e => inl e
          | inr v => extract_loop read keys' (<[key := v]> out)
          end
      end
  end.

(** [pulp.value(self.staff_assigned[key])]. *)
Definition read_regular (self : StaffScheduler) (values : LpVariable → Q)
  (key : Key) : exn + Q :=
  match staff_assigned self with
  | None => inl TypeError
  | Some dict =>
      match dict !! key with
      | None => inl (KeyError key)
      | Some v => inr (values v)
      end
  end.

(** [pulp.value(self.overtime_assigned.get(key, 0))]. *)
Definition read_overtime (self : StaffScheduler) (values : LpVariable → Q)
  (key : Key) : exn + Q :=
  match overtime_assigned self with
  | None => inl AttributeError
  | Some dict =>
      match dict !! key with
      | None => inr 0%Q
      | Some v => inr (values v)
      end
  end.

(** [pulp.value(dict[c])] for the per-category dictionaries. *)
Definition read_category (dict : option (gmap Category LpVariable))
  (values : LpVariable → Q) (c : Category) : exn + Q :=
  match dict with
  | None => inl TypeError
  | Some dict =>
      match dict !! c with
      | None => inl (KeyError_category c)
      | Some v => inr (values v)
      end
  end.

Fixpoint extract_staff_changes (self : StaffScheduler) (values : LpVariable → Q)
  (cs : list Category) (out : gmap Category StaffChanges)
  : exn + gmap Category StaffChanges :=
  match cs with
  | [] => inr out
  | c :: cs' =>
      match read_category (staff_hired self) values c with
      | inl e => inl e
      | inr h =>
          match read_category (staff_fired self) values c with
          | inl e => inl e
          | inr f =>
              match read_category (total_staff self) values c with
              | inl e => inl e
              | inr t =>
                  extract_staff_changes self values cs'
                    (<[c := {| hired := h; fired := f; total := t |}]> out)
              end
          end
      end
  end.

(** [pulp.value(self.problem.objective)]: a problem that was given no
    objective holds [None] there, which has no [value]. *)
Definition read_objective (p : LpProblem) : exn + Q :=
  match objective p with
  | None => inl AttributeError
  | Some e => inr (value (varValue p) e)
  end.

(** [get_schedule(num_days)]. *)
Definition get_schedule (self : StaffScheduler) (num_days : Z) : exn + Schedule :=
  match problem self with
  | None => inl (ValueError "Model not solved optimally yet.")
  | Some p =>
      if negb (String.eqb (LpStatus_name (status p)) "Optimal")
      then inl (ValueError "Model not solved optimally yet.")
      else
        match read_objective p with
        | inl e => inl e
        | inr total_cost =>
            match extract_loop (read_regular self (varValue p))
                    (all_keys num_days) ∅ with
            | inl e => inl e
            | inr regular =>
                match extract_loop (read_overtime self (varValue p))
                        (overtime_keys num_days) ∅ with
                | inl e => inl e
                | inr overtime =>
                    match extract_staff_changes self (varValue p)
                            staff_categories ∅ with
                    | inl e => inl e
                    | inr staff_changes =>
                        inr {| regular := regular; overtime := overtime;
                               staff_changes := staff_changes;
                               total_cost := total_cost |}
                    end
                end
            end
        end
  end.

(** ** The cost breakdown [app.py] recomputes from a schedule *)

#[global] Instance StaffChanges_inhabited : Inhabited StaffChanges :=
  populate {| hired := 0%Q; fired := 0%Q; total := 0%Q |}.

Definition regular_cost (schedule : Schedule) (num_days : Z) : Q :=
  qsum (d ← Py.range num_days; s ← shifts; c ← staff_categories;
        [ (default 0 (regular schedule !! (d, s, c))
           * inject_Z (hourly_wages c) * 8)%Q ]).

Definition overtime_cost (schedule : Schedule) (num_days : Z) : Q :=
  qsum (d ← Py.range num_days; s ← shifts;
        c ← filter (λ c, c ≠ Nurses) staff_categories;
        [ (default 0 (overtime schedule !! (d, s, c))
           * inject_Z (hourly_wages c) * (3 # 2) * 8)%Q ]).

Definition hiring_cost_total (schedule : Schedule) : Q :=
  qsum (c ← staff_categories;
        [ (hired (staff_changes schedule !!! c) * inject_Z (hiring_cost c))%Q ]).

Definition firing_cost_total (schedule : Schedule) : Q :=
  qsum (c ← staff_categories;
        [ (fired (staff_changes schedule !!! c) * inject_Z (firing_cost c))%Q ]).

(** ** Notions the statements below are phrased in *)

(** The number [build_model] leaves in [num_days] after clipping, for a month
    that [calendar.month_name] has (0 otherwise, where no model is built). *)
Definition horizon (today : Today) (month : string) (num_days : Z) : Z :=
  match Py.index month Py.month_name with
  | None => 0
  | Some month_number =>
      let month_number := if month_number =? 0 then today_month today else month_number in
      clip_num_days (today_year today) month_number num_days
  end.

(** The entry of [day_types] for day [d]. *)
Definition day_type_on (today : Today) (month : string) (d : Z) : string :=
  match Py.index month Py.month_name with
  | None => "weekday"
  | Some month_number =>
      let month_number := if month_number =? 0 then today_month today else month_number in
      if Py.weekday (Py.datetime (today_year today) month_number 1 + d) <? 5
      then "weekday" else "weekend"
  end.

(** The demand the coverage constraint of [(d, s, c)] is built with. *)
Definition demand_on (today : Today) (month : string) (d : Z) (s : Shift)
  (c : Category) : Z :=
  forecast_demand month (day_type_on today month d) s c.

(** The clamping as the specification words it: into [1, days-in-month]. *)
Definition spec_clamp_num_days (year month_number num_days : Z) : Z :=
  Z.max 1 (Z.min num_days (Py.monthrange_ndays year month_number)).

(** The weekly-hours constraint as the specification words it, for the
    complete 7-day window that starts at day [7 * week]: the sum of
    regular * 8 over the seven days and all shifts is at most
    total[c] * regular weekly hour cap. *)
Definition weekly_window_constraint (c : Category) (week : Z) : LpConstraint :=
  Constraint
    (lpSum (d ← Py.range2 (7 * week) (7 * week + 7); s ← shifts;
            [ scale (var (Staff_Assigned (d, s, c))) 8%Q ]))
    LE (scale (var (Total_Staff c)) (inject_Z (regular_hours c))).

(** A weekly-hours constraint is one that bounds from above by
    total[c] * regular weekly hour cap. *)
Definition is_weekly_hours (k : LpConstraint) : Prop :=
  sense k = LE
  ∧ ∃ c, rhs k = scale (var (Total_Staff c)) (inject_Z (regular_hours c)).

(** Day [d] appears in a constraint when one of its terms is a
    [Staff_Assigned] or [Overtime] variable of that day. *)
Definition mentions_day (k : LpConstraint) (d : Z) : Prop :=
  ∃ s c q, (Staff_Assigned (d, s, c), q) ∈ terms (lhs k) ++ terms (rhs k)
           ∨ (Overtime (d, s, c), q) ∈ terms (lhs k) ++ terms (rhs k).

#[global] Instance Q_eq_dec : EqDecision Q.
Proof. solve_decision. Defined.

#[global] Instance LpAffineExpression_eq_dec : EqDecision LpAffineExpression.
Proof. solve_decision. Defined.

#[global] Instance Sense_eq_dec : EqDecision Sense.
Proof. solve_decision. Defined.

#[global] Instance LpConstraint_eq_dec : EqDecision LpConstraint.
Proof. solve_decision. Defined.

(** A solver is sound when an [Optimal] status comes with values that
    satisfy every constraint of the problem. *)
Definition solver_sound (cbc : Solver) : Prop :=
  ∀ p st values, cbc p = Some (st, values) → st = Optimal →
    Forall (holds values) (constraints p).

(** Every variable is created with [lowBound=0]: a solver respects the
    bounds when the values that come with [Optimal] are not negative. *)
Definition solver_respects_bounds (cbc : Solver) : Prop :=
  ∀ p st values, cbc p = Some (st, values) → st = Optimal →
    ∀ v, (0 <= values v)%Q.

(** The cost of the first [n] days under given values: wages, overtime,
    hiring and firing. *)
Definition cost_of_days (values : LpVariable → Q) (n : Z) : Q :=
  (qsum ((λ k : Key, values (Staff_Assigned k) * inject_Z (hourly_wages k.2) * 8)
         <$> all_keys n)
   + qsum ((λ k : Key, values (Overtime k) * inject_Z (hourly_wages k.2) * (3 # 2) * 8)
           <$> overtime_keys n)
   + qsum ((λ c, values (Staff_Hired c) * inject_Z (hiring_cost c))
           <$> staff_categories)
   + qsum ((λ c, values (Staff_Fired c) * inject_Z (firing_cost c))
           <$> staff_categories))%Q.

Definition all_hold (values : LpVariable → Q) (p : LpProblem) : bool :=
  forallb (holdsb values) (constraints p).

(** A solver that proposes fixed values and reports [Optimal] exactly when
    they satisfy the problem. *)
Definition checking_solver (values : LpVariable → Q) : Solver :=
  λ p, Some (if all_hold values p then Optimal else Infeasible, values).

(** A solver that reports [Optimal] with the given values, whatever they are. *)
Definition reporting_solver (values : LpVariable → Q) : Solver :=
  λ p, Some (Optimal, values).

(** Values that staff every shift at exactly its forecast demand with no
    overtime, fire nobody and hire [hire c] people in category [c]. *)
Definition demand_values (today : Today) (month : string) (initial : Category → Z)
  (hire : Category → Z) (v : LpVariable) : Q :=
  match v with
  | Staff_Assigned (d, s, c) => inject_Z (demand_on today month d s c)
  | Overtime _ => 0%Q
  | Staff_Hired c => inject_Z (hire c)
  | Staff_Fired _ => 0%Q
  | Total_Staff c => inject_Z (initial c + hire c)
  end.

Definition is_inr {A B : Type} (r : A + B) : bool :=
  match r with inl _ => false | inr _ => true end.

Definition is_integer (q : Q) : bool := Qeq_bool q (inject_Z (Qfloor q)).

(** Every variable is created with [cat='Integer'], and a solve leaves a
    binary64 float in it.  While these floats are integers of magnitude at
    most [10^9], every product with a coefficient of the objective (at most
    7500) or with a wage (an even number) and the factors 1.5 and 8, and
    every partial sum of such products over the at most 471 terms of an
    objective (31 days), is an integer of magnitude below [2^53]: binary64
    represents each of them, no operation rounds, and the exact sums formed
    here are the numbers the program computes. *)
Definition small_integer (q : Q) : Prop :=
  is_integer q = true ∧ (- 1000000000 <= q <= 1000000000)%Q.

(** The date and the hiring used in the examples. *)
Definition example_today : Today := {| today_year := 2026; today_month := 11 |}.

Definition example_hire (c : Category) : Z :=
  match c with Caregivers => 40 | Nurses => 30 | Support_Staff => 40 end.

Definition example_values : LpVariable → Q :=
  demand_values example_today "January" default_initial_staff example_hire.

(** January, seven days, default staff: built, and then solved by the
    checking solver. *)
Definition example_built : StaffScheduler :=
  (build_model example_today "January" 7 None init).1.

Definition example_solved : StaffScheduler :=
  (solve_model (checking_solver example_values) example_built).1.

(** The same values, except that the solver leaves [14.0000001] in one
    integer variable, and the scheduler solved with them. *)
Definition example_values_inexact (v : LpVariable) : Q :=
  if decide (v = Staff_Assigned (0, Morning, Caregivers))
  then (140000001 # 10000000)%Q
  else example_values v.

Definition example_solved_inexact : StaffScheduler :=
  (solve_model (checking_solver example_values_inexact) example_built).1.

(** ** The rows and daily totals built from a schedule

    [visualize_schedule] builds [heatmap_data] and [main] builds
    [detailed_schedule] by the same loop; [app.py] builds [daily_data]. *)

Record Row : Set :=
  { row_Day : Z;
    row_Shift : Shift;
    row_Category : Category;
    row_Regular_Staff : Q;
    row_Overtime_Staff : Q;
    row_Total_Staff : Q }.

Definition heatmap_data (schedule : Schedule) (num_days : Z) : list Row :=
  d ← Py.range num_days; s ← shifts; c ← staff_categories;
  let regular := default 0%Q (regular schedule !! (d, s, c)) in
  let overtime :=
    if decide (c ≠ Nurses)
    then default 0%Q (overtime schedule !! (d, s, c)) else 0%Q in
  [ {| row_Day := d + 1; row_Shift := s; row_Category := c;
       row_Regular_Staff := regular; row_Overtime_Staff := overtime;
       row_Total_Staff := (regular + overtime)%Q |} ].

(** The entry [day_total[c]] of [daily_data] for day [d]. *)
Definition daily_total (schedule : Schedule) (d : Z) (c : Category) : Q :=
  qsum (s ← shifts;
        [ (default 0 (regular schedule !! (d, s, c))
           + (if decide (c ≠ Nurses)
              then default 0 (overtime schedule !! (d, s, c)) else 0))%Q ]).

Definition daily_data (schedule : Schedule) (num_days : Z)
  : list (Z * (Category → Q)) :=
  d ← Py.range num_days; [ (d + 1, daily_total schedule d) ].

(** ** The callers: [main] of [app.py] and of [staff_scheduling.py]

    What happens once the button is pressed: a fresh scheduler, a build, a
    solve, and an extraction with the same [num_days] when the status is
    [Optimal]; an exception of any step ends the run. *)
Definition app_main (today : Today) (cbc : Solver) (selected_month : string)
  (num_days : Z) (initial_staff : Category → Z)
  : exn + LpStatus * option Schedule :=
  let scheduler := init in
  match build_model today selected_month num_days (Some initial_staff) scheduler with
  | (_, inl e) => inl e
  | (scheduler, inr _) =>
      match solve_model cbc scheduler with
      | (_, inl e) => inl e
      | (scheduler, inr status) =>
          if String.eqb (LpStatus_name status) "Optimal"
          then match get_schedule scheduler num_days with
               | inl e => inl e
               | inr schedule => inr (status, Some schedule)
               end
          else inr (status, None)
      end
  end.

(** [main()] of [staff_scheduling.py] runs the same steps for March, 28 days
    and 40, 30 and 20 people; what it prints, plots and writes to the CSV
    file afterwards is left out (the rows of the file are [heatmap_data]). *)
Definition main (today : Today) (cbc : Solver) : exn + LpStatus * option Schedule :=
  app_main today cbc "March" 28 default_initial_staff.

(** Values that meet every constraint of a built model: every shift staffed
    at its demand, nobody fired, and each category brought up to at least
    100 people by hiring. *)
Definition feasible_values (today : Today) (month : string)
  (initial_staff : Category → Z) : LpVariable → Q :=
  demand_values today month initial_staff (λ c, Z.max 0 (100 - initial_staff c)).

(** January, seven days, built with nobody on the payroll. *)
Definition example_built_empty : StaffScheduler :=
  (build_model example_today "January" 7 (Some (λ _ : Category, 0)) init).1.

(** ** The costs in binary64

    The values a solve leaves in the variables are binary64 floats, and
    [pulp.value] of the objective and the sums of [app.py] are computed on
    them in binary64.  The definitions below carry these computations out
    as the program does, on primitive floats. *)

(** [LpAffineExpression.value()]: [s = self.constant], then
    [s += v.varValue * x] for every item [(v, x)], in insertion order. *)
Definition value64 (varValue : LpVariable → float) (constant : float)
  (items : list (LpVariable * float)) : float :=
  foldl (λ s t, (s + varValue t.1 * t.2)%float) constant items.

(** The items of the objective as PuLP holds them, in the order the four
    sums of [build_model] add them.  The coefficients [wage * 8] and the
    hiring and firing costs are [int]s, converted when a float value is
    multiplied by them; the overtime coefficient is computed in binary64,
    [8 * (1.5 * wage)]. *)
Definition objective_items64 (num_days : Z) : list (LpVariable * float) :=
  (d ← Py.range num_days; s ← shifts; c ← staff_categories;
   [ (Staff_Assigned (d, s, c), Py.float_of_int (hourly_wages c * 8)) ])
  ++ (d ← Py.range num_days; s ← shifts;
      c ← filter (λ c, c ≠ Nurses) staff_categories;
      [ (Overtime (d, s, c),
         (Py.float_of_int 8 * (1.5 * Py.float_of_int (hourly_wages c)))%float) ])
  ++ (c ← staff_categories; [ (Staff_Hired c, Py.float_of_int (hiring_cost c)) ])
  ++ (c ← staff_categories; [ (Staff_Fired c, Py.float_of_int (firing_cost c)) ]).

(** [pulp.value(self.problem.objective)] for a model built over [num_days]
    days; the constant of the objective is the [int] 0. *)
Definition total_cost64 (varValue : LpVariable → float) (num_days : Z) : float :=
  value64 varValue (Py.float_of_int 0) (objective_items64 num_days).

(** [sum(...)] of floats: from the [int] 0, left to right.  (From CPython
    3.12 on [sum] also carries a compensation term; it stays 0 as long as no
    addition rounds.) *)
Definition sum64 (l : list float) : float :=
  foldl PrimFloat.add (Py.float_of_int 0) l.

(** The four sums of the cost breakdown of [app.py], on the entries of a
    schedule extracted over [num_days] days. *)
Definition regular_cost64 (regular : Key → float) (num_days : Z) : float :=
  sum64 (d ← Py.range num_days; s ← shifts; c ← staff_categories;
         [ (regular (d, s, c) * Py.float_of_int (hourly_wages c)
            * Py.float_of_int 8)%float ]).

Definition overtime_cost64 (overtime : Key → float) (num_days : Z) : float :=
  sum64 (d ← Py.range num_days; s ← shifts;
         c ← filter (λ c, c ≠ Nurses) staff_categories;
         [ (overtime (d, s, c) * Py.float_of_int (hourly_wages c) * 1.5
            * Py.float_of_int 8)%float ]).

Definition hiring_cost64 (hired : Category → float) : float :=
  sum64 (c ← staff_categories;
         [ (hired c * Py.float_of_int (hiring_cost c))%float ]).

Definition firing_cost64 (fired : Category → float) : float :=
  sum64 (c ← staff_categories;
         [ (fired c * Py.float_of_int (firing_cost c))%float ]).

(** The sum of the four, as the cost breakdown is compared with
    [total_cost]. *)
Definition recomputed_cost64 (varValue : LpVariable → float) (num_days : Z)
  : float :=
  (regular_cost64 (λ k, varValue (Staff_Assigned k)) num_days
   + overtime_cost64 (λ k, varValue (Overtime k)) num_days
   + hiring_cost64 (λ c, varValue (Staff_Hired c))
   + firing_cost64 (λ c, varValue (Staff_Fired c)))%float.

(** Integers as binary64 numbers.  [pshift N j] is [N * 2^j];
    [bit_length N] is the number of binary digits of [N]; for
    [N < 2^53], [Zfin s N] is the float of value [N] (negated when [s]):
    the mantissa is [N] shifted to 53 bits, the exponent makes up for the
    shift.  [is_int x z] says that the float [x] has the integer value [z],
    whatever the sign of a zero. *)
Fixpoint pshift (N : positive) (j : nat) : positive :=
  match j with O => N | S j' => xO (pshift N j') end.

Definition bit_length (N : positive) : Z := Z.pos (digits2_pos N).

Definition Zfin (s : bool) (N : positive) : spec_float :=
  S754_finite s (pshift N (Z.to_nat (53 - bit_length N))) (bit_length N - 53).

Definition Z2SF (sz : bool) (z : Z) : spec_float :=
  match z with
  | 0 => S754_zero sz
  | Z.pos N => Zfin false N
  | Z.neg N => Zfin true N
  end.

Definition is_int (x : float) (z : Z) : Prop := ∃ sz, Prim2SF x = Z2SF sz z.

Definition signed (s : bool) (N : positive) : Z :=
  if s then Z.neg N else Z.pos N.

(** The sum of a list of integers. *)
Definition zsum (l : list Z) : Z := foldr Z.add 0 l.

(** The values of the examples as integers, and as the floats a solve
    leaves; and values that are not integers: an overtime of [1e-7]
    everywhere. *)
Definition example_integers (v : LpVariable) : Z :=
  match v with
  | Staff_Assigned (d, s, c) => demand_on example_today "January" d s c
  | Overtime _ => 0
  | Staff_Hired c => example_hire c
  | Staff_Fired _ => 0
  | Total_Staff c => default_initial_staff c + example_hire c
  end.

Definition example_floats (v : LpVariable) : float :=
  Py.float_of_int (example_integers v).

Definition example_floats_inexact (v : LpVariable) : float :=
  match v with
  | Overtime _ => 0x1.ad7f29abcaf48p-24%float
  | _ => example_floats v
  end.

(** * Properties *)

(** ** Ranges, keys and the variable dictionaries *)

Lemma elem_of_range (d n : Z) : d ∈ Py.range n ↔ 0 ≤ d < n.
Proof.
  unfold Py.range. rewrite list_elem_of_fmap. split.
  - intros (i & -> & Hi). apply elem_of_seq in Hi. lia.
  - intros Hd. exists (Z.to_nat d). split; [lia|]. apply elem_of_seq. lia.
Qed.

Lemma elem_of_range2 (d a b : Z) : d ∈ Py.range2 a b ↔ a ≤ d < b.
Proof.
  unfold Py.range2. rewrite list_elem_of_fmap. split.
  - intros (i & -> & Hi). apply elem_of_seq in Hi. lia.
  - intros Hd. exists (Z.to_nat (d - a)). split; [lia|]. apply elem_of_seq. lia.
Qed.

Lemma elem_of_staff_categories (c : Category) : c ∈ staff_categories.
Proof. unfold staff_categories. destruct c; set_solver. Qed.

Lemma elem_of_shifts (s : Shift) : s ∈ shifts.
Proof. unfold shifts. destruct s; set_solver. Qed.

Lemma elem_of_overtime_categories (c : Category) :
  c ∈ filter (λ c, c ≠ Nurses) staff_categories ↔ c ≠ Nurses.
Proof.
  rewrite list_elem_of_filter. split; [tauto|].
  intros Hc. split; [done|]. apply elem_of_staff_categories.
Qed.

Lemma elem_of_all_keys (d : Z) (s : Shift) (c : Category) (n : Z) :
  (d, s, c) ∈ all_keys n ↔ 0 ≤ d < n.
Proof.
  unfold all_keys. rewrite list_elem_of_bind. split.
  - intros (d' & Hin & Hd'). apply elem_of_range in Hd'.
    apply list_elem_of_bind in Hin as (s' & Hin & _).
    apply list_elem_of_bind in Hin as (c' & Hin & _).
    apply list_elem_of_singleton in Hin. by simplify_eq.
  - intros Hd. exists d. split; [|by apply elem_of_range].
    apply list_elem_of_bind. exists s. split; [|apply elem_of_shifts].
    apply list_elem_of_bind. exists c. split; [|apply elem_of_staff_categories].
    by apply list_elem_of_singleton.
Qed.

Lemma elem_of_overtime_keys (d : Z) (s : Shift) (c : Category) (n : Z) :
  (d, s, c) ∈ overtime_keys n ↔ 0 ≤ d < n ∧ c ≠ Nurses.
Proof.
  unfold overtime_keys. rewrite list_elem_of_bind. split.
  - intros (d' & Hin & Hd'). apply elem_of_range in Hd'.
    apply list_elem_of_bind in Hin as (s' & Hin & _).
    apply list_elem_of_bind in Hin as (c' & Hin & Hc').
    apply list_elem_of_singleton in Hin. simplify_eq.
    by apply elem_of_overtime_categories in Hc'.
  - intros [Hd Hc]. exists d. split; [|by apply elem_of_range].
    apply list_elem_of_bind. exists s. split; [|apply elem_of_shifts].
    apply list_elem_of_bind. exists c.
    split; [|by apply elem_of_overtime_categories].
    by apply list_elem_of_singleton.
Qed.

Lemma LpVariable_dicts_Some `{Countable K} (name : K → LpVariable)
  (indices : list K) (k : K) :
  k ∈ indices → LpVariable_dicts name indices !! k = Some (name k).
Proof.
  intros Hk. unfold LpVariable_dicts. apply elem_of_list_to_map_1'.
  - intros y Hy. apply list_elem_of_fmap in Hy as (k' & Heq & _).
    by simplify_eq.
  - apply list_elem_of_fmap. by exists k.
Qed.

Lemma LpVariable_dicts_None `{Countable K} (name : K → LpVariable)
  (indices : list K) (k : K) :
  k ∉ indices → LpVariable_dicts name indices !! k = None.
Proof.
  intros Hk. unfold LpVariable_dicts. apply not_elem_of_list_to_map_1.
  rewrite <- list_fmap_compose. intros Hin.
  apply list_elem_of_fmap in Hin as (k' & -> & Hin). done.
Qed.

(** Inside [build_model] every [self.staff_assigned[(d, s, c)]] finds the
    variable of that name. *)
Lemma staff_assigned_getitem (num_days d : Z) (s : Shift) (c : Category) :
  0 ≤ d < num_days →
  LpVariable_dicts Staff_Assigned (all_keys num_days) !! (d, s, c)
  = Some (Staff_Assigned (d, s, c)).
Proof. intros Hd. apply LpVariable_dicts_Some. by apply elem_of_all_keys. Qed.

Lemma overtime_assigned_getitem (num_days d : Z) (s : Shift) (c : Category) :
  0 ≤ d < num_days → c ≠ Nurses →
  LpVariable_dicts Overtime (overtime_keys num_days) !! (d, s, c)
  = Some (Overtime (d, s, c)).
Proof. intros Hd Hc. apply LpVariable_dicts_Some. by apply elem_of_overtime_keys. Qed.

(** ** Demand forecaster *)

Lemma historical_tables_weekend (month : string) (table : Shift → Category → Z)
  (s : Shift) (c : Category) :
  (month, table) ∈ historical_demand_items →
  Py.int_of_float
    (PrimFloat.mul (Py.float_of_int (table s c)) 0x1.199999999999ap+0%float)
  = spec_weekend_demand (table s c).
Proof.
  unfold historical_demand_items. intros Hin.
  repeat (apply elem_of_cons in Hin as [Hin | Hin];
          [ injection Hin as -> ->; destruct s, c; vm_compute; reflexivity | ]).
  by apply elem_of_nil in Hin.
Qed.

(** C5: for a month of the historical table, the weekday forecast is the
    table's value unchanged, and the weekend forecast, [int(value * 1.1)] in
    binary64, is exactly the floor of 1.1 times the weekday forecast, for
    every shift and category.  [forecast_demand] is a function of
    [(month, day_type)] alone. *)
Theorem forecast_demand_weekend_floor (month : string)
  (table : Shift → Category → Z) (s : Shift) (c : Category) :
  historical_demand !! month = Some table →
  forecast_demand month "weekday" s c = table s c
  ∧ forecast_demand month "weekend" s c
    = spec_weekend_demand (forecast_demand month "weekday" s c).
Proof.
  intros Hm. unfold forecast_demand. rewrite Hm. simpl. split; [done|].
  apply (historical_tables_weekend month).
  by apply elem_of_list_to_map_2.
Qed.

Lemma forecast_demand_weekend_floor_witness :
  historical_demand !! "January"%string
  = Some (per_shift (per_category 14 9 8) (per_category 16 8 7) (per_category 11 7 6))
  ∧ forecast_demand "January" "weekday" Evening Caregivers = 16
  ∧ forecast_demand "January" "weekend" Evening Caregivers
    = spec_weekend_demand (forecast_demand "January" "weekday" Evening Caregivers).
Proof.
  split; [vm_compute; reflexivity|].
  apply (forecast_demand_weekend_floor "January"
           (per_shift (per_category 14 9 8) (per_category 16 8 7) (per_category 11 7 6))
           Evening Caregivers).
  vm_compute. reflexivity.
Defined.

(** ** Model builder: what a build produces *)

Lemma build_model_inr (today : Today) (month : string) (num_days : Z)
  (initial_staff : option (Category → Z)) (self self' : StaffScheduler)
  (p : LpProblem) :
  build_model today month num_days initial_staff self = (self', inr p) →
  ∃ month_number,
    Py.index month Py.month_name = Some month_number
    ∧ let m := if month_number =? 0 then today_month today else month_number in
      let n := horizon today month num_days in
      p = Problem (Some (total_cost_objective n))
            (linking_constraints (default default_initial_staff initial_staff)
             ++ coverage_constraints month
                  (day_types (Py.datetime (today_year today) m 1) n) n
             ++ capacity_constraints n
             ++ weekly_hours_constraints n
             ++ shift_distribution_constraints n)
            Not_Solved (λ _, 0%Q)
      ∧ self' = Scheduler (Some p)
                  (Some (LpVariable_dicts Staff_Assigned (all_keys n)))
                  (Some (LpVariable_dicts Overtime (overtime_keys n)))
                  (Some (LpVariable_dicts Staff_Hired staff_categories))
                  (Some (LpVariable_dicts Staff_Fired staff_categories))
                  (Some (LpVariable_dicts Total_Staff staff_categories)).
Proof.
  unfold build_model, horizon.
  destruct (Py.index month Py.month_name) as [month_number|]; [|discriminate].
  intros Heq. injection Heq as <- <-. by exists month_number.
Qed.

Lemma build_model_Some (today : Today) (month : string) (num_days : Z)
  (initial_staff : option (Category → Z)) (self : StaffScheduler) (month_number : Z) :
  Py.index month Py.month_name = Some month_number →
  ∃ self' p, build_model today month num_days initial_staff self = (self', inr p).
Proof. intros Hm. unfold build_model. rewrite Hm. eauto. Qed.

Lemma day_types_lookup (first_day n d : Z) :
  0 ≤ d < n →
  day_types first_day n !!! Z.to_nat d
  = if Py.weekday (first_day + d) <? 5 then "weekday"%string else "weekend"%string.
Proof.
  intros Hd. unfold day_types, Py.range.
  apply list_lookup_total_correct.
  rewrite !list_lookup_fmap, lookup_seq_lt by lia. simpl.
  by rewrite Z2Nat.id by lia.
Qed.

Lemma horizon_le_month (today : Today) (month : string) (num_days month_number : Z) :
  Py.index month Py.month_name = Some month_number →
  horizon today month num_days
  = Z.min num_days
      (Py.monthrange_ndays (today_year today)
         (if month_number =? 0 then today_month today else month_number)).
Proof.
  intros Hm. unfold horizon, clip_num_days. rewrite Hm.
  case_match; [apply Z.ltb_lt in H | apply Z.ltb_ge in H]; lia.
Qed.

Lemma build_model_raises (today : Today) (month : string) (num_days : Z)
  (initial_staff : option (Category → Z)) (self : StaffScheduler) :
  Py.index month Py.month_name = None →
  build_model today month num_days initial_staff self
  = (Scheduler (Some new_problem) (staff_assigned self) (overtime_assigned self)
       (staff_hired self) (staff_fired self) (total_staff self),
     inl (ValueError (Py.repr month +:+ " is not in list"))).
Proof. intros Hm. unfold build_model. by rewrite Hm. Qed.

(** C3, at the input where the claim fails: a month string that is not a
    calendar month name makes the month lookup of [build_model] raise
    [ValueError]; no model is built, and [self.problem] is left holding the
    new, empty problem. *)
Theorem build_model_unrecognized_month_raises :
  build_model example_today "Smarch" 7 None init
  = (Scheduler (Some new_problem) None None None None None,
     inl (ValueError "'Smarch' is not in list")).
Proof. vm_compute. reflexivity. Qed.

(** The forecaster, called on its own with the same month, does fall back
    to February's table. *)
Lemma forecast_demand_unrecognized_month (day_type : string) (s : Shift) (c : Category) :
  forecast_demand "Smarch" day_type s c = forecast_demand "February" day_type s c.
Proof. reflexivity. Qed.

(** C4 as stated fails: asked for 0 days of January, [build_model] keeps 0
    where the clamping of the specification gives 1, and creates no variable
    for day 0 and no constraint beyond the three linking ones and the three
    shift-distribution ones (over empty sums). *)
Lemma build_model_zero_days_not_raised :
  spec_clamp_num_days 2026 1 0 = 1
  ∧ horizon example_today "January" 0 = 0
  ∧ ∃ self' p dict,
      build_model example_today "January" 0 None init = (self', inr p)
      ∧ staff_assigned self' = Some dict
      ∧ dict !! (0, Morning, Caregivers) = None
      ∧ length (constraints p) = 6%nat.
Proof.
  split; [reflexivity|]. split; [reflexivity|].
  eexists _, _, _. split; [reflexivity|]. split; [reflexivity|].
  split; vm_compute; reflexivity.
Qed.

(** C4, amended: [build_model] clips [num_days] from above only.  For a month
    that [calendar.month_name] has, the model is built over
    [min(num_days, days-in-month)] days: the variables [Staff_Assigned] exist
    for exactly the days [0 <= d < min(num_days, days-in-month)], the
    [Overtime] ones for the same days and the categories other than Nurses,
    and the objective and the constraints are those of that many days. *)
Theorem build_model_clips_from_above (today : Today) (month : string)
  (num_days month_number : Z) (initial_staff : option (Category → Z))
  (self : StaffScheduler) :
  Py.index month Py.month_name = Some month_number →
  let m := if month_number =? 0 then today_month today else month_number in
  let n := Z.min num_days (Py.monthrange_ndays (today_year today) m) in
  ∃ self' p regular_vars overtime_vars,
    build_model today month num_days initial_staff self = (self', inr p)
    ∧ staff_assigned self' = Some regular_vars
    ∧ overtime_assigned self' = Some overtime_vars
    ∧ (∀ d s c, regular_vars !! (d, s, c)
               = if decide (0 ≤ d < n) then Some (Staff_Assigned (d, s, c)) else None)
    ∧ (∀ d s c, overtime_vars !! (d, s, c)
               = if decide (0 ≤ d < n ∧ c ≠ Nurses)
                 then Some (Overtime (d, s, c)) else None)
    ∧ objective p = Some (total_cost_objective n)
    ∧ constraints p
      = linking_constraints (default default_initial_staff initial_staff)
        ++ coverage_constraints month
             (day_types (Py.datetime (today_year today) m 1) n) n
        ++ capacity_constraints n
        ++ weekly_hours_constraints n
        ++ shift_distribution_constraints n.
Proof.
  intros Hm m n.
  destruct (build_model_Some today month num_days initial_staff self _ Hm)
    as (self' & p & Hbuild).
  exists self', p. 
  destruct (build_model_inr _ _ _ _ _ _ _ Hbuild) as (mn & Hmn & Hp & Hself).
  rewrite Hm in Hmn. injection Hmn as <-.
  rewrite (horizon_le_month _ _ _ _ Hm) in Hp, Hself. fold m n in Hp, Hself.
  eexists _, _. split; [done|]. rewrite Hself. simpl.
  split; [done|]. split; [done|]. split; [|split; [|by rewrite Hp]].
  - intros d s c. case_decide.
    + by apply staff_assigned_getitem.
    + apply LpVariable_dicts_None. by rewrite elem_of_all_keys.
  - intros d s c. case_decide as Hd.
    + destruct Hd. by apply overtime_assigned_getitem.
    + apply LpVariable_dicts_None. by rewrite elem_of_overtime_keys.
Qed.

Lemma build_model_clips_from_above_witness :
  Py.index "February" Py.month_name = Some 2
  ∧ ∃ self' p regular_vars overtime_vars,
    build_model example_today "February" 31 None init = (self', inr p)
    ∧ staff_assigned self' = Some regular_vars
    ∧ overtime_assigned self' = Some overtime_vars
    ∧ (∀ d s c, regular_vars !! (d, s, c)
               = if decide (0 ≤ d < 28) then Some (Staff_Assigned (d, s, c)) else None)
    ∧ (∀ d s c, overtime_vars !! (d, s, c)
               = if decide (0 ≤ d < 28 ∧ c ≠ Nurses)
                 then Some (Overtime (d, s, c)) else None)
    ∧ objective p = Some (total_cost_objective 28)
    ∧ constraints p
      = linking_constraints default_initial_staff
        ++ coverage_constraints "February"
             (day_types (Py.datetime 2026 2 1) 28) 28
        ++ capacity_constraints 28
        ++ weekly_hours_constraints 28
        ++ shift_distribution_constraints 28.
Proof.
  split; [reflexivity|].
  apply (build_model_clips_from_above example_today "February" 31 2 None init).
  reflexivity.
Defined.

(** ** Solver adapter and extractor: inversion lemmas *)

Lemma status_is_optimal (st : LpStatus) :
  String.eqb (LpStatus_name st) "Optimal" = true ↔ st = Optimal.
Proof. destruct st; simpl; split; (done || discriminate). Qed.

Lemma solve_model_inr (cbc : Solver) (self self' : StaffScheduler) (st : LpStatus) :
  solve_model cbc self = (self', inr st) →
  ∃ p values,
    problem self = Some p ∧ cbc p = Some (st, values)
    ∧ self' = Scheduler (Some (Problem (objective p) (constraints p) st values))
                (staff_assigned self) (overtime_assigned self) (staff_hired self)
                (staff_fired self) (total_staff self).
Proof.
  unfold solve_model. destruct (problem self) as [p|]; [|discriminate].
  destruct (cbc p) as [[st' values]|] eqn:Hcbc; [|discriminate].
  intros Heq. injection Heq as <- <-. by exists p, values.
Qed.

Section extract_loop.
Variable read : Key → exn + Q.

Lemma extract_loop_inr (keys : list Key) (out m : gmap Key Q) :
  extract_loop read keys out = inr m →
  ∀ k q, m !! k = Some q
         ↔ out !! k = Some q ∨ (out !! k = None ∧ k ∈ keys ∧ read k = inr q).
Proof.
  revert out. induction keys as [|key keys IH]; intros out; simpl.
  - intros [= <-] k q. rewrite elem_of_nil. tauto.
  - destruct (out !! key) as [v|] eqn:Hkey.
    + intros Hloop k q. rewrite (IH _ Hloop), elem_of_cons.
      split; [tauto|].
      intros [?|(? & [->|?] & ?)]; [by left|congruence|by right].
    + destruct (read key) as [e|v] eqn:Hread; [discriminate|].
      intros Hloop k q. rewrite (IH _ Hloop), elem_of_cons.
      destruct (decide (k = key)) as [->|Hne].
      * rewrite lookup_insert_eq, Hkey, Hread. split.
        -- intros [[= ->]|[[=] _]]. right. auto.
        -- intros [[=]|(_ & _ & [= ->])]. by left.
      * rewrite lookup_insert_ne by done. tauto.
Qed.

Lemma extract_loop_total (keys : list Key) (out : gmap Key Q) :
  (∀ k, k ∈ keys → ∃ q, read k = inr q) →
  ∃ m, extract_loop read keys out = inr m.
Proof.
  revert out. induction keys as [|key keys IH]; intros out Hread; simpl.
  - by exists out.
  - destruct (out !! key).
    + apply IH. intros k Hk. apply Hread. by right.
    + destruct (Hread key) as [q ->]; [by left|].
      apply IH. intros k Hk. apply Hread. by right.
Qed.

Lemma extract_loop_raises (l1 l2 : list Key) (k : Key) (out : gmap Key Q) (e : exn) :
  (∀ k', k' ∈ l1 → ∃ q, read k' = inr q) →
  k ∉ l1 → out !! k = None → read k = inl e →
  extract_loop read (l1 ++ k :: l2) out = inl e.
Proof.
  revert out. induction l1 as [|key l1 IH]; intros out Hread Hk Hout He; simpl.
  - by rewrite Hout, He.
  - apply not_elem_of_cons in Hk as [Hne Hk].
    assert (∀ k', k' ∈ l1 → ∃ q, read k' = inr q) as Hread'
      by (intros k' Hk'; apply Hread; by right).
    destruct (out !! key); [by apply IH|].
    destruct (Hread key) as [q ->]; [by left|].
    apply IH; [done..| |done]. by rewrite lookup_insert_ne.
Qed.

Lemma extract_loop_inl (keys : list Key) (out : gmap Key Q) (e : exn) :
  extract_loop read keys out = inl e → ∃ k, read k = inl e.
Proof.
  revert out. induction keys as [|key keys IH]; intros out; simpl; [discriminate|].
  destruct (out !! key); [apply IH|].
  destruct (read key) as [e'|v] eqn:Hread; [|apply IH].
  intros [= <-]. by exists key.
Qed.
End extract_loop.

Lemma extract_staff_changes_inl (self : StaffScheduler) (values : LpVariable → Q)
  (cs : list Category) (out : gmap Category StaffChanges) (e : exn) :
  extract_staff_changes self values cs out = inl e →
  e = TypeError ∨ ∃ c, e = KeyError_category c.
Proof.
  assert (∀ dict c q, read_category dict values c = inl q →
            q = TypeError ∨ ∃ c, q = KeyError_category c) as Hread.
  { intros dict c q. unfold read_category.
    destruct dict as [dict|]; [|intros [= <-]; by left].
    destruct (dict !! c); [discriminate|]. intros [= <-]. right. by exists c. }
  revert out. induction cs as [|c cs IH]; intros out; simpl; [discriminate|].
  destruct (read_category (staff_hired self) values c) eqn:Hh;
    [intros [= <-]; by eapply Hread|].
  destruct (read_category (staff_fired self) values c) eqn:Hf;
    [intros [= <-]; by eapply Hread|].
  destruct (read_category (total_staff self) values c) eqn:Ht;
    [intros [= <-]; by eapply Hread|].
  apply IH.
Qed.

Lemma get_schedule_inr (self : StaffScheduler) (num_days : Z) (schedule : Schedule) :
  get_schedule self num_days = inr schedule →
  ∃ p, problem self = Some p ∧ status p = Optimal
       ∧ extract_loop (read_regular self (varValue p)) (all_keys num_days) ∅
         = inr (regular schedule)
       ∧ extract_loop (read_overtime self (varValue p)) (overtime_keys num_days) ∅
         = inr (overtime schedule)
       ∧ extract_staff_changes self (varValue p) staff_categories ∅
         = inr (staff_changes schedule)
       ∧ read_objective p = inr (total_cost schedule).
Proof.
  unfold get_schedule. destruct (problem self) as [p|]; [|discriminate].
  destruct (String.eqb _ _) eqn:Hst; [|discriminate]. cbn [negb].
  apply status_is_optimal in Hst.
  destruct (read_objective p) as [?|cost] eqn:Hcost; [discriminate|].
  destruct (extract_loop (read_regular _ _) _ _) as [?|reg] eqn:Hreg; [discriminate|].
  destruct (extract_loop (read_overtime _ _) _ _) as [?|ot] eqn:Hot; [discriminate|].
  destruct (extract_staff_changes _ _ _ _) as [?|ch] eqn:Hch; [discriminate|].
  intros [= <-]. by exists p.
Qed.

(** C7: [solve_model] raises [ValueError] (the specification's StateError) on
    a scheduler whose model was never built and leaves the scheduler as it
    was; [get_schedule] raises it on such a scheduler and on one whose status
    is not [Optimal]; on a scheduler with a model whose status is [Optimal],
    [get_schedule] never raises it. *)
Theorem state_errors (cbc : Solver) (self : StaffScheduler) (num_days : Z) :
  (problem self = None →
     solve_model cbc self
     = (self, inl (ValueError "Model not built yet. Call build_model() first."))
     ∧ get_schedule self num_days = inl (ValueError "Model not solved optimally yet."))
  ∧ (∀ p, problem self = Some p → status p ≠ Optimal →
       get_schedule self num_days = inl (ValueError "Model not solved optimally yet."))
  ∧ (∀ p msg, problem self = Some p → status p = Optimal →
       get_schedule self num_days ≠ inl (ValueError msg)).
Proof.
  split; [|split].
  - intros Hp. unfold solve_model, get_schedule. by rewrite Hp.
  - intros p Hp Hst. unfold get_schedule. rewrite Hp.
    destruct (String.eqb _ _) eqn:Heq; [|done].
    by apply status_is_optimal in Heq.
  - intros p msg Hp Hst. unfold get_schedule. rewrite Hp, Hst.
    cbn [LpStatus_name String.eqb Ascii.eqb Bool.eqb negb].
    destruct (read_objective p) as [e|cost] eqn:Hcost.
    { unfold read_objective in Hcost.
      destruct (objective p); [discriminate|]. by injection Hcost as <-. }
    destruct (extract_loop (read_regular _ _) _ _) as [e|reg] eqn:Hreg.
    { apply extract_loop_inl in Hreg as [k Hk]. unfold read_regular in Hk.
      repeat case_match; naive_solver. }
    destruct (extract_loop (read_overtime _ _) _ _) as [e|ot] eqn:Hot.
    { apply extract_loop_inl in Hot as [k Hk]. unfold read_overtime in Hk.
      repeat case_match; naive_solver. }
    destruct (extract_staff_changes _ _ _ _) as [e|ch] eqn:Hch; [|done].
    apply extract_staff_changes_inl in Hch as [->|[c ->]]; discriminate.
Qed.

Lemma state_errors_witness :
  (solve_model (checking_solver example_values) init
   = (init, inl (ValueError "Model not built yet. Call build_model() first."))
   ∧ get_schedule init 7 = inl (ValueError "Model not solved optimally yet."))
  ∧ get_schedule example_built 7 = inl (ValueError "Model not solved optimally yet.")
  ∧ get_schedule example_solved 7 ≠ inl (ValueError "Model not solved optimally yet.").
Proof.
  split; [|split].
  - apply (proj1 (state_errors (checking_solver example_values) init 7)).
    reflexivity.
  - eapply (proj1 (proj2 (state_errors (checking_solver example_values)
                            example_built 7))).
    + reflexivity.
    + simpl. discriminate.
  - eapply (proj2 (proj2 (state_errors (checking_solver example_values)
                            example_solved 7))).
    + reflexivity.
    + vm_compute. reflexivity.
Defined.

(** ** Schedule extractor: which entries a schedule has *)

Lemma extract_loop_inr_dom (read : Key → exn + Q) (keys : list Key)
  (out m : gmap Key Q) :
  extract_loop read keys out = inr m → ∀ k, k ∈ keys → is_Some (m !! k).
Proof.
  revert out. induction keys as [|key keys IH]; intros out; simpl.
  - intros _ k Hk. by apply elem_of_nil in Hk.
  - destruct (out !! key) as [v|] eqn:Hkey.
    + intros Hloop k [->|Hk]%elem_of_cons; [|by eapply IH].
      exists v. apply (extract_loop_inr _ _ _ _ Hloop). by left.
    + destruct (read key) as [e|v] eqn:Hread; [discriminate|].
      intros Hloop k [->|Hk]%elem_of_cons; [|by eapply IH].
      exists v. apply (extract_loop_inr _ _ _ _ Hloop). left.
      apply lookup_insert_eq.
Qed.

Lemma extract_loop_lookup (read : Key → exn + Q) (keys : list Key)
  (m : gmap Key Q) (k : Key) :
  extract_loop read keys ∅ = inr m →
  (is_Some (m !! k) ↔ k ∈ keys)
  ∧ ∀ q, m !! k = Some q → read k = inr q.
Proof.
  intros Hloop. split; [split|].
  - intros [q Hq]. apply (extract_loop_inr _ _ _ _ Hloop) in Hq.
    destruct Hq as [Hq|(_ & Hk & _)]; [by rewrite lookup_empty in Hq|done].
  - by eapply extract_loop_inr_dom.
  - intros q Hq. apply (extract_loop_inr _ _ _ _ Hloop) in Hq.
    destruct Hq as [Hq|(_ & _ & Hq)]; [by rewrite lookup_empty in Hq|done].
Qed.

(** C8 as stated fails: January, seven days, solved and extracted; the
    regular map has the Nurses' entry of day 0, the overtime map has none. *)
Lemma nurses_overtime_entry_absent :
  ∃ schedule,
    get_schedule example_solved 7 = inr schedule
    ∧ regular schedule !! (0, Morning, Nurses) = Some 9%Q
    ∧ overtime schedule !! (0, Morning, Caregivers) = Some 0%Q
    ∧ overtime schedule !! (0, Morning, Nurses) = None.
Proof.
  assert (match get_schedule example_solved 7 with
          | inl _ => None
          | inr schedule =>
              Some (regular schedule !! (0, Morning, Nurses),
                    overtime schedule !! (0, Morning, Caregivers),
                    overtime schedule !! (0, Morning, Nurses))
          end = Some (Some 9%Q, Some 0%Q, None)) as Hrun
    by (vm_compute; reflexivity).
  destruct (get_schedule example_solved 7) as [e|schedule]; [discriminate|].
  injection Hrun as Hr Ho Hn. by exists schedule.
Qed.

Lemma get_schedule_inr_entries (self : StaffScheduler) (num_days : Z)
  (schedule : Schedule) (d : Z) (s : Shift) (c : Category) :
  get_schedule self num_days = inr schedule →
  (is_Some (regular schedule !! (d, s, c)) ↔ 0 ≤ d < num_days)
  ∧ (is_Some (overtime schedule !! (d, s, c)) ↔ 0 ≤ d < num_days ∧ c ≠ Nurses).
Proof.
  intros (p & _ & _ & Hreg & Hot & _)%get_schedule_inr.
  pose proof (extract_loop_lookup _ _ _ (d, s, c) Hreg) as [Hr _].
  pose proof (extract_loop_lookup _ _ _ (d, s, c) Hot) as [Ho _].
  rewrite elem_of_all_keys in Hr. by rewrite elem_of_overtime_keys in Ho.
Qed.

(** C8, amended: a successful extraction over [num_days] days returns a
    regular entry for exactly the triples [(d, s, c)] with
    [0 <= d < num_days], and an overtime entry for exactly those of them
    whose category is not Nurses, with the value 0 where [overtime_assigned]
    has no variable; for Nurses the overtime map has no entry. *)
Theorem get_schedule_entries (self : StaffScheduler) (num_days : Z)
  (schedule : Schedule) :
  get_schedule self num_days = inr schedule →
  ∀ d s c,
    (is_Some (regular schedule !! (d, s, c)) ↔ 0 ≤ d < num_days)
    ∧ (is_Some (overtime schedule !! (d, s, c)) ↔ 0 ≤ d < num_days ∧ c ≠ Nurses)
    ∧ overtime schedule !! (d, s, Nurses) = None
    ∧ (∀ vars, overtime_assigned self = Some vars → vars !! (d, s, c) = None →
         0 ≤ d < num_days → c ≠ Nurses →
         overtime schedule !! (d, s, c) = Some 0%Q).
Proof.
  intros Hget d s c.
  destruct (get_schedule_inr_entries _ _ _ d s c Hget) as [Hr Ho].
  destruct (get_schedule_inr_entries _ _ _ d s Nurses Hget) as [_ Hn].
  apply get_schedule_inr in Hget as (p & _ & _ & _ & Hot & _).
  pose proof (extract_loop_lookup _ _ _ (d, s, c) Hot) as [_ Hov].
  split; [done|]. split; [done|]. split.
  - destruct (overtime schedule !! (d, s, Nurses)) eqn:Heq; [|done].
    assert (is_Some (Some q)) as Hs by eauto. apply Hn in Hs. by destruct Hs.
  - intros vars Hvars Hnone Hd Hc.
    destruct (proj2 Ho (conj Hd Hc)) as [q Hq]. rewrite Hq. f_equal.
    apply Hov in Hq. unfold read_overtime in Hq. rewrite Hvars, Hnone in Hq.
    by injection Hq.
Qed.

Lemma get_schedule_entries_witness :
  ∃ schedule,
    get_schedule example_solved 7 = inr schedule
    ∧ (is_Some (regular schedule !! (6, Night, Nurses)) ↔ 0 ≤ 6 < 7)
    ∧ (is_Some (overtime schedule !! (6, Night, Nurses)) ↔ 0 ≤ 6 < 7 ∧ Nurses ≠ Nurses)
    ∧ overtime schedule !! (6, Night, Nurses) = None.
Proof.
  assert (is_inr (get_schedule example_solved 7) = true) as Hrun
    by (vm_compute; reflexivity).
  destruct (get_schedule example_solved 7) as [e|schedule] eqn:Hget;
    [discriminate|].
  exists schedule. split; [reflexivity|].
  destruct (get_schedule_entries example_solved 7 schedule Hget 6 Night Nurses)
    as (Hr & Ho & Hn & _).
  split; [exact Hr|]. split; [exact Ho|exact Hn].
Defined.

(** ** Schedule extractor: the values it stores *)

(** C9 as stated fails: the solver leaves 14.0000001 in the integer variable
    of day 0's morning Caregivers; the extracted schedule exposes that very
    number, which is no integer. *)
Lemma get_schedule_exposes_inexact_value :
  ∃ schedule,
    get_schedule example_solved_inexact 7 = inr schedule
    ∧ regular schedule !! (0, Morning, Caregivers) = Some (140000001 # 10000000)%Q
    ∧ is_integer (140000001 # 10000000) = false.
Proof.
  assert (match get_schedule example_solved_inexact 7 with
          | inl _ => None
          | inr schedule => Some (regular schedule !! (0, Morning, Caregivers))
          end = Some (Some (140000001 # 10000000)%Q)) as Hrun
    by (vm_compute; reflexivity).
  destruct (get_schedule example_solved_inexact 7) as [e|schedule];
    [discriminate|].
  injection Hrun as Hr. by exists schedule.
Qed.

(** C9, amended: [get_schedule] stores every solver value unchanged, without
    rounding: a regular entry is the value of the variable
    [staff_assigned] has at that key, an overtime entry is the value of the
    variable [overtime_assigned] has there, or 0 when it has none.  So when
    the solver left a non-negative integer in every variable, every regular
    and overtime value of the schedule is a non-negative integer. *)
Theorem get_schedule_values_unchanged (self : StaffScheduler) (num_days : Z)
  (schedule : Schedule) (p : LpProblem) :
  get_schedule self num_days = inr schedule →
  problem self = Some p →
  (∀ k q, regular schedule !! k = Some q →
     ∃ vars v, staff_assigned self = Some vars ∧ vars !! k = Some v
               ∧ q = varValue p v)
  ∧ (∀ k q, overtime schedule !! k = Some q →
       ∃ vars, overtime_assigned self = Some vars
               ∧ q = match vars !! k with Some v => varValue p v | None => 0%Q end)
  ∧ ((∀ v, is_integer (varValue p v) = true ∧ (0 <= varValue p v)%Q) →
     ∀ k q, regular schedule !! k = Some q ∨ overtime schedule !! k = Some q →
       is_integer q = true ∧ (0 <= q)%Q).
Proof.
  intros (p' & Hp' & _ & Hreg & Hot & _)%get_schedule_inr Hp.
  rewrite Hp in Hp'. injection Hp' as <-.
  assert (∀ k q, regular schedule !! k = Some q →
            ∃ vars v, staff_assigned self = Some vars ∧ vars !! k = Some v
                      ∧ q = varValue p v) as Hr.
  { intros k q Hq. apply (extract_loop_lookup _ _ _ k Hreg) in Hq.
    unfold read_regular in Hq.
    destruct (staff_assigned self) as [vars|]; [|discriminate].
    destruct (vars !! k) as [v|] eqn:Hv; [|discriminate].
    injection Hq as <-. by exists vars, v. }
  assert (∀ k q, overtime schedule !! k = Some q →
            ∃ vars, overtime_assigned self = Some vars
                    ∧ q = match vars !! k with
                          | Some v => varValue p v | None => 0%Q
                          end) as Ho.
  { intros k q Hq. apply (extract_loop_lookup _ _ _ k Hot) in Hq.
    unfold read_overtime in Hq.
    destruct (overtime_assigned self) as [vars|]; [|discriminate].
    exists vars. split; [done|].
    destruct (vars !! k); by injection Hq as <-. }
  split; [done|]. split; [done|].
  intros Hint k q [Hq|Hq].
  - destruct (Hr k q Hq) as (vars & v & _ & _ & ->). apply Hint.
  - destruct (Ho k q Hq) as (vars & _ & ->).
    destruct (vars !! k); [apply Hint|]. split; [reflexivity|discriminate].
Qed.

Lemma get_schedule_values_unchanged_witness :
  ∃ schedule p,
    get_schedule example_solved 7 = inr schedule
    ∧ problem example_solved = Some p
    ∧ (∀ k q, regular schedule !! k = Some q →
         ∃ vars v, staff_assigned example_solved = Some vars ∧ vars !! k = Some v
                   ∧ q = varValue p v)
    ∧ (∀ k q, overtime schedule !! k = Some q →
         ∃ vars, overtime_assigned example_solved = Some vars
                 ∧ q = match vars !! k with Some v => varValue p v | None => 0%Q end).
Proof.
  assert (is_inr (get_schedule example_solved 7) = true) as Hrun
    by (vm_compute; reflexivity).
  destruct (get_schedule example_solved 7) as [e|schedule] eqn:Hget;
    [discriminate|].
  exists schedule. eexists. split; [reflexivity|].
  split; [reflexivity|].
  destruct (get_schedule_values_unchanged example_solved 7 schedule _ Hget eq_refl)
    as (Hr & Ho & _).
  split; [exact Hr|exact Ho].
Defined.

Lemma pair_snd_eq {A B : Type} (x : A * B) (b : B) : x.2 = b → x = (x.1, b).
Proof. destruct x. simpl. by intros ->. Qed.

(** The example scheduler is the result of a build followed by a solve that
    reports [Optimal]. *)
Lemma example_built_eq :
  ∃ p, build_model example_today "January" 7 None init = (example_built, inr p).
Proof. eexists. apply pair_snd_eq. reflexivity. Qed.

Lemma example_solved_eq :
  solve_model (checking_solver example_values) example_built
  = (example_solved, inr Optimal).
Proof. apply pair_snd_eq. vm_compute. reflexivity. Qed.

(** On the model of the example the checking solver reports [Optimal] with
    the values of the example. *)
Lemma example_values_optimal (p : LpProblem) :
  build_model example_today "January" 7 None init = (example_built, inr p) →
  checking_solver example_values p = Some (Optimal, example_values).
Proof.
  intros Hbuild. apply (f_equal snd) in Hbuild. cbn [snd] in Hbuild.
  injection Hbuild as <-. unfold checking_solver.
  match goal with
  | |- context [all_hold ?v ?q] =>
      assert (all_hold v q = true) as -> by (vm_compute; reflexivity)
  end.
  reflexivity.
Qed.

(** ** Extraction over a horizon other than the built one *)

Lemma range_split (h n : Z) :
  0 ≤ h < n → Py.range n = Py.range h ++ h :: Py.range2 (h + 1) n.
Proof.
  intros Hh. unfold Py.range, Py.range2.
  replace (Z.to_nat n) with (Z.to_nat h + S (Z.to_nat (n - (h + 1))))%nat by lia.
  rewrite seq_app, fmap_app. f_equal. simpl. f_equal; [lia|].
  replace (S (Z.to_nat h)) with (S (Z.to_nat h) + 0)%nat by lia.
  rewrite <- fmap_add_seq, <- list_fmap_compose.
  apply list_fmap_ext. intros i x _. simpl. lia.
Qed.

Lemma all_keys_split (h n : Z) :
  0 ≤ h < n →
  ∃ rest, all_keys n = all_keys h ++ (h, Morning, Caregivers) :: rest.
Proof.
  intros Hh. unfold all_keys. rewrite (range_split h n Hh), bind_app.
  simpl. eauto.
Qed.

(** After a build and a solve the scheduler holds the dictionaries of the
    built horizon and the solver's values. *)
Lemma built_and_solved (today : Today) (month : string) (num_days : Z)
  (initial_staff : option (Category → Z)) (self0 self1 self2 : StaffScheduler)
  (p : LpProblem) (cbc : Solver) (st : LpStatus) :
  build_model today month num_days initial_staff self0 = (self1, inr p) →
  solve_model cbc self1 = (self2, inr st) →
  ∃ values,
    cbc p = Some (st, values)
    ∧ objective p = Some (total_cost_objective (horizon today month num_days))
    ∧ self2 = Scheduler (Some (Problem (objective p) (constraints p) st values))
        (Some (LpVariable_dicts Staff_Assigned
                 (all_keys (horizon today month num_days))))
        (Some (LpVariable_dicts Overtime
                 (overtime_keys (horizon today month num_days))))
        (Some (LpVariable_dicts Staff_Hired staff_categories))
        (Some (LpVariable_dicts Staff_Fired staff_categories))
        (Some (LpVariable_dicts Total_Staff staff_categories)).
Proof.
  intros (mn & _ & Hp & ->)%build_model_inr
         (p' & values & [= <-] & Hcbc & ->)%solve_model_inr.
  exists values. split; [done|]. split; [by rewrite Hp|done].
Qed.

(** The three per-category dictionaries of a built scheduler are read
    without error. *)
Lemma extract_staff_changes_built (self : StaffScheduler) (values : LpVariable → Q) :
  staff_hired self = Some (LpVariable_dicts Staff_Hired staff_categories) →
  staff_fired self = Some (LpVariable_dicts Staff_Fired staff_categories) →
  total_staff self = Some (LpVariable_dicts Total_Staff staff_categories) →
  ∃ changes,
    extract_staff_changes self values staff_categories ∅ = inr changes
    ∧ ∀ c, changes !! c
           = Some {| hired := values (Staff_Hired c);
                     fired := values (Staff_Fired c);
                     total := values (Total_Staff c) |}.
Proof.
  intros Hh Hf Ht. unfold staff_categories.
  cbn [extract_staff_changes]. unfold read_category. rewrite Hh, Hf, Ht.
  rewrite !LpVariable_dicts_Some by apply elem_of_staff_categories.
  eexists. split; [done|].
  intros []; by simplify_map_eq.
Qed.

(** C10: [get_schedule] takes its own [num_days].  On a scheduler built
    over a horizon of [h] days ([h] is 0 when the clipped [num_days] is
    negative) and solved to [Optimal]: with [num_days <= h] it returns the
    regular entries of exactly the days [0 <= d < num_days] (and the
    overtime entries of those days for the categories other than Nurses);
    with [num_days > h] it raises [KeyError] at the first key of day [h]
    and returns nothing. *)
Theorem get_schedule_own_num_days (today : Today) (month : string)
  (build_days : Z) (initial_staff : option (Category → Z))
  (self0 self1 self2 : StaffScheduler) (p : LpProblem) (cbc : Solver)
  (num_days : Z) :
  build_model today month build_days initial_staff self0 = (self1, inr p) →
  solve_model cbc self1 = (self2, inr Optimal) →
  let h := Z.max 0 (horizon today month build_days) in
  (num_days ≤ h →
     ∃ schedule,
       get_schedule self2 num_days = inr schedule
       ∧ ∀ d s c,
           (is_Some (regular schedule !! (d, s, c)) ↔ 0 ≤ d < num_days)
           ∧ (is_Some (overtime schedule !! (d, s, c))
              ↔ 0 ≤ d < num_days ∧ c ≠ Nurses))
  ∧ (h < num_days →
     get_schedule self2 num_days = inl (KeyError (h, Morning, Caregivers))).
Proof.
  intros Hbuild Hsolve h.
  destruct (built_and_solved _ _ _ _ _ _ _ _ _ _ Hbuild Hsolve)
    as (values & _ & Hobj & ->).
  set (n := horizon today month build_days) in *.
  assert (read_objective (Problem (objective p) (constraints p) Optimal values)
          = inr (value values (total_cost_objective n))) as Hcost
    by (unfold read_objective; cbn [objective varValue]; by rewrite Hobj).
  assert (∀ k, k ∈ all_keys h →
            ∃ q, read_regular
                   (Scheduler (Some (Problem (objective p) (constraints p) Optimal values))
                      (Some (LpVariable_dicts Staff_Assigned (all_keys n)))
                      (Some (LpVariable_dicts Overtime (overtime_keys n)))
                      (Some (LpVariable_dicts Staff_Hired staff_categories))
                      (Some (LpVariable_dicts Staff_Fired staff_categories))
                      (Some (LpVariable_dicts Total_Staff staff_categories)))
                   values k = inr q) as Hread.
  { intros [[d s] c] Hk%elem_of_all_keys. unfold read_regular. cbn [staff_assigned].
    rewrite staff_assigned_getitem by lia. eauto. }
  split.
  - intros Hle.
    assert (∃ schedule,
              get_schedule
                (Scheduler (Some (Problem (objective p) (constraints p) Optimal values))
                   (Some (LpVariable_dicts Staff_Assigned (all_keys n)))
                   (Some (LpVariable_dicts Overtime (overtime_keys n)))
                   (Some (LpVariable_dicts Staff_Hired staff_categories))
                   (Some (LpVariable_dicts Staff_Fired staff_categories))
                   (Some (LpVariable_dicts Total_Staff staff_categories)))
                num_days = inr schedule) as [schedule Hget].
    { unfold get_schedule.
      cbn [problem status varValue objective LpStatus_name String.eqb Ascii.eqb
           Bool.eqb negb].
      rewrite Hcost.
      edestruct (extract_loop_total
                   (read_regular
                      (Scheduler (Some (Problem (objective p) (constraints p) Optimal values))
                         (Some (LpVariable_dicts Staff_Assigned (all_keys n)))
                         (Some (LpVariable_dicts Overtime (overtime_keys n)))
                         (Some (LpVariable_dicts Staff_Hired staff_categories))
                         (Some (LpVariable_dicts Staff_Fired staff_categories))
                         (Some (LpVariable_dicts Total_Staff staff_categories)))
                      values) (all_keys num_days) ∅) as [reg ->].
      { intros [[d s] c] Hk%elem_of_all_keys. apply Hread, elem_of_all_keys. lia. }
      edestruct (extract_loop_total
                   (read_overtime
                      (Scheduler (Some (Problem (objective p) (constraints p) Optimal values))
                         (Some (LpVariable_dicts Staff_Assigned (all_keys n)))
                         (Some (LpVariable_dicts Overtime (overtime_keys n)))
                         (Some (LpVariable_dicts Staff_Hired staff_categories))
                         (Some (LpVariable_dicts Staff_Fired staff_categories))
                         (Some (LpVariable_dicts Total_Staff staff_categories)))
                      values) (overtime_keys num_days) ∅) as [ot ->].
      { intros k _. unfold read_overtime. cbn [overtime_assigned].
        destruct (_ !! k); eauto. }
      edestruct (extract_staff_changes_built
                   (Scheduler (Some (Problem (objective p) (constraints p) Optimal values))
                      (Some (LpVariable_dicts Staff_Assigned (all_keys n)))
                      (Some (LpVariable_dicts Overtime (overtime_keys n)))
                      (Some (LpVariable_dicts Staff_Hired staff_categories))
                      (Some (LpVariable_dicts Staff_Fired staff_categories))
                      (Some (LpVariable_dicts Total_Staff staff_categories)))
                   values) as (ch & -> & _); [done..|].
      eauto. }
    exists schedule. split; [done|].
    intros d s c. by apply get_schedule_inr_entries with (1 := Hget).
  - intros Hlt.
    destruct (all_keys_split h num_days) as [rest Hkeys]; [lia|].
    unfold get_schedule.
    cbn [problem status varValue objective LpStatus_name String.eqb Ascii.eqb
         Bool.eqb negb].
    rewrite Hcost, Hkeys.
    rewrite (extract_loop_raises _ _ _ _ _ (KeyError (h, Morning, Caregivers)));
      [done|done| | |].
    + rewrite elem_of_all_keys. lia.
    + apply lookup_empty.
    + unfold read_regular. cbn [staff_assigned].
      rewrite LpVariable_dicts_None; [done|]. rewrite elem_of_all_keys. lia.
Qed.

Lemma get_schedule_own_num_days_witness :
  (∃ schedule,
     get_schedule example_solved 3 = inr schedule
     ∧ ∀ d s c,
         (is_Some (regular schedule !! (d, s, c)) ↔ 0 ≤ d < 3)
         ∧ (is_Some (overtime schedule !! (d, s, c)) ↔ 0 ≤ d < 3 ∧ c ≠ Nurses))
  ∧ get_schedule example_solved 8 = inl (KeyError (7, Morning, Caregivers)).
Proof.
  destruct example_built_eq as [p Hbuild].
  split.
  - apply (proj1 (get_schedule_own_num_days example_today "January" 7 None init
                    example_built example_solved p
                    (checking_solver example_values) 3
                    Hbuild example_solved_eq)).
    vm_compute. discriminate.
  - apply (proj2 (get_schedule_own_num_days example_today "January" 7 None init
                    example_built example_solved p
                    (checking_solver example_values) 8
                    Hbuild example_solved_eq)).
    vm_compute. reflexivity.
Defined.

(** ** Coverage *)

Lemma holdsb_holds (values : LpVariable → Q) (c : LpConstraint) :
  holdsb values c = true → holds values c.
Proof.
  unfold holdsb, holds. destruct (sense c).
  - apply Qle_bool_imp_le.
  - apply Qle_bool_imp_le.
  - apply Qeq_bool_eq.
Qed.

Lemma checking_solver_sound (values : LpVariable → Q) :
  solver_sound (checking_solver values).
Proof.
  intros p st values' [= <- <-] Hst. unfold all_hold in Hst.
  destruct (forallb _ _) eqn:Hall; [|discriminate].
  apply Forall_forall. intros c Hc. apply holdsb_holds.
  rewrite forallb_forall in Hall. apply Hall. by apply list_elem_of_In.
Qed.

Lemma coverage_constraint_built (today : Today) (month : string) (num_days : Z)
  (initial_staff : option (Category → Z)) (self self' : StaffScheduler)
  (p : LpProblem) (d : Z) (s : Shift) (c : Category) :
  build_model today month num_days initial_staff self = (self', inr p) →
  0 ≤ d < horizon today month num_days →
  coverage_constraint month (day_type_on today month d) d s c ∈ constraints p.
Proof.
  intros (mn & Hmn & Hp & _)%build_model_inr Hd. rewrite Hp.
  cbn [constraints]. rewrite !elem_of_app. right. left.
  unfold coverage_constraints. apply list_elem_of_bind. exists d.
  split; [|by apply elem_of_range].
  rewrite day_types_lookup by done.
  unfold day_type_on. rewrite Hmn. cbn zeta.
  apply list_elem_of_bind. exists s. split; [|apply elem_of_shifts].
  apply list_elem_of_bind. exists c. split; [|apply elem_of_staff_categories].
  by apply list_elem_of_singleton.
Qed.

(** The schedule of a built and solved scheduler holds, at every key it has,
    the value of the variable of that key. *)
Lemma get_schedule_built_values (n : Z) (p : LpProblem)
  (hired_vars fired_vars total_vars : option (gmap Category LpVariable))
  (num_days : Z) (schedule : Schedule) (d : Z) (s : Shift) (c : Category) :
  get_schedule
    (Scheduler (Some p)
       (Some (LpVariable_dicts Staff_Assigned (all_keys n)))
       (Some (LpVariable_dicts Overtime (overtime_keys n)))
       hired_vars fired_vars total_vars) num_days = inr schedule →
  0 ≤ d < num_days →
  0 ≤ d < n
  ∧ regular schedule !! (d, s, c) = Some (varValue p (Staff_Assigned (d, s, c)))
  ∧ overtime schedule !! (d, s, c)
    = if decide (c ≠ Nurses) then Some (varValue p (Overtime (d, s, c))) else None.
Proof.
  intros Hget Hd.
  destruct (get_schedule_inr_entries _ _ _ d s c Hget) as [Hr Ho].
  apply get_schedule_inr in Hget as (p' & [= <-] & _ & Hreg & Hot & _).
  destruct (proj2 Hr Hd) as [r Hrv]. rewrite Hrv.
  pose proof (proj2 (extract_loop_lookup _ _ _ (d, s, c) Hreg) r Hrv) as Hread.
  unfold read_regular in Hread. cbn [staff_assigned] in Hread.
  destruct (decide (0 ≤ d < n)) as [Hn|Hn]; last first.
  { rewrite LpVariable_dicts_None in Hread; [discriminate|].
    by rewrite elem_of_all_keys. }
  rewrite staff_assigned_getitem in Hread by done. injection Hread as <-.
  split; [done|]. split; [done|].
  case_decide as Hc.
  - destruct (proj2 Ho (conj Hd Hc)) as [q Hqv]. rewrite Hqv.
    pose proof (proj2 (extract_loop_lookup _ _ _ (d, s, c) Hot) q Hqv) as Hread.
    unfold read_overtime in Hread. cbn [overtime_assigned] in Hread.
    rewrite overtime_assigned_getitem in Hread by done. by injection Hread as <-.
  - destruct (overtime schedule !! (d, s, c)) eqn:Heq; [|done].
    assert (is_Some (Some q)) as Hs by eauto. apply Ho in Hs. by destruct Hs.
Qed.

(** C1: a model that [build_model] produces contains, for every day [d] of
    its horizon, every shift and every category, the coverage constraint of
    that triple against its forecast demand: regular + overtime >= demand for
    a category other than Nurses, regular >= demand alone for Nurses, for
    whom [overtime_assigned] has no variable.  Hence, when a sound solver
    reports [Optimal], every triple of the extracted schedule has
    regular + overtime >= demand, where Nurses have no overtime entry and
    their overtime counts as 0. *)
Theorem coverage_holds (today : Today) (month : string) (build_days : Z)
  (initial_staff : option (Category → Z)) (self0 self1 : StaffScheduler)
  (p : LpProblem) :
  build_model today month build_days initial_staff self0 = (self1, inr p) →
  (∀ d s c, 0 ≤ d < horizon today month build_days →
     (c ≠ Nurses →
        Constraint (add (var (Staff_Assigned (d, s, c))) (var (Overtime (d, s, c))))
          GE (const (demand_on today month d s c)) ∈ constraints p)
     ∧ Constraint (var (Staff_Assigned (d, s, Nurses)))
         GE (const (demand_on today month d s Nurses)) ∈ constraints p)
  ∧ (∃ vars, overtime_assigned self1 = Some vars
             ∧ ∀ d s, vars !! (d, s, Nurses) = None)
  ∧ (∀ cbc self2 num_days schedule,
       solver_sound cbc →
       solve_model cbc self1 = (self2, inr Optimal) →
       get_schedule self2 num_days = inr schedule →
       ∀ d s c r, regular schedule !! (d, s, c) = Some r →
         (inject_Z (demand_on today month d s c)
          <= r + default 0 (overtime schedule !! (d, s, c)))%Q
         ∧ overtime schedule !! (d, s, Nurses) = None).
Proof.
  intros Hbuild.
  assert (∀ d s c, 0 ≤ d < horizon today month build_days →
            (c ≠ Nurses →
               Constraint (add (var (Staff_Assigned (d, s, c)))
                               (var (Overtime (d, s, c))))
                 GE (const (demand_on today month d s c)) ∈ constraints p)
            ∧ Constraint (var (Staff_Assigned (d, s, Nurses)))
                GE (const (demand_on today month d s Nurses)) ∈ constraints p)
    as Hcov.
  { intros d s c Hd. split.
    - intros Hc.
      pose proof (coverage_constraint_built _ _ _ _ _ _ _ d s c Hbuild Hd) as Hin.
      unfold coverage_constraint in Hin. by rewrite decide_True in Hin.
    - pose proof (coverage_constraint_built _ _ _ _ _ _ _ d s Nurses Hbuild Hd)
        as Hin.
      unfold coverage_constraint in Hin. rewrite decide_False in Hin; [done|].
      intros Hne. by apply Hne. }
  split; [done|]. split.
  - destruct (build_model_inr _ _ _ _ _ _ _ Hbuild) as (mn & _ & _ & ->).
    eexists. split; [done|]. intros d s.
    apply LpVariable_dicts_None. rewrite elem_of_overtime_keys. by intros [_ []].
  - intros cbc self2 num_days schedule Hsound Hsolve Hget d s c r Hr.
    destruct (built_and_solved _ _ _ _ _ _ _ _ _ _ Hbuild Hsolve)
      as (values & Hcbc & _ & ->).
    pose proof (Hsound _ _ _ Hcbc eq_refl) as Hall.
    rewrite Forall_forall in Hall.
    assert (0 ≤ d < num_days) as Hd.
    { destruct (get_schedule_inr_entries _ _ _ d s c Hget) as [Hdom _].
      apply Hdom. by exists r. }
    destruct (get_schedule_built_values _ _ _ _ _ _ _ d s c Hget Hd)
      as (Hn & Hrv & Hov).
    destruct (get_schedule_built_values _ _ _ _ _ _ _ d s Nurses Hget Hd)
      as (_ & _ & Hnv).
    rewrite decide_False in Hnv by (by intros []). split; [|done].
    rewrite Hr in Hrv. injection Hrv as ->. cbn [varValue] in *.
    destruct (Hcov d s c Hn) as [Hc Hnurse]. rewrite Hov. case_decide as Hne.
    + apply Hall in Hc; [|done]. unfold holds, value in Hc. simpl in Hc.
      simpl. lra.
    + assert (c = Nurses) as -> by (by destruct c; try (exfalso; apply Hne)).
      apply Hall in Hnurse. unfold holds, value in Hnurse. simpl in Hnurse.
      simpl. lra.
Qed.

Lemma coverage_holds_witness :
  demand_on example_today "January" 2 Evening Caregivers = 17
  ∧ ∃ p schedule r,
      build_model example_today "January" 7 None init = (example_built, inr p)
      ∧ Constraint (add (var (Staff_Assigned (2, Evening, Caregivers)))
                        (var (Overtime (2, Evening, Caregivers))))
          GE (const (demand_on example_today "January" 2 Evening Caregivers))
          ∈ constraints p
      ∧ Constraint (var (Staff_Assigned (2, Evening, Nurses)))
          GE (const (demand_on example_today "January" 2 Evening Nurses))
          ∈ constraints p
      ∧ get_schedule example_solved 7 = inr schedule
      ∧ regular schedule !! (2, Evening, Caregivers) = Some r
      ∧ (inject_Z (demand_on example_today "January" 2 Evening Caregivers)
         <= r + default 0 (overtime schedule !! (2%Z, Evening, Caregivers)))%Q
      ∧ overtime schedule !! (2, Evening, Nurses) = None.
Proof.
  split; [vm_compute; reflexivity|].
  destruct example_built_eq as [p Hbuild]. exists p.
  assert (match get_schedule example_solved 7 with
          | inl _ => None
          | inr schedule => regular schedule !! (2, Evening, Caregivers)
          end = Some 17%Q) as Hrun by (vm_compute; reflexivity).
  destruct (get_schedule example_solved 7) as [e|schedule] eqn:Hget;
    [discriminate|].
  exists schedule, 17%Q.
  destruct (coverage_holds example_today "January" 7 None init example_built p
              Hbuild) as (Hcov & _ & Hsolved).
  destruct (Hcov 2 Evening Caregivers
              ltac:(vm_compute; split; [discriminate|reflexivity]))
    as [Hc Hn].
  destruct (Hsolved (checking_solver example_values) example_solved 7 schedule
              (checking_solver_sound example_values) example_solved_eq Hget
              2 Evening Caregivers 17%Q Hrun) as [Hle Hnone].
  split; [exact Hbuild|]. split; [apply Hc; discriminate|].
  split; [exact Hn|]. split; [reflexivity|]. split; [exact Hrun|].
  split; [exact Hle|exact Hnone].
Defined.

(** ** The objective and the recomputed cost *)

Lemma qsum_acc (a : Q) (l : list Q) : (foldl Qplus a l == a + qsum l)%Q.
Proof.
  unfold qsum. revert a. induction l as [|x l IH]; intros a; simpl.
  - ring.
  - rewrite (IH (a + x)%Q), (IH (0 + x)%Q). ring.
Qed.

Lemma qsum_cons (x : Q) (l : list Q) : (qsum (x :: l) == x + qsum l)%Q.
Proof. unfold qsum at 1. simpl. rewrite qsum_acc. ring. Qed.

Lemma qsum_Forall2 (l1 l2 : list Q) : Forall2 Qeq l1 l2 → (qsum l1 == qsum l2)%Q.
Proof.
  induction 1 as [|x y l1 l2 Hxy _ IH]; [reflexivity|].
  by rewrite !qsum_cons, Hxy, IH.
Qed.

Lemma value_acc (values : LpVariable → Q) (a : Q) (l : list (LpVariable * Q)) :
  (foldl (λ s t, s + values t.1 * t.2) a l
   == a + foldl (λ s t, s + values t.1 * t.2) 0 l)%Q.
Proof.
  revert a. induction l as [|t l IH]; intros a; simpl.
  - ring.
  - rewrite (IH (a + _)%Q), (IH (0 + _)%Q). ring.
Qed.

Lemma value_add (values : LpVariable → Q) (e1 e2 : LpAffineExpression) :
  (value values (add e1 e2) == value values e1 + value values e2)%Q.
Proof.
  unfold value, add. cbn [terms constant]. rewrite foldl_app.
  rewrite value_acc.
  rewrite (value_acc values (constant e1 + constant e2) (terms e1)).
  rewrite (value_acc values (constant e1) (terms e1)).
  rewrite (value_acc values (constant e2) (terms e2)).
  set (t1 := foldl _ _ (terms e1)). set (t2 := foldl _ _ (terms e2)). ring.
Qed.

Lemma value_lpSum (values : LpVariable → Q) (es : list LpAffineExpression) :
  (value values (lpSum es) == qsum (value values <$> es))%Q.
Proof.
  unfold lpSum.
  assert (∀ a, (value values (foldl add a es)
                == value values a + qsum (value values <$> es))%Q) as Hacc.
  { induction es as [|e es IH]; intros a.
    - unfold qsum. simpl. ring.
    - cbn [foldl]. rewrite fmap_cons, IH, value_add, qsum_cons. ring. }
  rewrite Hacc. apply Qplus_0_l.
Qed.

Lemma bind_all_keys {A : Type} (f : Key → A) (num_days : Z) :
  (d ← Py.range num_days; s ← shifts; c ← staff_categories; [f (d, s, c)])
  = f <$> all_keys num_days.
Proof.
  unfold all_keys. induction (Py.range num_days) as [|d ds IH]; [done|].
  rewrite !bind_cons, fmap_app, IH. f_equal.
Qed.

Lemma bind_overtime_keys {A : Type} (f : Key → A) (num_days : Z) :
  (d ← Py.range num_days; s ← shifts;
   c ← filter (λ c, c ≠ Nurses) staff_categories; [f (d, s, c)])
  = f <$> overtime_keys num_days.
Proof.
  unfold overtime_keys. induction (Py.range num_days) as [|d ds IH]; [done|].
  rewrite !bind_cons, fmap_app, IH. f_equal.
Qed.

Lemma qsum_fmap_ext {A : Type} (f g : A → Q) (l : list A) :
  (∀ x, x ∈ l → (f x == g x)%Q) → (qsum (f <$> l) == qsum (g <$> l))%Q.
Proof.
  intros Hfg. apply qsum_Forall2, Forall2_fmap, Forall_Forall2_diag.
  by apply Forall_forall.
Qed.

Lemma bind_singleton_fmap {A B : Type} (f : A → B) (l : list A) :
  (x ← l; [f x]) = f <$> l.
Proof. induction l as [|x l IH]; [done|]. by rewrite bind_cons, fmap_cons, IH. Qed.

Lemma value_regular_term (values : LpVariable → Q) (v : LpVariable) (w : Z) :
  (value values (scale (scale (var v) (inject_Z w)) 8) == values v * inject_Z w * 8)%Q.
Proof. unfold value. simpl. ring. Qed.

Lemma value_overtime_term (values : LpVariable → Q) (v : LpVariable) (w : Z) :
  (value values (scale (scale (scale (var v) (inject_Z w)) (3 # 2)) 8)
   == values v * inject_Z w * (3 # 2) * 8)%Q.
Proof. unfold value. simpl. ring. Qed.

Lemma value_change_term (values : LpVariable → Q) (v : LpVariable) (w : Z) :
  (value values (scale (var v) (inject_Z w)) == values v * inject_Z w)%Q.
Proof. unfold value. simpl. ring. Qed.

(** The value of the objective of a model built over [n] days. *)
Lemma value_total_cost_objective (values : LpVariable → Q) (n : Z) :
  (value values (total_cost_objective n) == cost_of_days values n)%Q.
Proof.
  unfold total_cost_objective, cost_of_days. rewrite !value_add.
  unfold total_regular_cost, total_overtime_cost, total_hiring_cost,
    total_firing_cost.
  pose proof (bind_all_keys
                (λ k : Key, scale (scale (var (Staff_Assigned k))
                                     (inject_Z (hourly_wages k.2))) 8%Q) n) as Hr.
  pose proof (bind_overtime_keys
                (λ k : Key, scale (scale (scale (var (Overtime k))
                                            (inject_Z (hourly_wages k.2))) (3 # 2)%Q)
                              8%Q) n) as Ho.
  cbn [snd] in Hr, Ho. rewrite Hr, Ho.
  rewrite !bind_singleton_fmap, !value_lpSum, <- !list_fmap_compose.
  apply Qplus_comp; [apply Qplus_comp; [apply Qplus_comp|]|];
    apply qsum_fmap_ext; intros x _; simpl.
  - apply value_regular_term.
  - apply value_overtime_term.
  - apply value_change_term.
  - apply value_change_term.
Qed.

(** The sum [app.py] recomputes from a schedule extracted over [num_days]
    days is the cost of those days under the solver's values. *)
Lemma recomputed_cost_value (n : Z) (p : LpProblem) (num_days : Z)
  (schedule : Schedule) :
  get_schedule
    (Scheduler (Some p)
       (Some (LpVariable_dicts Staff_Assigned (all_keys n)))
       (Some (LpVariable_dicts Overtime (overtime_keys n)))
       (Some (LpVariable_dicts Staff_Hired staff_categories))
       (Some (LpVariable_dicts Staff_Fired staff_categories))
       (Some (LpVariable_dicts Total_Staff staff_categories))) num_days
  = inr schedule →
  (regular_cost schedule num_days + overtime_cost schedule num_days
   + hiring_cost_total schedule + firing_cost_total schedule
   == cost_of_days (varValue p) num_days)%Q.
Proof.
  intros Hget.
  pose proof Hget as (p' & [= <-] & _ & _ & _ & Hch & _)%get_schedule_inr.
  match type of Hch with
  | extract_staff_changes ?self _ _ _ = _ =>
      destruct (extract_staff_changes_built self (varValue p)
                  eq_refl eq_refl eq_refl) as (changes & Hch' & Hlookup)
  end.
  rewrite Hch' in Hch. injection Hch as Hch.
  unfold regular_cost, overtime_cost, hiring_cost_total, firing_cost_total,
    cost_of_days.
  pose proof (bind_all_keys
                (λ k : Key, (default 0 (regular schedule !! k)
                             * inject_Z (hourly_wages k.2) * 8)%Q) num_days) as Hr.
  pose proof (bind_overtime_keys
                (λ k : Key, (default 0 (overtime schedule !! k)
                             * inject_Z (hourly_wages k.2) * (3 # 2) * 8)%Q)
                num_days) as Ho.
  cbn [snd] in Hr, Ho. rewrite Hr, Ho.
  rewrite !bind_singleton_fmap.
  apply Qplus_comp; [apply Qplus_comp; [apply Qplus_comp|]|];
    apply qsum_fmap_ext.
  - intros [[d s] c] Hk%elem_of_all_keys.
    destruct (get_schedule_built_values _ _ _ _ _ _ _ d s c Hget Hk)
      as (_ & -> & _). reflexivity.
  - intros [[d s] c] [Hk Hc]%elem_of_overtime_keys.
    destruct (get_schedule_built_values _ _ _ _ _ _ _ d s c Hget Hk)
      as (_ & _ & ->). rewrite decide_True by done. reflexivity.
  - intros c _. rewrite <- Hch, (lookup_total_correct _ _ _ (Hlookup c)).
    reflexivity.
  - intros c _. rewrite <- Hch, (lookup_total_correct _ _ _ (Hlookup c)).
    reflexivity.
Qed.

Lemma qsum_app (l1 l2 : list Q) : (qsum (l1 ++ l2) == qsum l1 + qsum l2)%Q.
Proof. unfold qsum at 1. rewrite foldl_app, qsum_acc. reflexivity. Qed.

Lemma qsum_nonneg (l : list Q) : Forall (Qle 0) l → (0 <= qsum l)%Q.
Proof.
  induction 1 as [|x l Hx _ IH]; [discriminate|]. rewrite qsum_cons. lra.
Qed.

Lemma qsum_elem_le (l : list Q) (x : Q) :
  Forall (Qle 0) l → x ∈ l → (x <= qsum l)%Q.
Proof.
  induction 1 as [|y l Hy Hl IH]; intros Hx; [by apply elem_of_nil in Hx|].
  rewrite qsum_cons. apply elem_of_cons in Hx as [->|Hx].
  - pose proof (qsum_nonneg l Hl). lra.
  - specialize (IH Hx). lra.
Qed.

Lemma hourly_wages_pos (c : Category) : (0 < inject_Z (hourly_wages c))%Q.
Proof. by destruct c. Qed.

Lemma forecast_demand_pos (month day_type : string) (s : Shift) (c : Category) :
  0 < forecast_demand month day_type s c.
Proof.
  unfold forecast_demand.
  destruct (historical_demand !! month) as [table|] eqn:Hm; cbn [default].
  - apply elem_of_list_to_map_2 in Hm. unfold historical_demand_items in Hm.
    repeat (apply elem_of_cons in Hm as [Hm | Hm];
            [ injection Hm as -> ->;
              destruct (String.eqb day_type "weekend"), s, c;
              vm_compute; reflexivity | ]).
    by apply elem_of_nil in Hm.
  - destruct (String.eqb day_type "weekend"), s, c; vm_compute; reflexivity.
Qed.

Lemma forecast_demand_checks (month day_type : string) (c : Category) :
  let f := forecast_demand month day_type in
  (0 <? f Morning c) && (f Morning c <=? 17)
  && (0 <? f Evening c) && (f Evening c <=? 17)
  && (0 <? f Night c) && (f Night c <=? 17)
  && (f Night c <=? f Morning c + f Evening c) = true.
Proof.
  unfold forecast_demand.
  destruct (historical_demand !! month) as [table|] eqn:Hm; cbn [default].
  - apply elem_of_list_to_map_2 in Hm. unfold historical_demand_items in Hm.
    repeat (apply elem_of_cons in Hm as [Hm | Hm];
            [ injection Hm as -> ->;
              destruct (String.eqb day_type "weekend"), c;
              vm_compute; reflexivity | ]).
    by apply elem_of_nil in Hm.
  - destruct (String.eqb day_type "weekend"), c; vm_compute; reflexivity.
Qed.

Lemma forecast_demand_bounds (month day_type : string) (s : Shift) (c : Category) :
  0 < forecast_demand month day_type s c ≤ 17.
Proof.
  pose proof (forecast_demand_checks month day_type c) as H. cbn zeta in H.
  destruct s; lia.
Qed.

Lemma forecast_demand_night (month day_type : string) (c : Category) :
  forecast_demand month day_type Night c
  ≤ forecast_demand month day_type Morning c
    + forecast_demand month day_type Evening c.
Proof.
  pose proof (forecast_demand_checks month day_type c) as H. cbn zeta in H. lia.
Qed.

Lemma is_integer_inject_Z (z : Z) : is_integer (inject_Z z) = true.
Proof. unfold is_integer. rewrite Qfloor_Z. apply Qeq_bool_refl. Qed.

Lemma inject_Z_nonneg (z : Z) : 0 ≤ z → (0 <= inject_Z z)%Q.
Proof. intros Hz. unfold Qle. simpl. lia. Qed.

Lemma inject_Z_le (a b : Z) : a ≤ b → (inject_Z a <= inject_Z b)%Q.
Proof. intros Hab. unfold Qle. simpl. lia. Qed.

(** The cost of the days grows with their number as soon as the values are
    not negative and a Nurse is on regular duty in the first morning that
    is added. *)
Lemma cost_of_days_lt (values : LpVariable → Q) (n' n : Z) :
  0 ≤ n' < n →
  (∀ v, (0 <= values v)%Q) →
  (0 < values (Staff_Assigned (n', Morning, Nurses)))%Q →
  (cost_of_days values n' < cost_of_days values n)%Q.
Proof.
  intros Hn Hpos Hnurse. unfold cost_of_days, all_keys, overtime_keys.
  rewrite (range_split n' n Hn), !bind_app, !fmap_app, !qsum_app.
  set (fa := λ k : Key, (values (Staff_Assigned k) * inject_Z (hourly_wages k.2) * 8)%Q).
  set (fb := λ k : Key,
         (values (Overtime k) * inject_Z (hourly_wages k.2) * (3 # 2) * 8)%Q).
  match goal with
  | |- (_ < _ + qsum (fa <$> ?xa) + (_ + qsum (fb <$> ?xb)) + _ + _)%Q =>
      assert (fa (n', Morning, Nurses) <= qsum (fa <$> xa))%Q as Ha;
      [|assert (0 <= qsum (fb <$> xb))%Q as Hb]
  end.
  - apply qsum_elem_le.
    + apply Forall_fmap, Forall_forall. intros k _. unfold fa. cbn [compose].
      pose proof (Hpos (Staff_Assigned k)).
      pose proof (hourly_wages_pos k.2). nra.
    + apply list_elem_of_fmap_2, list_elem_of_bind. exists n'.
      split; [|by left].
      apply list_elem_of_bind. exists Morning. split; [|apply elem_of_shifts].
      apply list_elem_of_bind. exists Nurses.
      split; [by apply list_elem_of_singleton|apply elem_of_staff_categories].
  - apply qsum_nonneg, Forall_fmap, Forall_forall. intros k _. unfold fb.
    cbn [compose]. pose proof (Hpos (Overtime k)).
    pose proof (hourly_wages_pos k.2). nra.
  - unfold fa at 1 in Ha. cbn [snd hourly_wages] in Ha.
    set (a := qsum (fa <$> _)) in *. set (b := qsum (fb <$> _)) in *.
    set (a' := qsum (fa <$> _)) in *. set (b' := qsum (fb <$> _)) in *.
    set (h := qsum (_ <$> staff_categories)).
    set (f := qsum (_ <$> staff_categories)).
    assert (0 < inject_Z 450)%Q by done. nra.
Qed.

(** Whatever a sound solver that respects the bounds returns, extracting
    fewer days than were built makes [total_cost] exceed the recomputed
    sum. *)
Lemma total_cost_exceeds_recomputed (today : Today) (month : string)
  (build_days : Z) (initial_staff : option (Category → Z))
  (self0 self1 self2 : StaffScheduler) (p : LpProblem) (cbc : Solver)
  (num_days : Z) (schedule : Schedule) :
  build_model today month build_days initial_staff self0 = (self1, inr p) →
  solver_sound cbc → solver_respects_bounds cbc →
  solve_model cbc self1 = (self2, inr Optimal) →
  0 ≤ num_days < horizon today month build_days →
  get_schedule self2 num_days = inr schedule →
  (regular_cost schedule num_days + overtime_cost schedule num_days
   + hiring_cost_total schedule + firing_cost_total schedule
   < total_cost schedule)%Q.
Proof.
  intros Hbuild Hsound Hbounds Hsolve Hn Hget.
  pose proof (coverage_constraint_built _ _ _ _ _ _ _ num_days Morning Nurses
                Hbuild Hn) as Hcov.
  destruct (built_and_solved _ _ _ _ _ _ _ _ _ _ Hbuild Hsolve)
    as (values & Hcbc & Hobj & ->).
  rewrite (recomputed_cost_value _ _ _ _ Hget).
  apply get_schedule_inr in Hget as (p' & [= <-] & _ & _ & _ & _ & Hcost).
  unfold read_objective in Hcost. cbn [varValue objective] in Hcost.
  rewrite Hobj in Hcost. injection Hcost as <-.
  rewrite value_total_cost_objective.
  apply cost_of_days_lt; [done|by eapply Hbounds|].
  pose proof (Hsound _ _ _ Hcbc eq_refl) as Hall.
  rewrite Forall_forall in Hall. apply Hall in Hcov.
  unfold coverage_constraint in Hcov. rewrite decide_False in Hcov
    by (intros Hne; by apply Hne).
  unfold holds, value in Hcov. simpl in Hcov.
  pose proof (forecast_demand_pos month (day_type_on today month num_days)
                Morning Nurses) as Hd.
  assert (0 < inject_Z (forecast_demand month (day_type_on today month num_days)
                          Morning Nurses))%Q
    by (unfold Qlt; simpl; lia).
  lra.
Qed.

(** The values of the examples are small integers. *)
Lemma example_values_small (v : LpVariable) : small_integer (example_values v).
Proof.
  unfold small_integer, example_values, demand_values.
  destruct v as [[[d s] c]|k|c|k|c].
  - split; [apply is_integer_inject_Z|].
    pose proof (forecast_demand_bounds "January"
                  (day_type_on example_today "January" d) s c) as Hd.
    unfold demand_on.
    split; [apply (inject_Z_le (-1000000000))|apply (inject_Z_le _ 1000000000)];
      lia.
  - done.
  - split; [apply is_integer_inject_Z|]. by destruct c.
  - done.
  - split; [apply is_integer_inject_Z|]. by destruct c.
Qed.

(** C2 as stated fails: January built over seven days and solved, then
    extracted with [num_days = 1]; [total_cost] is the objective over all
    seven days, the sum recomputed from the extracted entries covers day 0
    only. *)
Lemma total_cost_differs_on_shorter_extraction :
  ∃ schedule,
    get_schedule example_solved 1 = inr schedule
    ∧ (total_cost schedule == 2187000)%Q
    ∧ (regular_cost schedule 1 + overtime_cost schedule 1
       + hiring_cost_total schedule + firing_cost_total schedule == 811800)%Q.
Proof.
  assert (match get_schedule example_solved 1 with
          | inl _ => None
          | inr schedule =>
              Some (Qred (total_cost schedule),
                    Qred (regular_cost schedule 1 + overtime_cost schedule 1
                          + hiring_cost_total schedule + firing_cost_total schedule))
          end = Some (2187000%Q, 811800%Q)) as Hrun
    by (vm_compute; reflexivity).
  destruct (get_schedule example_solved 1) as [e|schedule]; [discriminate|].
  injection Hrun as Ht Hs. exists schedule. split; [done|].
  rewrite <- (Qred_correct (total_cost schedule)), Ht.
  rewrite <- (Qred_correct (_ + firing_cost_total schedule)), Hs. done.
Qed.

(** C2, amended: when [get_schedule] is called with the number of days the
    model was built over, on a scheduler solved to [Optimal] with integers
    of magnitude at most [10^9] in the variables, [total_cost] equals the
    sum recomputed from the extracted entries: regular * wage * 8 over all
    (day, shift, category), overtime * wage * 1.5 * 8 over all (day, shift)
    and the categories other than Nurses, hired * hiring cost and fired *
    firing cost over all categories.  On such values neither the running
    sum behind [total_cost] nor the recomputed sums round in binary64
    ([small_integer], and the binary64 computations at the end of the
    file); on values that are not integers, or on larger ones, they round
    differently and the two numbers can differ in the last digits. *)
Theorem total_cost_recomputed (today : Today) (month : string) (build_days : Z)
  (initial_staff : option (Category → Z)) (self0 self1 self2 : StaffScheduler)
  (p : LpProblem) (cbc : Solver) (values : LpVariable → Q) (num_days : Z)
  (schedule : Schedule) :
  build_model today month build_days initial_staff self0 = (self1, inr p) →
  cbc p = Some (Optimal, values) →
  (∀ v, small_integer (values v)) →
  solve_model cbc self1 = (self2, inr Optimal) →
  num_days = horizon today month build_days →
  get_schedule self2 num_days = inr schedule →
  (total_cost schedule
   == regular_cost schedule num_days + overtime_cost schedule num_days
      + hiring_cost_total schedule + firing_cost_total schedule)%Q.
Proof.
  intros Hbuild _ _ Hsolve -> Hget.
  destruct (built_and_solved _ _ _ _ _ _ _ _ _ _ Hbuild Hsolve)
    as (values' & _ & Hobj & ->).
  rewrite (recomputed_cost_value _ _ _ _ Hget).
  apply get_schedule_inr in Hget as (p' & [= <-] & _ & _ & _ & _ & Hcost).
  unfold read_objective in Hcost. cbn [varValue objective] in Hcost.
  rewrite Hobj in Hcost. injection Hcost as <-.
  apply value_total_cost_objective.
Qed.

Lemma total_cost_recomputed_witness :
  ∃ schedule,
    get_schedule example_solved 7 = inr schedule
    ∧ (∀ v, small_integer (example_values v))
    ∧ (total_cost schedule
       == regular_cost schedule 7 + overtime_cost schedule 7
          + hiring_cost_total schedule + firing_cost_total schedule)%Q.
Proof.
  assert (is_inr (get_schedule example_solved 7) = true) as Hrun
    by (vm_compute; reflexivity).
  destruct (get_schedule example_solved 7) as [e|schedule] eqn:Hget;
    [discriminate|].
  exists schedule. split; [reflexivity|]. split; [exact example_values_small|].
  destruct example_built_eq as [p Hbuild].
  apply (total_cost_recomputed example_today "January" 7 None init
           example_built example_solved p (checking_solver example_values)
           example_values 7 schedule Hbuild).
  - exact (example_values_optimal p Hbuild).
  - exact example_values_small.
  - exact example_solved_eq.
  - vm_compute. reflexivity.
  - exact Hget.
Defined.

(** ** Weekly hours *)

Lemma terms_lpSum (es : list LpAffineExpression) : terms (lpSum es) = es ≫= terms.
Proof.
  unfold lpSum.
  assert (∀ a, terms (foldl add a es) = terms a ++ (es ≫= terms)) as Hacc.
  { induction es as [|e es IH]; intros a.
    - by rewrite app_nil_r.
    - cbn [foldl]. rewrite IH, bind_cons. cbn [add terms]. by rewrite app_assoc. }
  by rewrite Hacc.
Qed.

Lemma complete_week (n week : Z) :
  0 ≤ week < n / 7 → week * 7 = 7 * week ∧ Z.min ((week + 1) * 7) n = 7 * week + 7.
Proof. intros Hw. pose proof (Z.mul_div_le n 7). lia. Qed.

(** For a complete week the constraint [build_model] adds is the one of the
    7-day window. *)
Lemma weekly_hours_constraint_window (n : Z) (c : Category) (week : Z) :
  0 ≤ week < n / 7 →
  weekly_hours_constraint n c week = weekly_window_constraint c week.
Proof.
  intros [Hs He]%complete_week.
  unfold weekly_hours_constraint, weekly_window_constraint. cbn zeta.
  by rewrite Hs, He.
Qed.

Lemma weekly_window_terms (c : Category) (week : Z) (v : LpVariable) (q : Q) :
  (v, q) ∈ terms (lhs (weekly_window_constraint c week))
  ↔ ∃ d s, 7 * week ≤ d < 7 * week + 7 ∧ v = Staff_Assigned (d, s, c) ∧ q = (1 * 8)%Q.
Proof.
  unfold weekly_window_constraint. cbn [lhs]. rewrite terms_lpSum. split.
  - intros (e & Hv & (d & He & Hd%elem_of_range2)%list_elem_of_bind)%list_elem_of_bind.
    apply list_elem_of_bind in He as (s & He & _).
    apply list_elem_of_singleton in He as ->.
    apply list_elem_of_singleton in Hv as [= -> ->]. by exists d, s.
  - intros (d & s & Hd & -> & ->).
    apply list_elem_of_bind.
    exists (scale (var (Staff_Assigned (d, s, c))) 8%Q).
    split; [by apply list_elem_of_singleton|].
    apply list_elem_of_bind. exists d. split; [|by apply elem_of_range2].
    apply list_elem_of_bind. exists s. split; [|apply elem_of_shifts].
    by apply list_elem_of_singleton.
Qed.

Lemma weekly_window_constraint_inj (c c' : Category) (week week' : Z) :
  weekly_window_constraint c week = weekly_window_constraint c' week' →
  c = c' ∧ week = week'.
Proof.
  intros Heq.
  assert ((Staff_Assigned (7 * week, Morning, c), (1 * 8)%Q)
          ∈ terms (lhs (weekly_window_constraint c week))) as Hin.
  { apply weekly_window_terms. exists (7 * week), Morning. split; [lia|done]. }
  rewrite Heq in Hin.
  apply weekly_window_terms in Hin as (d & s & Hd & [= <- _ <-] & _).
  split; [done|lia].
Qed.

Lemma weekly_window_is_weekly_hours (c : Category) (week : Z) :
  is_weekly_hours (weekly_window_constraint c week).
Proof. split; [done|]. by exists c. Qed.

Lemma elem_of_weekly_hours_constraints (n : Z) (k : LpConstraint) :
  k ∈ weekly_hours_constraints n
  ↔ ∃ c week, 0 ≤ week < n / 7 ∧ k = weekly_window_constraint c week.
Proof.
  unfold weekly_hours_constraints. rewrite list_elem_of_bind. split.
  - intros (c & (week & Hk & Hw%elem_of_range)%list_elem_of_bind & _).
    apply list_elem_of_singleton in Hk as ->.
    exists c, week. split; [done|]. by apply weekly_hours_constraint_window.
  - intros (c & week & Hw & ->). exists c. split; [|apply elem_of_staff_categories].
    apply list_elem_of_bind. exists week. split; [|by apply elem_of_range].
    apply list_elem_of_singleton. symmetry. by apply weekly_hours_constraint_window.
Qed.

(** Among the constraints of a built model only those of the weekly-hours
    block bound by total[c] * regular weekly hour cap. *)
Lemma weekly_hours_only_in_block (initial_staff : Category → Z) (month : string)
  (types : list string) (n : Z) (k : LpConstraint) :
  k ∈ (linking_constraints initial_staff
       ++ coverage_constraints month types n
       ++ capacity_constraints n
       ++ weekly_hours_constraints n
       ++ shift_distribution_constraints n) →
  is_weekly_hours k →
  (k ∉ linking_constraints initial_staff)
  ∧ (k ∉ coverage_constraints month types n)
  ∧ (k ∉ capacity_constraints n)
  ∧ k ∈ weekly_hours_constraints n
  ∧ (k ∉ shift_distribution_constraints n).
Proof.
  intros Hin [Hsense [c Hrhs]].
  assert (k ∉ linking_constraints initial_staff) as Hlink.
  { intros (c' & ->%list_elem_of_singleton & _)%list_elem_of_bind. discriminate. }
  assert (k ∉ coverage_constraints month types n) as Hcov.
  { intros (d & (s & (c' & ->%list_elem_of_singleton & _)%list_elem_of_bind
                 & _)%list_elem_of_bind & _)%list_elem_of_bind.
    unfold coverage_constraint in Hsense. by case_decide. }
  assert (k ∉ capacity_constraints n) as Hcap.
  { intros (c' & (s & (d & ->%list_elem_of_singleton & _)%list_elem_of_bind
                  & _)%list_elem_of_bind & _)%list_elem_of_bind.
    cbn [rhs] in Hrhs. by destruct c. }
  assert (k ∉ shift_distribution_constraints n) as Hbal.
  { intros (c' & ->%list_elem_of_singleton & _)%list_elem_of_bind. discriminate. }
  rewrite !elem_of_app in Hin. tauto.
Qed.

Lemma NoDup_weekly_hours_constraints (n : Z) : NoDup (weekly_hours_constraints n).
Proof.
  assert (∀ c1 c2 k,
            k ∈ (week ← Py.range (n / 7); [weekly_hours_constraint n c1 week]) →
            k ∈ (week ← Py.range (n / 7); [weekly_hours_constraint n c2 week]) →
            c1 = c2) as Hcat.
  { intros c1 c2 k
      (w1 & ->%list_elem_of_singleton & Hw1%elem_of_range)%list_elem_of_bind
      (w2 & Heq%list_elem_of_singleton & Hw2%elem_of_range)%list_elem_of_bind.
    rewrite !weekly_hours_constraint_window in Heq by done.
    by apply weekly_window_constraint_inj in Heq as [-> _]. }
  unfold weekly_hours_constraints. apply NoDup_bind.
  - intros c1 c2 k _ _. apply Hcat.
  - intros c _. apply NoDup_bind.
    + intros w1 w2 k Hw1%elem_of_range Hw2%elem_of_range
        ->%list_elem_of_singleton Heq%list_elem_of_singleton.
      rewrite !weekly_hours_constraint_window in Heq by done.
      by apply weekly_window_constraint_inj in Heq as [_ ->].
    + intros w _. apply NoDup_singleton.
    + unfold Py.range. apply (NoDup_fmap_2 _), NoDup_seq.
  - unfold staff_categories. rewrite !NoDup_cons, !not_elem_of_cons.
    repeat split; (discriminate || apply not_elem_of_nil || apply NoDup_nil_2).
Qed.

(** C6: the built model contains, for every category and every one of the
    [n / 7] complete 7-day windows of its [n]-day horizon (windows starting
    at days 0, 7, 14, ...), exactly one occurrence of the constraint "sum of
    regular * 8 over the window's days and all shifts <= total[c] * regular
    weekly hour cap"; every constraint of the model that bounds by
    total[c] * cap is one of these; so no day from [7 * (n / 7)] on, the
    partial trailing week, appears in a weekly-hours constraint. *)
Theorem weekly_hours_complete_windows (today : Today) (month : string)
  (build_days : Z) (initial_staff : option (Category → Z))
  (self0 self1 : StaffScheduler) (p : LpProblem) :
  build_model today month build_days initial_staff self0 = (self1, inr p) →
  let n := horizon today month build_days in
  (∀ c week, 0 ≤ week < n / 7 →
     count_occ LpConstraint_eq_dec (constraints p)
       (weekly_window_constraint c week) = 1%nat)
  ∧ (∀ k, k ∈ constraints p → is_weekly_hours k →
       ∃ c week, 0 ≤ week < n / 7 ∧ k = weekly_window_constraint c week)
  ∧ (∀ k d, k ∈ constraints p → is_weekly_hours k → 7 * (n / 7) ≤ d →
       ¬ mentions_day k d).
Proof.
  intros (mn & _ & Hp & _)%build_model_inr n.
  assert (∀ k, k ∈ constraints p → is_weekly_hours k →
            ∃ c week, 0 ≤ week < n / 7 ∧ k = weekly_window_constraint c week)
    as Hweekly.
  { intros k Hk Hw. rewrite Hp in Hk. cbn [constraints] in Hk.
    destruct (weekly_hours_only_in_block _ _ _ _ _ Hk Hw) as (_ & _ & _ & Hin & _).
    by apply elem_of_weekly_hours_constraints. }
  split; [|split; [done|]].
  - intros c week Hw.
    assert (weekly_window_constraint c week ∈ weekly_hours_constraints n) as Hin
      by (apply elem_of_weekly_hours_constraints; eauto).
    rewrite Hp. cbn [constraints]. fold n.
    match goal with
    | |- count_occ _ (?l1 ++ ?l2 ++ ?l3 ++ ?l4 ++ ?l5) ?k = _ =>
        destruct (weekly_hours_only_in_block
                    (default default_initial_staff initial_staff) month
                    (day_types
                       (Py.datetime (today_year today)
                          (if mn =? 0 then today_month today else mn) 1) n)
                    n k) as (H1 & H2 & H3 & _ & H5)
    end.
    { rewrite !elem_of_app. auto. }
    { apply weekly_window_is_weekly_hours. }
    rewrite !count_occ_app.
    rewrite (proj1 (count_occ_not_In _ _ _)) by (by rewrite <- list_elem_of_In).
    rewrite (proj1 (count_occ_not_In _ _ _)) by (by rewrite <- list_elem_of_In).
    rewrite (proj1 (count_occ_not_In _ _ _)) by (by rewrite <- list_elem_of_In).
    rewrite (proj1 (count_occ_not_In _ (shift_distribution_constraints n) _))
      by (by rewrite <- list_elem_of_In).
    simpl. rewrite Nat.add_0_r.
    apply NoDup_count_occ';
      [apply NoDup_ListNoDup, NoDup_weekly_hours_constraints|].
    by apply list_elem_of_In.
  - intros k d Hk Hw Hd (s & c & q & Hm).
    destruct (Hweekly k Hk Hw) as (c' & week & Hweek & ->).
    unfold weekly_window_constraint in Hm at 2 4. cbn [rhs] in Hm.
    rewrite !elem_of_app in Hm.
    destruct Hm as [[Hm|Hm]|[Hm|Hm]].
    + apply weekly_window_terms in Hm as (d' & _ & Hd' & [= -> _ _] & _). lia.
    + apply list_elem_of_singleton in Hm. discriminate.
    + apply weekly_window_terms in Hm as (d' & _ & Hd' & [=] & _).
    + apply list_elem_of_singleton in Hm. discriminate.
Qed.

Lemma weekly_hours_complete_windows_witness :
  ∃ self1 p,
    build_model example_today "January" 10 None init = (self1, inr p)
    ∧ count_occ LpConstraint_eq_dec (constraints p)
        (weekly_window_constraint Nurses 0) = 1%nat
    ∧ (∀ k, k ∈ constraints p → is_weekly_hours k →
         ∃ c week,
           0 ≤ week < horizon example_today "January" 10 / 7
           ∧ k = weekly_window_constraint c week)
    ∧ (∀ k, k ∈ constraints p → is_weekly_hours k → ¬ mentions_day k 8).
Proof.
  destruct (build_model_Some example_today "January" 10 None init 1 eq_refl)
    as (self1 & p & Hbuild).
  exists self1, p. split; [exact Hbuild|].
  destruct (weekly_hours_complete_windows example_today "January" 10 None init
              self1 p Hbuild) as (Hone & Hall & Hnone).
  split; [|split; [exact Hall|]].
  - apply (Hone Nurses 0). vm_compute. split; [discriminate|reflexivity].
  - intros k Hk Hw. apply (Hnone k 8 Hk Hw). vm_compute. discriminate.
Defined.

(** * Further properties of the scheduler *)

(** ** What a solved scheduler holds *)

Lemma constraints_built (today : Today) (month : string) (num_days : Z)
  (initial_staff : option (Category → Z)) (self self' : StaffScheduler)
  (p : LpProblem) :
  build_model today month num_days initial_staff self = (self', inr p) →
  ∃ types,
    constraints p
    = linking_constraints (default default_initial_staff initial_staff)
      ++ coverage_constraints month types (horizon today month num_days)
      ++ capacity_constraints (horizon today month num_days)
      ++ weekly_hours_constraints (horizon today month num_days)
      ++ shift_distribution_constraints (horizon today month num_days).
Proof.
  intros (mn & _ & Hp & _)%build_model_inr. eexists. by rewrite Hp.
Qed.

Lemma solved_values (today : Today) (month : string) (num_days : Z)
  (initial_staff : option (Category → Z)) (self0 self1 self2 : StaffScheduler)
  (p : LpProblem) (cbc : Solver) :
  build_model today month num_days initial_staff self0 = (self1, inr p) →
  solver_sound cbc →
  solve_model cbc self1 = (self2, inr Optimal) →
  ∃ values,
    cbc p = Some (Optimal, values)
    ∧ (∀ k, k ∈ constraints p → holds values k)
    ∧ self2 = Scheduler (Some (Problem (objective p) (constraints p) Optimal values))
        (Some (LpVariable_dicts Staff_Assigned
                 (all_keys (horizon today month num_days))))
        (Some (LpVariable_dicts Overtime
                 (overtime_keys (horizon today month num_days))))
        (Some (LpVariable_dicts Staff_Hired staff_categories))
        (Some (LpVariable_dicts Staff_Fired staff_categories))
        (Some (LpVariable_dicts Total_Staff staff_categories)).
Proof.
  intros Hbuild Hsound Hsolve.
  destruct (built_and_solved _ _ _ _ _ _ _ _ _ _ Hbuild Hsolve)
    as (values & Hcbc & _ & ->).
  exists values. split; [done|]. split; [|done].
  apply Forall_forall. by eapply Hsound.
Qed.

Lemma get_schedule_built_changes (p : LpProblem)
  (regular_vars overtime_vars : option (gmap Key LpVariable))
  (num_days : Z) (schedule : Schedule) (c : Category) :
  get_schedule
    (Scheduler (Some p) regular_vars overtime_vars
       (Some (LpVariable_dicts Staff_Hired staff_categories))
       (Some (LpVariable_dicts Staff_Fired staff_categories))
       (Some (LpVariable_dicts Total_Staff staff_categories))) num_days
  = inr schedule →
  staff_changes schedule !! c
  = Some {| hired := varValue p (Staff_Hired c);
            fired := varValue p (Staff_Fired c);
            total := varValue p (Total_Staff c) |}.
Proof.
  intros (p' & [= <-] & _ & _ & _ & Hch & _)%get_schedule_inr.
  match type of Hch with
  | extract_staff_changes ?self _ _ _ = _ =>
      destruct (extract_staff_changes_built self (varValue p)
                  eq_refl eq_refl eq_refl) as (changes & Hch' & Hlookup)
  end.
  rewrite Hch' in Hch. injection Hch as <-. apply Hlookup.
Qed.

(** X1: after a build, a solve by a sound solver that ends [Optimal] and an
    extraction, [staff_changes] has an entry for every category, and its
    numbers satisfy total = initial + hired - fired, with the initial staff
    the build was given (40, 30 and 20 when it was given none). *)
Theorem staff_changes_linked (today : Today) (month : string) (build_days : Z)
  (initial_staff : option (Category → Z)) (self0 self1 self2 : StaffScheduler)
  (p : LpProblem) (cbc : Solver) (num_days : Z) (schedule : Schedule) :
  build_model today month build_days initial_staff self0 = (self1, inr p) →
  solver_sound cbc →
  solve_model cbc self1 = (self2, inr Optimal) →
  get_schedule self2 num_days = inr schedule →
  ∀ c, ∃ changes,
    staff_changes schedule !! c = Some changes
    ∧ (total changes
       == inject_Z (default default_initial_staff initial_staff c)
          + hired changes - fired changes)%Q.
Proof.
  intros Hbuild Hsound Hsolve Hget c.
  destruct (constraints_built _ _ _ _ _ _ _ Hbuild) as (types & Hcons).
  destruct (solved_values _ _ _ _ _ _ _ _ _ Hbuild Hsound Hsolve)
    as (values & _ & Hall & ->).
  eexists. split; [by eapply get_schedule_built_changes|].
  cbn [total hired fired varValue].
  assert (Constraint (var (Total_Staff c)) EQ
            (sub (add (const (default default_initial_staff initial_staff c))
                      (var (Staff_Hired c)))
                 (var (Staff_Fired c))) ∈ constraints p) as Hin.
  { rewrite Hcons, elem_of_app. left. unfold linking_constraints.
    apply list_elem_of_bind. exists c. split; [|apply elem_of_staff_categories].
    by apply list_elem_of_singleton. }
  apply Hall in Hin. unfold holds, value in Hin. simpl in Hin. lra.
Qed.

Lemma staff_changes_linked_witness :
  ∃ schedule changes,
    get_schedule example_solved 7 = inr schedule
    ∧ staff_changes schedule !! Nurses = Some changes
    ∧ (total changes == inject_Z 30 + hired changes - fired changes)%Q.
Proof.
  assert (is_inr (get_schedule example_solved 7) = true) as Hrun
    by (vm_compute; reflexivity).
  destruct (get_schedule example_solved 7) as [e|schedule] eqn:Hget;
    [discriminate|].
  destruct example_built_eq as [p Hbuild].
  destruct (staff_changes_linked example_today "January" 7 None init
              example_built example_solved p (checking_solver example_values)
              7 schedule Hbuild (checking_solver_sound example_values)
              example_solved_eq Hget Nurses) as (changes & Hch & Hlink).
  exists schedule, changes. split; [reflexivity|]. split; [exact Hch|exact Hlink].
Defined.

(** X2: in a schedule extracted after a sound solver ended [Optimal], no
    regular entry exceeds the total staff of its category. *)
Theorem regular_within_total (today : Today) (month : string) (build_days : Z)
  (initial_staff : option (Category → Z)) (self0 self1 self2 : StaffScheduler)
  (p : LpProblem) (cbc : Solver) (num_days : Z) (schedule : Schedule) :
  build_model today month build_days initial_staff self0 = (self1, inr p) →
  solver_sound cbc →
  solve_model cbc self1 = (self2, inr Optimal) →
  get_schedule self2 num_days = inr schedule →
  ∀ d s c r, regular schedule !! (d, s, c) = Some r →
    ∃ changes, staff_changes schedule !! c = Some changes
               ∧ (r <= total changes)%Q.
Proof.
  intros Hbuild Hsound Hsolve Hget d s c r Hr.
  destruct (constraints_built _ _ _ _ _ _ _ Hbuild) as (types & Hcons).
  destruct (solved_values _ _ _ _ _ _ _ _ _ Hbuild Hsound Hsolve)
    as (values & _ & Hall & ->).
  eexists. split; [by eapply get_schedule_built_changes|].
  cbn [total varValue].
  assert (0 ≤ d < num_days) as Hd.
  { destruct (get_schedule_inr_entries _ _ _ d s c Hget) as [Hdom _].
    apply Hdom. by exists r. }
  destruct (get_schedule_built_values _ _ _ _ _ _ _ d s c Hget Hd)
    as (Hn & Hrv & _).
  rewrite Hr in Hrv. injection Hrv as ->. cbn [varValue].
  assert (Constraint (var (Staff_Assigned (d, s, c))) LE (var (Total_Staff c))
          ∈ constraints p) as Hin.
  { rewrite Hcons, !elem_of_app. right. right. left.
    unfold capacity_constraints.
    apply list_elem_of_bind. exists c. split; [|apply elem_of_staff_categories].
    apply list_elem_of_bind. exists s. split; [|apply elem_of_shifts].
    apply list_elem_of_bind. exists d. split; [|by apply elem_of_range].
    by apply list_elem_of_singleton. }
  apply Hall in Hin. unfold holds, value in Hin. simpl in Hin. lra.
Qed.

Lemma regular_within_total_witness :
  ∃ schedule changes,
    get_schedule example_solved 7 = inr schedule
    ∧ regular schedule !! (3, Evening, Caregivers) = Some 17%Q
    ∧ staff_changes schedule !! Caregivers = Some changes
    ∧ (17 <= total changes)%Q.
Proof.
  assert (match get_schedule example_solved 7 with
          | inl _ => None
          | inr schedule => regular schedule !! (3, Evening, Caregivers)
          end = Some 17%Q) as Hrun by (vm_compute; reflexivity).
  destruct (get_schedule example_solved 7) as [e|schedule] eqn:Hget;
    [discriminate|].
  destruct example_built_eq as [p Hbuild].
  destruct (regular_within_total example_today "January" 7 None init
              example_built example_solved p (checking_solver example_values)
              7 schedule Hbuild (checking_solver_sound example_values)
              example_solved_eq Hget 3 Evening Caregivers 17%Q Hrun)
    as (changes & Hch & Hle).
  exists schedule, changes. split; [reflexivity|]. split; [exact Hrun|].
  split; [exact Hch|exact Hle].
Defined.

(** ** Sums over days and shifts *)

Lemma value_lpSum_days (values : LpVariable → Q) (ds : list Z)
  (e : Z → LpAffineExpression) (f : Z → Q) :
  (∀ d, d ∈ ds → (value values (e d) == f d)%Q) →
  (value values (lpSum (d ← ds; [e d])) == qsum (d ← ds; [f d]))%Q.
Proof.
  intros Hef. rewrite !bind_singleton_fmap, value_lpSum, <- list_fmap_compose.
  apply qsum_fmap_ext. intros d Hd. by apply Hef.
Qed.

Lemma value_lpSum_days_shifts (values : LpVariable → Q) (ds : list Z)
  (ss : list Shift) (e : Z → Shift → LpAffineExpression) (f : Z → Shift → Q) :
  (∀ d s, d ∈ ds → s ∈ ss → (value values (e d s) == f d s)%Q) →
  (value values (lpSum (d ← ds; s ← ss; [e d s]))
   == qsum (d ← ds; s ← ss; [f d s]))%Q.
Proof.
  intros Hef. rewrite value_lpSum.
  induction ds as [|d ds IH]; [reflexivity|].
  rewrite !bind_cons, fmap_app, !qsum_app.
  apply Qplus_comp.
  - rewrite !bind_singleton_fmap, <- list_fmap_compose.
    apply qsum_fmap_ext. intros s Hs. apply Hef; [by left|done].
  - apply IH. intros d' s Hd' Hs. apply Hef; [by right|done].
Qed.

Lemma value_var (values : LpVariable → Q) (v : LpVariable) :
  (value values (var v) == values v)%Q.
Proof. unfold value. simpl. ring. Qed.

Lemma value_scale_var (values : LpVariable → Q) (v : LpVariable) (k : Q) :
  (value values (scale (var v) k) == values v * k)%Q.
Proof. unfold value. simpl. ring. Qed.

Lemma complete_week_lt (n week : Z) : 7 * week + 7 ≤ n → week < n / 7.
Proof.
  intros Hw. assert (week + 1 ≤ n / 7); [|lia].
  apply Z.div_le_lower_bound; lia.
Qed.

(** The days a successful extraction covers were built. *)
Lemma get_schedule_built_days (n : Z) (p : LpProblem)
  (hired_vars fired_vars total_vars : option (gmap Category LpVariable))
  (num_days : Z) (schedule : Schedule) (d : Z) :
  get_schedule
    (Scheduler (Some p)
       (Some (LpVariable_dicts Staff_Assigned (all_keys n)))
       (Some (LpVariable_dicts Overtime (overtime_keys n)))
       hired_vars fired_vars total_vars) num_days = inr schedule →
  0 ≤ d < num_days → 0 ≤ d < n.
Proof.
  intros Hget Hd.
  by destruct (get_schedule_built_values _ _ _ _ _ _ _ d Morning Nurses Hget Hd).
Qed.

(** X3: in a schedule extracted after a sound solver ended [Optimal], for
    every category and every complete week of the extracted days (days
    [7 * week] to [7 * week + 6]), the regular hours of the week, regular * 8
    summed over its days and all shifts, are at most total staff times the
    regular weekly hours of the category. *)
Theorem weekly_hours_within_cap (today : Today) (month : string) (build_days : Z)
  (initial_staff : option (Category → Z)) (self0 self1 self2 : StaffScheduler)
  (p : LpProblem) (cbc : Solver) (num_days : Z) (schedule : Schedule) :
  build_model today month build_days initial_staff self0 = (self1, inr p) →
  solver_sound cbc →
  solve_model cbc self1 = (self2, inr Optimal) →
  get_schedule self2 num_days = inr schedule →
  ∀ c week, 0 ≤ week → 7 * week + 7 ≤ num_days →
    ∃ changes,
      staff_changes schedule !! c = Some changes
      ∧ (qsum (d ← Py.range2 (7 * week) (7 * week + 7); s ← shifts;
               [ default 0 (regular schedule !! (d, s, c)) * 8 ])
         <= total changes * inject_Z (regular_hours c))%Q.
Proof.
  intros Hbuild Hsound Hsolve Hget c week Hweek Hend.
  destruct (constraints_built _ _ _ _ _ _ _ Hbuild) as (types & Hcons).
  destruct (solved_values _ _ _ _ _ _ _ _ _ Hbuild Hsound Hsolve)
    as (values & _ & Hall & ->).
  set (n := horizon today month build_days) in *.
  eexists. split; [by eapply get_schedule_built_changes|].
  cbn [total varValue].
  assert (7 * week + 7 ≤ n) as Hn.
  { pose proof (get_schedule_built_days _ _ _ _ _ _ _ (7 * week + 6) Hget). lia. }
  assert (weekly_window_constraint c week ∈ constraints p) as Hin.
  { rewrite Hcons, !elem_of_app. right. right. right. left.
    apply elem_of_weekly_hours_constraints. exists c, week.
    split; [|done]. split; [done|]. by apply complete_week_lt. }
  apply Hall in Hin. unfold holds in Hin.
  unfold weekly_window_constraint in Hin. cbn [sense lhs rhs] in Hin.
  rewrite value_scale_var in Hin.
  rewrite (value_lpSum_days_shifts values _ _ _
             (λ d s, (default 0 (regular schedule !! (d, s, c)) * 8)%Q)) in Hin.
  { lra. }
  intros d s Hd%elem_of_range2 _. rewrite value_scale_var.
  destruct (get_schedule_built_values _ _ _ _ _ _ _ d s c Hget) as (_ & -> & _);
    [lia|]. reflexivity.
Qed.

Lemma weekly_hours_within_cap_witness :
  ∃ schedule changes,
    get_schedule example_solved 7 = inr schedule
    ∧ staff_changes schedule !! Caregivers = Some changes
    ∧ (qsum (d ← Py.range2 (7 * 0) (7 * 0 + 7); s ← shifts;
             [ default 0 (regular schedule !! (d, s, Caregivers)) * 8 ])
       <= total changes * inject_Z (regular_hours Caregivers))%Q.
Proof.
  assert (is_inr (get_schedule example_solved 7) = true) as Hrun
    by (vm_compute; reflexivity).
  destruct (get_schedule example_solved 7) as [e|schedule] eqn:Hget;
    [discriminate|].
  destruct example_built_eq as [p Hbuild].
  destruct (weekly_hours_within_cap example_today "January" 7 None init
              example_built example_solved p (checking_solver example_values)
              7 schedule Hbuild (checking_solver_sound example_values)
              example_solved_eq Hget Caregivers 0 ltac:(lia) ltac:(lia))
    as (changes & Hch & Hle).
  exists schedule, changes. split; [reflexivity|]. split; [exact Hch|exact Hle].
Defined.

(** X4: when the extraction covers the days the model was built over, the
    schedule of a sound solver that ended [Optimal] has, for every category,
    at most as many regular night assignments over the whole horizon as
    regular morning and evening assignments together.  (The constraint is
    on the horizon's totals, not on each day.) *)
Theorem night_within_morning_evening (today : Today) (month : string)
  (build_days : Z) (initial_staff : option (Category → Z))
  (self0 self1 self2 : StaffScheduler) (p : LpProblem) (cbc : Solver)
  (num_days : Z) (schedule : Schedule) :
  build_model today month build_days initial_staff self0 = (self1, inr p) →
  solver_sound cbc →
  solve_model cbc self1 = (self2, inr Optimal) →
  num_days = horizon today month build_days →
  get_schedule self2 num_days = inr schedule →
  ∀ c,
    (qsum (d ← Py.range num_days;
           [ default 0 (regular schedule !! (d, Night, c)) ])
     <= qsum (d ← Py.range num_days; s ← [Morning; Evening];
              [ default 0 (regular schedule !! (d, s, c)) ]))%Q.
Proof.
  intros Hbuild Hsound Hsolve -> Hget c.
  destruct (constraints_built _ _ _ _ _ _ _ Hbuild) as (types & Hcons).
  destruct (solved_values _ _ _ _ _ _ _ _ _ Hbuild Hsound Hsolve)
    as (values & _ & Hall & ->).
  set (n := horizon today month build_days) in *.
  assert (Constraint
            (lpSum (d ← Py.range n; s ← [Morning; Evening];
                    [ var (Staff_Assigned (d, s, c)) ]))
            GE (lpSum (d ← Py.range n; [ var (Staff_Assigned (d, Night, c)) ]))
          ∈ constraints p) as Hin.
  { rewrite Hcons, !elem_of_app. do 4 right.
    unfold shift_distribution_constraints.
    apply list_elem_of_bind. exists c. split; [|apply elem_of_staff_categories].
    by apply list_elem_of_singleton. }
  apply Hall in Hin. unfold holds in Hin. cbn [sense lhs rhs] in Hin.
  rewrite (value_lpSum_days values _ _
             (λ d, default 0%Q (regular schedule !! (d, Night, c)))) in Hin.
  2:{ intros d Hd%elem_of_range. rewrite value_var.
      by destruct (get_schedule_built_values _ _ _ _ _ _ _ d Night c Hget Hd)
        as (_ & -> & _). }
  rewrite (value_lpSum_days_shifts values _ _ _
             (λ d s, default 0%Q (regular schedule !! (d, s, c)))) in Hin.
  2:{ intros d s Hd%elem_of_range _. rewrite value_var.
      by destruct (get_schedule_built_values _ _ _ _ _ _ _ d s c Hget Hd)
        as (_ & -> & _). }
  exact Hin.
Qed.

Lemma night_within_morning_evening_witness :
  ∃ schedule,
    get_schedule example_solved 7 = inr schedule
    ∧ (qsum (d ← Py.range 7;
             [ default 0 (regular schedule !! (d, Night, Support_Staff)) ])
       <= qsum (d ← Py.range 7; s ← [Morning; Evening];
                [ default 0 (regular schedule !! (d, s, Support_Staff)) ]))%Q.
Proof.
  assert (is_inr (get_schedule example_solved 7) = true) as Hrun
    by (vm_compute; reflexivity).
  destruct (get_schedule example_solved 7) as [e|schedule] eqn:Hget;
    [discriminate|].
  destruct example_built_eq as [p Hbuild].
  exists schedule. split; [reflexivity|].
  apply (night_within_morning_evening example_today "January" 7 None init
           example_built example_solved p (checking_solver example_values)
           7 schedule Hbuild (checking_solver_sound example_values)
           example_solved_eq).
  - vm_compute. reflexivity.
  - exact Hget.
Defined.

(** ** Every built model can be solved *)

Lemma qsum_le_length (l : list Q) (b : Q) :
  Forall (λ x, (x <= b)%Q) l → (qsum l <= inject_Z (Z.of_nat (length l)) * b)%Q.
Proof.
  induction 1 as [|x l Hx _ IH].
  - change (0 <= 0 * b)%Q. lra.
  - rewrite qsum_cons. cbn [length]. rewrite Nat2Z.inj_succ.
    unfold Z.succ. rewrite inject_Z_plus. change (inject_Z 1) with 1%Q. lra.
Qed.

Lemma qsum_night_le (ds : list Z) (f : Z → Q) (g : Z → Shift → Q) :
  (∀ d, d ∈ ds → (f d <= g d Morning + g d Evening)%Q) →
  (qsum (d ← ds; [f d]) <= qsum (d ← ds; s ← [Morning; Evening]; [g d s]))%Q.
Proof.
  intros Hfg. induction ds as [|d ds IH]; [discriminate|].
  rewrite !bind_cons, !qsum_app.
  assert (qsum [f d]
          <= qsum [g d Morning]
             + (qsum [g d Evening] + qsum ([] ≫= λ s : Shift, [g d s])))%Q.
  { unfold qsum. simpl. pose proof (Hfg d ltac:(by left)). lra. }
  assert (qsum (ds ≫= λ d, [f d])
          <= qsum (ds ≫= λ d, [Morning; Evening] ≫= λ s, [g d s]))%Q
    by (apply IH; intros d' Hd'; apply Hfg; by right).
  lra.
Qed.

(** The constraints of a built model, block by block. *)
Lemma constraints_built_cases (today : Today) (month : string) (num_days : Z)
  (initial_staff : option (Category → Z)) (self self' : StaffScheduler)
  (p : LpProblem) (k : LpConstraint) :
  build_model today month num_days initial_staff self = (self', inr p) →
  k ∈ constraints p →
  let n := horizon today month num_days in
  (∃ c, k = Constraint (var (Total_Staff c)) EQ
              (sub (add (const (default default_initial_staff initial_staff c))
                        (var (Staff_Hired c)))
                   (var (Staff_Fired c))))
  ∨ (∃ d s c, 0 ≤ d < n
              ∧ k = coverage_constraint month (day_type_on today month d) d s c)
  ∨ (∃ d s c, 0 ≤ d < n
              ∧ k = Constraint (var (Staff_Assigned (d, s, c))) LE
                      (var (Total_Staff c)))
  ∨ (∃ c week, 0 ≤ week < n / 7 ∧ k = weekly_window_constraint c week)
  ∨ (∃ c, k = Constraint
                (lpSum (d ← Py.range n; s ← [Morning; Evening];
                        [ var (Staff_Assigned (d, s, c)) ]))
                GE (lpSum (d ← Py.range n; [ var (Staff_Assigned (d, Night, c)) ]))).
Proof.
  intros Hbuild Hk n.
  destruct (build_model_inr _ _ _ _ _ _ _ Hbuild) as (mn & Hmn & Hp & _).
  rewrite Hp in Hk. cbn [constraints] in Hk. fold n in Hk.
  rewrite !elem_of_app in Hk. destruct Hk as [Hk|[Hk|[Hk|[Hk|Hk]]]].
  - left. apply list_elem_of_bind in Hk as (c & ->%list_elem_of_singleton & _).
    by exists c.
  - right. left. unfold coverage_constraints in Hk.
    apply list_elem_of_bind in Hk as (d & Hk & Hd%elem_of_range).
    apply list_elem_of_bind in Hk as (s & Hk & _).
    apply list_elem_of_bind in Hk as (c & ->%list_elem_of_singleton & _).
    exists d, s, c. split; [done|].
    rewrite day_types_lookup by done. unfold day_type_on. by rewrite Hmn.
  - right. right. left.
    apply list_elem_of_bind in Hk as (c & Hk & _).
    apply list_elem_of_bind in Hk as (s & Hk & _).
    apply list_elem_of_bind in Hk as (d & ->%list_elem_of_singleton & Hd%elem_of_range).
    by exists d, s, c.
  - do 3 right. left. by apply elem_of_weekly_hours_constraints.
  - do 4 right.
    apply list_elem_of_bind in Hk as (c & ->%list_elem_of_singleton & _).
    by exists c.
Qed.

Lemma feasible_values_nonneg (today : Today) (month : string)
  (initial_staff : Category → Z) (v : LpVariable) :
  (0 <= feasible_values today month initial_staff v)%Q
  ∧ is_integer (feasible_values today month initial_staff v) = true.
Proof.
  unfold feasible_values, demand_values.
  destruct v as [[[d s] c]| |c| |c];
    (split; [|apply is_integer_inject_Z || reflexivity]);
    try discriminate; apply inject_Z_nonneg; try lia.
  unfold demand_on. pose proof (forecast_demand_bounds month
    (day_type_on today month d) s c). lia.
Qed.

Lemma regular_hours_ge (c : Category) : (30 <= inject_Z (regular_hours c))%Q.
Proof. by destruct c. Qed.

Lemma hiring_cost_pos (c : Category) : (0 < inject_Z (hiring_cost c))%Q.
Proof. by destruct c. Qed.

Lemma firing_cost_pos (c : Category) : (0 < inject_Z (firing_cost c))%Q.
Proof. by destruct c. Qed.

Lemma cost_of_days_nonneg (values : LpVariable → Q) (n : Z) :
  (∀ v, (0 <= values v)%Q) → (0 <= cost_of_days values n)%Q.
Proof.
  intros Hpos. unfold cost_of_days.
  assert (∀ (A : Type) (f : A → Q) (l : list A),
            (∀ x, (0 <= f x)%Q) → (0 <= qsum (f <$> l))%Q) as Hsum.
  { intros A f l Hf. apply qsum_nonneg, Forall_fmap, Forall_forall.
    intros x _. apply Hf. }
  pose proof (Hsum _ (λ k : Key, (values (Staff_Assigned k)
                                   * inject_Z (hourly_wages k.2) * 8)%Q)
                (all_keys n)) as H1.
  pose proof (Hsum _ (λ k : Key, (values (Overtime k)
                                   * inject_Z (hourly_wages k.2) * (3 # 2) * 8)%Q)
                (overtime_keys n)) as H2.
  pose proof (Hsum _ (λ c, (values (Staff_Hired c) * inject_Z (hiring_cost c))%Q)
                staff_categories) as H3.
  pose proof (Hsum _ (λ c, (values (Staff_Fired c) * inject_Z (firing_cost c))%Q)
                staff_categories) as H4.
  cbn beta in *.
  assert (∀ a b : Q, (0 <= a)%Q → (0 < b)%Q → (0 <= a * b)%Q) as Hmul
    by (intros; nra).
  specialize (H1 ltac:(intros k; pose proof (Hpos (Staff_Assigned k));
                       pose proof (hourly_wages_pos k.2); nra)).
  specialize (H2 ltac:(intros k; pose proof (Hpos (Overtime k));
                       pose proof (hourly_wages_pos k.2); nra)).
  specialize (H3 ltac:(intros c; apply Hmul; [apply Hpos|apply hiring_cost_pos])).
  specialize (H4 ltac:(intros c; apply Hmul; [apply Hpos|apply firing_cost_pos])).
  lra.
Qed.

Lemma value_const (values : LpVariable → Q) (k : Z) :
  (value values (const k) == inject_Z k)%Q.
Proof. reflexivity. Qed.

Lemma value_linking_rhs (values : LpVariable → Q) (k : Z) (h f : LpVariable) :
  (value values (sub (add (const k) (var h)) (var f))
   == inject_Z k + values h - values f)%Q.
Proof. unfold value. simpl. ring. Qed.

Lemma length_week {A : Type} (week : Z) (f : Z → Shift → A) :
  length (d ← Py.range2 (7 * week) (7 * week + 7); s ← shifts; [f d s]) = 21%nat.
Proof.
  unfold Py.range2.
  replace (Z.to_nat (7 * week + 7 - 7 * week)) with 7%nat by lia. reflexivity.
Qed.

(** X5: every model [build_model] produces has a solution and a bounded
    objective.  Staffing every shift at exactly its demand with no overtime,
    firing nobody and hiring each category up to at least 100 people
    satisfies every constraint with non-negative integers, whatever the
    month, the number of days and the initial staff; and the objective is
    never negative on non-negative values.  So a correct solver cannot
    report the model infeasible or unbounded. *)
Theorem build_model_feasible (today : Today) (month : string) (num_days : Z)
  (initial_staff : option (Category → Z)) (self0 self1 : StaffScheduler)
  (p : LpProblem) :
  build_model today month num_days initial_staff self0 = (self1, inr p) →
  let values :=
    feasible_values today month (default default_initial_staff initial_staff) in
  (∀ k, k ∈ constraints p → holds values k)
  ∧ (∀ v, (0 <= values v)%Q ∧ is_integer (values v) = true)
  ∧ (∃ e, objective p = Some e
          ∧ ∀ values', (∀ v, (0 <= values' v)%Q) → (0 <= value values' e)%Q).
Proof.
  intros Hbuild values.
  set (initial := default default_initial_staff initial_staff) in *.
  assert (∀ d s c, values (Staff_Assigned (d, s, c))
                   = inject_Z (demand_on today month d s c)) as Hsa by done.
  assert (∀ k, values (Overtime k) = 0%Q) as Hot by done.
  assert (∀ c, values (Staff_Hired c) = inject_Z (Z.max 0 (100 - initial c)))
    as Hh by done.
  assert (∀ c, values (Staff_Fired c) = 0%Q) as Hf by done.
  assert (∀ c, values (Total_Staff c)
               = inject_Z (initial c + Z.max 0 (100 - initial c))) as Ht by done.
  assert (∀ c, (100 <= values (Total_Staff c))%Q) as Htotal.
  { intros c. rewrite Ht. apply (inject_Z_le 100). lia. }
  assert (∀ d s c, (0 <= values (Staff_Assigned (d, s, c)) <= 17)%Q) as Hdem.
  { intros d s c. rewrite Hsa.
    pose proof (forecast_demand_bounds month (day_type_on today month d) s c).
    split; [apply (inject_Z_le 0)|apply (inject_Z_le _ 17)]; unfold demand_on; lia. }
  split; [|split].
  - intros k Hk.
    destruct (constraints_built_cases _ _ _ _ _ _ _ k Hbuild Hk)
      as [(c & ->)|[(d & s & c & Hd & ->)|[(d & s & c & Hd & ->)
          |[(c & week & Hw & ->)|(c & ->)]]]];
      unfold holds; cbn [sense lhs rhs].
    + rewrite value_var, value_linking_rhs, Ht, Hh, Hf, inject_Z_plus.
      fold initial. ring.
    + unfold coverage_constraint. case_decide; cbn [sense lhs rhs].
      * rewrite value_const, value_add, !value_var, Hot, Hsa.
        unfold demand_on. lra.
      * rewrite value_const, value_var, Hsa. unfold demand_on. lra.
    + rewrite !value_var. pose proof (Hdem d s c). pose proof (Htotal c). lra.
    + unfold weekly_window_constraint. cbn [sense lhs rhs].
      rewrite value_scale_var.
      rewrite (value_lpSum_days_shifts values _ _ _
                 (λ d s, (values (Staff_Assigned (d, s, c)) * 8)%Q))
        by (intros; apply value_scale_var).
      match goal with
      | |- (qsum ?l <= _)%Q =>
          assert (qsum l <= inject_Z (Z.of_nat (length l)) * 136)%Q as Hsum
      end.
      { apply qsum_le_length, Forall_forall. intros x Hx.
        apply list_elem_of_bind in Hx as (d & Hx & _).
        apply list_elem_of_bind in Hx as (s & ->%list_elem_of_singleton & _).
        pose proof (Hdem d s c). lra. }
      rewrite length_week in Hsum. change (inject_Z (Z.of_nat 21)) with 21%Q in Hsum.
      pose proof (Htotal c). pose proof (regular_hours_ge c). nra.
    + rewrite (value_lpSum_days values _ _
                 (λ d, values (Staff_Assigned (d, Night, c))))
        by (intros; apply value_var).
      rewrite (value_lpSum_days_shifts values _ _ _
                 (λ d s, values (Staff_Assigned (d, s, c))))
        by (intros; apply value_var).
      apply qsum_night_le. intros d _. rewrite !Hsa, <- inject_Z_plus.
      apply inject_Z_le, forecast_demand_night.
  - intros v. apply feasible_values_nonneg.
  - destruct (build_model_inr _ _ _ _ _ _ _ Hbuild) as (mn & _ & -> & _).
    eexists. split; [reflexivity|]. intros values' Hpos.
    rewrite value_total_cost_objective. by apply cost_of_days_nonneg.
Qed.

Lemma build_model_feasible_witness :
  ∃ p,
    build_model example_today "January" 7
      (Some (λ _ : Category, 0)) init = (example_built_empty, inr p)
    ∧ (∀ k, k ∈ constraints p →
         holds (feasible_values example_today "January" (λ _, 0)) k)
    ∧ all_hold (feasible_values example_today "January" (λ _, 0)) p = true.
Proof.
  assert (∃ p, build_model example_today "January" 7
                 (Some (λ _ : Category, 0)) init
               = (example_built_empty, inr p)) as [p Hbuild]
    by (eexists; apply pair_snd_eq; reflexivity).
  exists p. split; [exact Hbuild|]. split.
  - apply (build_model_feasible example_today "January" 7
             (Some (λ _ : Category, 0)) init example_built_empty p Hbuild).
  - apply (f_equal snd) in Hbuild. cbn [snd] in Hbuild.
    injection Hbuild as <-. vm_compute. reflexivity.
Defined.

(** ** Which months a build accepts, and what a build leaves behind *)

Lemma index_None (x : string) (l : list string) : Py.index x l = None ↔ x ∉ l.
Proof.
  induction l as [|y l IH]; simpl.
  - split; [intros _; apply not_elem_of_nil|done].
  - rewrite not_elem_of_cons. destruct (String.eqb y x) eqn:Hyx.
    + apply String.eqb_eq in Hyx as ->. split; [discriminate|]. by intros [[] _].
    + apply String.eqb_neq in Hyx.
      destruct (Py.index x l); simpl; split; try discriminate; try done.
      * intros [_ Hx]. by apply IH in Hx.
      * intros _. split; [congruence|]. by apply IH.
Qed.

Lemma index_Some_bound (x : string) (l : list string) (i : Z) :
  Py.index x l = Some i → 0 ≤ i < Z.of_nat (length l).
Proof.
  revert i. induction l as [|y l IH]; intros i; simpl; [discriminate|].
  destruct (String.eqb y x); [intros [= <-]; lia|].
  destruct (Py.index x l) as [j|]; [|discriminate].
  intros [= <-]. specialize (IH j eq_refl). lia.
Qed.

(** X6: [build_model] returns a model exactly for the month strings of
    [calendar.month_name] (the twelve English month names and the empty
    string) and raises [ValueError] for every other string, leaving the
    variable dictionaries as they were.  Either way the scheduler then holds
    a problem that is not solved, so until [solve_model] is called again
    [get_schedule] raises [ValueError]: a rebuild, even a failed one, makes
    the previous solution unreachable. *)
Theorem build_model_month_check (today : Today) (month : string) (num_days : Z)
  (initial_staff : option (Category → Z)) (self : StaffScheduler) :
  (is_inr (build_model today month num_days initial_staff self).2 = true
   ↔ month ∈ Py.month_name)
  ∧ (is_inr (build_model today month num_days initial_staff self).2 = false
     ↔ ∃ msg,
         build_model today month num_days initial_staff self
         = (Scheduler (Some new_problem) (staff_assigned self)
              (overtime_assigned self) (staff_hired self) (staff_fired self)
              (total_staff self),
            inl (ValueError msg)))
  ∧ ∀ extract_days,
      get_schedule (build_model today month num_days initial_staff self).1
        extract_days
      = inl (ValueError "Model not solved optimally yet.").
Proof.
  destruct (Py.index month Py.month_name) as [mn|] eqn:Hm.
  - destruct (build_model_Some today month num_days initial_staff self mn Hm)
      as (self' & p & Hbuild).
    destruct (build_model_inr _ _ _ _ _ _ _ Hbuild) as (mn' & _ & Hp & Hself).
    rewrite Hbuild. cbn [fst snd is_inr]. split; [|split].
    + split; [intros _|done].
      destruct (decide (month ∈ Py.month_name)) as [|Hn]; [done|].
      apply index_None in Hn. congruence.
    + split; [discriminate|]. intros [msg Heq]. discriminate Heq.
    + intros extract_days. rewrite Hself. unfold get_schedule.
      cbn [problem]. by rewrite Hp.
  - rewrite (build_model_raises today month num_days initial_staff self Hm).
    cbn [fst snd is_inr]. split; [|split].
    + split; [discriminate|]. intros Hin. by apply index_None in Hm.
    + split; [intros _; by eexists|done].
    + done.
Qed.

(** ** The callers *)

Lemma get_schedule_built_outcome (n : Z) (p : LpProblem) (num_days : Z) :
  status p = Optimal → is_Some (objective p) →
  let self :=
    Scheduler (Some p)
      (Some (LpVariable_dicts Staff_Assigned (all_keys n)))
      (Some (LpVariable_dicts Overtime (overtime_keys n)))
      (Some (LpVariable_dicts Staff_Hired staff_categories))
      (Some (LpVariable_dicts Staff_Fired staff_categories))
      (Some (LpVariable_dicts Total_Staff staff_categories)) in
  (num_days ≤ Z.max 0 n → ∃ schedule, get_schedule self num_days = inr schedule)
  ∧ (Z.max 0 n < num_days →
     get_schedule self num_days = inl (KeyError (Z.max 0 n, Morning, Caregivers))).
Proof.
  intros Hst [e He] self.
  assert (read_objective p = inr (value (varValue p) e)) as Hcost
    by (unfold read_objective; by rewrite He).
  assert (∀ k, k ∈ all_keys (Z.max 0 n) →
            ∃ q, read_regular self (varValue p) k = inr q) as Hread.
  { intros [[d s] c] Hk%elem_of_all_keys. unfold read_regular, self.
    cbn [staff_assigned]. rewrite staff_assigned_getitem by lia. eauto. }
  split.
  - intros Hle. unfold get_schedule. cbn [problem self]. rewrite Hst, Hcost.
    cbn [LpStatus_name String.eqb Ascii.eqb Bool.eqb negb]. fold self.
    edestruct (extract_loop_total (read_regular self (varValue p))
                 (all_keys num_days) ∅) as [reg ->].
    { intros [[d s] c] Hk%elem_of_all_keys. apply Hread, elem_of_all_keys. lia. }
    edestruct (extract_loop_total (read_overtime self (varValue p))
                 (overtime_keys num_days) ∅) as [ot ->].
    { intros k _. unfold read_overtime, self. cbn [overtime_assigned].
      destruct (_ !! k); eauto. }
    destruct (extract_staff_changes_built self (varValue p) eq_refl eq_refl eq_refl)
      as (ch & -> & _).
    eauto.
  - intros Hlt.
    destruct (all_keys_split (Z.max 0 n) num_days) as [rest Hkeys]; [lia|].
    unfold get_schedule. cbn [problem self]. rewrite Hst, Hcost.
    cbn [LpStatus_name String.eqb Ascii.eqb Bool.eqb negb]. fold self.
    rewrite Hkeys.
    rewrite (extract_loop_raises _ _ _ _ _ (KeyError (Z.max 0 n, Morning, Caregivers)));
      [done|done| | |].
    + rewrite elem_of_all_keys. lia.
    + apply lookup_empty.
    + unfold read_regular, self. cbn [staff_assigned].
      rewrite LpVariable_dicts_None; [done|]. rewrite elem_of_all_keys. lia.
Qed.

Lemma monthrange_ndays_bounds (year month_number : Z) :
  1 ≤ month_number ≤ 12 → 28 ≤ Py.monthrange_ndays year month_number ≤ 31.
Proof.
  intros Hm. unfold Py.monthrange_ndays.
  assert (month_number = 1 ∨ month_number = 2 ∨ month_number = 3
          ∨ month_number = 4 ∨ month_number = 5 ∨ month_number = 6
          ∨ month_number = 7 ∨ month_number = 8 ∨ month_number = 9
          ∨ month_number = 10 ∨ month_number = 11 ∨ month_number = 12)
    as Hcases by lia.
  repeat (destruct Hcases as [->|Hcases]; [simpl; try destruct (Py.isleap year); lia|]).
  subst. simpl. lia.
Qed.

Lemma month_name_index (month : string) :
  month ∈ tail Py.month_name →
  ∃ month_number,
    Py.index month Py.month_name = Some month_number ∧ 1 ≤ month_number ≤ 12.
Proof.
  unfold Py.month_name. cbn [tail]. intros Hin.
  repeat (apply elem_of_cons in Hin as [->|Hin];
          [eexists; split; [reflexivity|lia]|]).
  by apply elem_of_nil in Hin.
Qed.

(** The run of a month given by name with a solver that ends [Optimal]. *)
Lemma app_main_cases (today : Today) (cbc : Solver) (month : string)
  (num_days month_number : Z) (initial_staff : Category → Z) :
  Py.index month Py.month_name = Some month_number →
  1 ≤ month_number ≤ 12 →
  (∀ self1 p,
     build_model today month num_days (Some initial_staff) init = (self1, inr p) →
     ∃ values, cbc p = Some (Optimal, values)) →
  let ndays := Py.monthrange_ndays (today_year today) month_number in
  (num_days ≤ ndays →
     ∃ schedule,
       app_main today cbc month num_days initial_staff
       = inr (Optimal, Some schedule)
       ∧ ∀ d s c, is_Some (regular schedule !! (d, s, c)) ↔ 0 ≤ d < num_days)
  ∧ (ndays < num_days →
     app_main today cbc month num_days initial_staff
     = inl (KeyError (ndays, Morning, Caregivers))).
Proof.
  intros Hm Hmn Hcbc ndays.
  pose proof (monthrange_ndays_bounds (today_year today) month_number Hmn) as Hnd.
  fold ndays in Hnd.
  destruct (build_model_Some today month num_days (Some initial_staff) init _ Hm)
    as (self1 & p & Hbuild).
  destruct (Hcbc self1 p Hbuild) as [values Hvalues].
  assert (horizon today month num_days = Z.min num_days ndays) as Hh.
  { rewrite (horizon_le_month _ _ _ _ Hm).
    replace (month_number =? 0) with false by (symmetry; apply Z.eqb_neq; lia).
    done. }
  destruct (build_model_inr _ _ _ _ _ _ _ Hbuild) as (mn' & _ & Hp & Hself).
  assert (is_Some (objective p)) as Hobj by (rewrite Hp; by eexists).
  assert (solve_model cbc self1
          = (Scheduler (Some (Problem (objective p) (constraints p) Optimal values))
               (Some (LpVariable_dicts Staff_Assigned
                        (all_keys (horizon today month num_days))))
               (Some (LpVariable_dicts Overtime
                        (overtime_keys (horizon today month num_days))))
               (Some (LpVariable_dicts Staff_Hired staff_categories))
               (Some (LpVariable_dicts Staff_Fired staff_categories))
               (Some (LpVariable_dicts Total_Staff staff_categories)),
             inr Optimal)) as Hsolve.
  { rewrite Hself. unfold solve_model. cbn [problem]. by rewrite Hvalues. }
  unfold app_main. cbn zeta. rewrite Hbuild, Hsolve.
  cbn [LpStatus_name String.eqb Ascii.eqb Bool.eqb].
  destruct (get_schedule_built_outcome (horizon today month num_days)
              (Problem (objective p) (constraints p) Optimal values) num_days
              eq_refl Hobj) as [Hok Hfail].
  cbn zeta in Hok, Hfail. split.
  - intros Hle. destruct Hok as [schedule Hget]; [lia|].
    rewrite Hget. exists schedule. split; [done|].
    intros d s c. by apply get_schedule_inr_entries with (1 := Hget).
  - intros Hlt. rewrite Hfail by lia.
    by replace (Z.max 0 (horizon today month num_days)) with ndays by lia.
Qed.

(** X7: the run behind the dashboard's button, for a month picked from the
    twelve month names and a solver that ends [Optimal] on the built model.  The month has 28
    to 31 days; when the number of days asked for is at most the month's
    length the run returns a schedule with regular entries for exactly the
    days asked for; when it is larger (February with 29, 30 or 31 days, a
    30-day month with 31) the run ends in the [KeyError] of [get_schedule]
    at the first day past the month. *)
Theorem app_main_outcome (today : Today) (cbc : Solver) (selected_month : string)
  (num_days : Z) (initial_staff : Category → Z) :
  selected_month ∈ tail Py.month_name →
  (∀ self1 p,
     build_model today selected_month num_days (Some initial_staff) init
     = (self1, inr p) →
     ∃ values, cbc p = Some (Optimal, values)) →
  ∃ month_number,
    Py.index selected_month Py.month_name = Some month_number
    ∧ let ndays := Py.monthrange_ndays (today_year today) month_number in
      28 ≤ ndays ≤ 31
      ∧ (num_days ≤ ndays →
           ∃ schedule,
             app_main today cbc selected_month num_days initial_staff
             = inr (Optimal, Some schedule)
             ∧ ∀ d s c, is_Some (regular schedule !! (d, s, c)) ↔ 0 ≤ d < num_days)
      ∧ (ndays < num_days →
           app_main today cbc selected_month num_days initial_staff
           = inl (KeyError (ndays, Morning, Caregivers))).
Proof.
  intros (mn & Hm & Hmn)%month_name_index Hcbc. exists mn. split; [done|].
  cbn zeta. split; [by apply monthrange_ndays_bounds|].
  by apply app_main_cases.
Qed.

Lemma app_main_outcome_witness :
  ∃ schedule,
    app_main example_today (reporting_solver example_values) "February" 28
      default_initial_staff = inr (Optimal, Some schedule)
    ∧ app_main example_today (reporting_solver example_values) "February" 31
        default_initial_staff = inl (KeyError (28, Morning, Caregivers)).
Proof.
  destruct (app_main_outcome example_today (reporting_solver example_values)
              "February" 28 default_initial_staff)
    as (mn & Hm & _ & Hok & _).
  { unfold Py.month_name. cbn [tail]. right. by left. }
  { intros self1 p _. by eexists. }
  destruct (app_main_outcome example_today (reporting_solver example_values)
              "February" 31 default_initial_staff)
    as (mn' & Hm' & _ & _ & Hfail).
  { unfold Py.month_name. cbn [tail]. right. by left. }
  { intros self1 p _. by eexists. }
  injection Hm as <-. injection Hm' as <-.
  destruct Hok as (schedule & Hrun & _); [vm_compute; discriminate|].
  exists schedule. split; [exact Hrun|].
  apply Hfail. vm_compute. reflexivity.
Defined.

Lemma coverage_values (today : Today) (month : string) (num_days : Z)
  (initial_staff : option (Category → Z)) (self self' : StaffScheduler)
  (p : LpProblem) (values : LpVariable → Q) (d : Z) (s : Shift) (c : Category) :
  build_model today month num_days initial_staff self = (self', inr p) →
  (∀ k, k ∈ constraints p → holds values k) →
  0 ≤ d < horizon today month num_days →
  (inject_Z (demand_on today month d s c)
   <= values (Staff_Assigned (d, s, c))
      + (if decide (c ≠ Nurses) then values (Overtime (d, s, c)) else 0))%Q.
Proof.
  intros Hbuild Hall Hd.
  pose proof (coverage_constraint_built _ _ _ _ _ _ _ d s c Hbuild Hd) as Hin.
  apply Hall in Hin. unfold holds, coverage_constraint in Hin.
  unfold demand_on. case_decide; cbn [sense lhs rhs] in Hin.
  - by rewrite value_const, value_add, !value_var in Hin.
  - rewrite value_const, value_var in Hin. lra.
Qed.

(** What a schedule extracted after a sound solve holds at a key, against
    the demand of the key. *)
Lemma solved_entry_covers (today : Today) (month : string) (build_days : Z)
  (initial_staff : option (Category → Z)) (self0 self1 self2 : StaffScheduler)
  (p : LpProblem) (cbc : Solver) (num_days : Z) (schedule : Schedule)
  (d : Z) (s : Shift) (c : Category) :
  build_model today month build_days initial_staff self0 = (self1, inr p) →
  solver_sound cbc →
  solve_model cbc self1 = (self2, inr Optimal) →
  get_schedule self2 num_days = inr schedule →
  0 ≤ d < num_days →
  ∃ r o,
    regular schedule !! (d, s, c) = Some r
    ∧ overtime schedule !! (d, s, c) = (if decide (c ≠ Nurses) then Some o else None)
    ∧ (inject_Z (demand_on today month d s c)
       <= r + (if decide (c ≠ Nurses) then o else 0))%Q.
Proof.
  intros Hbuild Hsound Hsolve Hget Hd.
  destruct (solved_values _ _ _ _ _ _ _ _ _ Hbuild Hsound Hsolve)
    as (values & _ & Hall & ->).
  destruct (get_schedule_built_values _ _ _ _ _ _ _ d s c Hget Hd)
    as (Hn & Hr & Ho).
  exists (values (Staff_Assigned (d, s, c))), (values (Overtime (d, s, c))).
  split; [done|]. split; [done|].
  by apply (coverage_values _ _ _ _ _ _ _ _ _ _ _ Hbuild Hall).
Qed.

Lemma app_main_unfold (today : Today) (cbc : Solver) (month : string)
  (num_days month_number : Z) (initial_staff : Category → Z) :
  Py.index month Py.month_name = Some month_number →
  (∀ self1 p,
     build_model today month num_days (Some initial_staff) init = (self1, inr p) →
     ∃ values, cbc p = Some (Optimal, values)) →
  ∃ self1 p self2,
    build_model today month num_days (Some initial_staff) init = (self1, inr p)
    ∧ solve_model cbc self1 = (self2, inr Optimal)
    ∧ app_main today cbc month num_days initial_staff
      = match get_schedule self2 num_days with
        | inl e => inl e
        | inr schedule => inr (Optimal, Some schedule)
        end.
Proof.
  intros Hm Hcbc.
  destruct (build_model_Some today month num_days (Some initial_staff) init _ Hm)
    as (self1 & p & Hbuild).
  destruct (Hcbc self1 p Hbuild) as [values Hvalues].
  destruct (build_model_inr _ _ _ _ _ _ _ Hbuild) as (mn' & _ & _ & Hself).
  exists self1, p. eexists. split; [done|].
  assert (problem self1 = Some p) as Hp by (by rewrite Hself).
  unfold app_main, solve_model. cbn zeta. rewrite Hbuild, Hp, Hvalues.
  split; [reflexivity|]. done.
Qed.

(** X8: [main()] of [staff_scheduling.py], on any date, with a sound solver
    that ends [Optimal] on the model it builds: it returns a schedule with regular entries for
    exactly the 28 days [0 <= d < 28], and as March is missing from the
    historical table every entry covers February's demand for the day's
    type, regular + overtime >= demand. *)
Theorem main_schedule (today : Today) (cbc : Solver) :
  solver_sound cbc →
  (∀ self1 p,
     build_model today "March" 28 (Some default_initial_staff) init
     = (self1, inr p) →
     ∃ values, cbc p = Some (Optimal, values)) →
  ∃ schedule,
    main today cbc = inr (Optimal, Some schedule)
    ∧ (∀ d s c, is_Some (regular schedule !! (d, s, c)) ↔ 0 ≤ d < 28)
    ∧ ∀ d s c r, regular schedule !! (d, s, c) = Some r →
        (inject_Z (forecast_demand "February" (day_type_on today "March" d) s c)
         <= r + default 0 (overtime schedule !! (d, s, c)))%Q.
Proof.
  intros Hsound Hcbc. unfold main.
  destruct (app_main_cases today cbc "March" 28 3 default_initial_staff
              eq_refl ltac:(lia) Hcbc) as [Hok _].
  destruct Hok as (schedule & Hrun & Hdom).
  { pose proof (monthrange_ndays_bounds (today_year today) 3). lia. }
  exists schedule. split; [done|]. split; [done|].
  destruct (app_main_unfold today cbc "March" 28 3 default_initial_staff
              eq_refl Hcbc) as (self1 & p & self2 & Hbuild & Hsolve & Hmain).
  rewrite Hrun in Hmain.
  destruct (get_schedule self2 28) as [e|schedule'] eqn:Hget; [discriminate|].
  injection Hmain as <-.
  intros d s c r Hr.
  assert (0 ≤ d < 28) as Hd by (apply (proj1 (Hdom d s c)); by exists r).
  destruct (solved_entry_covers _ _ _ _ _ _ _ _ _ _ _ d s c
              Hbuild Hsound Hsolve Hget Hd) as (r' & o & Hr' & Ho & Hle).
  rewrite Hr in Hr'. injection Hr' as <-. rewrite Ho.
  change (demand_on today "March" d s c)
    with (forecast_demand "February" (day_type_on today "March" d) s c) in Hle.
  by case_decide.
Qed.

Lemma main_schedule_witness :
  ∃ schedule,
    main example_today
      (checking_solver (feasible_values example_today "March" default_initial_staff))
    = inr (Optimal, Some schedule)
    ∧ (is_Some (regular schedule !! (27, Night, Nurses)) ↔ 0 ≤ 27 < 28)
    ∧ ∀ r, regular schedule !! (5, Evening, Caregivers) = Some r →
        (inject_Z (forecast_demand "February"
                     (day_type_on example_today "March" 5) Evening Caregivers)
         <= r + default 0 (overtime schedule !! (5%Z, Evening, Caregivers)))%Q.
Proof.
  destruct (main_schedule example_today
              (checking_solver
                 (feasible_values example_today "March" default_initial_staff))
              (checking_solver_sound _)) as (schedule & Hrun & Hdom & Hcov).
  { intros self1 p Hbuild. apply (f_equal snd) in Hbuild. cbn [snd] in Hbuild.
    injection Hbuild as <-. eexists. unfold checking_solver.
    match goal with
    | |- context [all_hold ?v ?q] =>
        assert (all_hold v q = true) as -> by (vm_compute; reflexivity)
    end.
    reflexivity. }
  exists schedule. split; [exact Hrun|]. split; [exact (Hdom 27 Night Nurses)|].
  exact (Hcov 5 Evening Caregivers).
Defined.

(** ** The rows and daily totals shown for a schedule *)

Lemma length_bind_const {A B : Type} (f : A → list B) (l : list A) (k : nat) :
  (∀ x, length (f x) = k) → length (l ≫= f) = (length l * k)%nat.
Proof.
  intros Hf. induction l as [|x l IH]; [done|].
  rewrite bind_cons, length_app, Hf, IH. simpl. lia.
Qed.

Lemma length_range (n : Z) : length (Py.range n) = Z.to_nat n.
Proof. unfold Py.range. by rewrite length_fmap, length_seq. Qed.

(** X9: the rows [visualize_schedule] (and [main], for the CSV file) builds
    from a schedule extracted with the same [num_days], after a sound solver
    ended [Optimal]: nine rows per day; each row is labelled with a day from
    1 to [num_days], its total is regular + overtime, its overtime is 0 for
    Nurses, and its total covers the forecast demand of its day, shift and
    category. *)
Theorem heatmap_data_rows (today : Today) (month : string) (build_days : Z)
  (initial_staff : option (Category → Z)) (self0 self1 self2 : StaffScheduler)
  (p : LpProblem) (cbc : Solver) (num_days : Z) (schedule : Schedule) :
  build_model today month build_days initial_staff self0 = (self1, inr p) →
  solver_sound cbc →
  solve_model cbc self1 = (self2, inr Optimal) →
  get_schedule self2 num_days = inr schedule →
  length (heatmap_data schedule num_days) = (Z.to_nat num_days * 9)%nat
  ∧ ∀ row, row ∈ heatmap_data schedule num_days →
      1 ≤ row_Day row ≤ num_days
      ∧ row_Total_Staff row = (row_Regular_Staff row + row_Overtime_Staff row)%Q
      ∧ (row_Category row = Nurses → row_Overtime_Staff row = 0%Q)
      ∧ (inject_Z (demand_on today month (row_Day row - 1) (row_Shift row)
                     (row_Category row))
         <= row_Total_Staff row)%Q.
Proof.
  intros Hbuild Hsound Hsolve Hget. split.
  - unfold heatmap_data. rewrite (length_bind_const _ _ 9); [|done].
    by rewrite length_range.
  - intros row Hrow. unfold heatmap_data in Hrow.
    apply list_elem_of_bind in Hrow as (d & Hrow & Hd%elem_of_range).
    apply list_elem_of_bind in Hrow as (s & Hrow & _).
    apply list_elem_of_bind in Hrow as (c & Hrow & _).
    cbn zeta in Hrow. apply list_elem_of_singleton in Hrow as ->.
    cbn [row_Day row_Shift row_Category row_Regular_Staff row_Overtime_Staff
         row_Total_Staff].
    split; [lia|]. split; [done|]. split.
    { intros ->. by rewrite decide_False by (intros Hne; by apply Hne). }
    replace (d + 1 - 1) with d by lia.
    destruct (solved_entry_covers _ _ _ _ _ _ _ _ _ _ _ d s c
                Hbuild Hsound Hsolve Hget Hd) as (r & o & -> & -> & Hle).
    by case_decide.
Qed.

Lemma heatmap_data_rows_witness :
  ∃ schedule,
    get_schedule example_solved 7 = inr schedule
    ∧ length (heatmap_data schedule 7) = 63%nat
    ∧ ∀ row, row ∈ heatmap_data schedule 7 →
        1 ≤ row_Day row ≤ 7
        ∧ (inject_Z (demand_on example_today "January" (row_Day row - 1)
                       (row_Shift row) (row_Category row))
           <= row_Total_Staff row)%Q.
Proof.
  assert (is_inr (get_schedule example_solved 7) = true) as Hrun
    by (vm_compute; reflexivity).
  destruct (get_schedule example_solved 7) as [e|schedule] eqn:Hget;
    [discriminate|].
  destruct example_built_eq as [p Hbuild].
  destruct (heatmap_data_rows example_today "January" 7 None init
              example_built example_solved p (checking_solver example_values)
              7 schedule Hbuild (checking_solver_sound example_values)
              example_solved_eq Hget) as [Hlen Hrows].
  exists schedule. split; [reflexivity|]. split; [exact Hlen|].
  intros row Hrow. destruct (Hrows row Hrow) as (Hday & _ & _ & Hle).
  split; [exact Hday|exact Hle].
Defined.

(** X10: the daily totals of [app.py]'s staffing chart, for a schedule
    extracted with the same [num_days] after a sound solver ended [Optimal]:
    one entry per day, labelled 1 to [num_days], and for every category the
    day's total (regular plus overtime over the three shifts, no overtime
    for Nurses) covers the day's demand summed over the three shifts. *)
Theorem daily_data_covers (today : Today) (month : string) (build_days : Z)
  (initial_staff : option (Category → Z)) (self0 self1 self2 : StaffScheduler)
  (p : LpProblem) (cbc : Solver) (num_days : Z) (schedule : Schedule) :
  build_model today month build_days initial_staff self0 = (self1, inr p) →
  solver_sound cbc →
  solve_model cbc self1 = (self2, inr Optimal) →
  get_schedule self2 num_days = inr schedule →
  length (daily_data schedule num_days) = Z.to_nat num_days
  ∧ ∀ entry, entry ∈ daily_data schedule num_days →
      1 ≤ entry.1 ≤ num_days
      ∧ ∀ c,
          (inject_Z (demand_on today month (entry.1 - 1) Morning c
                     + demand_on today month (entry.1 - 1) Evening c
                     + demand_on today month (entry.1 - 1) Night c)
           <= entry.2 c)%Q.
Proof.
  intros Hbuild Hsound Hsolve Hget. split.
  - unfold daily_data. rewrite (length_bind_const _ _ 1); [|done].
    rewrite length_range. lia.
  - intros entry Hentry. unfold daily_data in Hentry.
    apply list_elem_of_bind in Hentry as (d & ->%list_elem_of_singleton & Hd%elem_of_range).
    cbn [fst snd]. split; [lia|]. intros c.
    replace (d + 1 - 1) with d by lia.
    destruct (solved_entry_covers _ _ _ _ _ _ _ _ _ _ _ d Morning c
                Hbuild Hsound Hsolve Hget Hd) as (r1 & o1 & Hr1 & Ho1 & Hle1).
    destruct (solved_entry_covers _ _ _ _ _ _ _ _ _ _ _ d Evening c
                Hbuild Hsound Hsolve Hget Hd) as (r2 & o2 & Hr2 & Ho2 & Hle2).
    destruct (solved_entry_covers _ _ _ _ _ _ _ _ _ _ _ d Night c
                Hbuild Hsound Hsolve Hget Hd) as (r3 & o3 & Hr3 & Ho3 & Hle3).
    unfold daily_total, shifts, qsum. cbn [mbind list_bind app foldl].
    rewrite Hr1, Hr2, Hr3, Ho1, Ho2, Ho3, !inject_Z_plus.
    case_decide; cbn [default]; unfold id; lra.
Qed.

Lemma daily_data_covers_witness :
  ∃ schedule,
    get_schedule example_solved 7 = inr schedule
    ∧ length (daily_data schedule 7) = 7%nat
    ∧ ∀ entry, entry ∈ daily_data schedule 7 →
        1 ≤ entry.1 ≤ 7
        ∧ ∀ c,
            (inject_Z (demand_on example_today "January" (entry.1 - 1) Morning c
                       + demand_on example_today "January" (entry.1 - 1) Evening c
                       + demand_on example_today "January" (entry.1 - 1) Night c)
             <= entry.2 c)%Q.
Proof.
  assert (is_inr (get_schedule example_solved 7) = true) as Hrun
    by (vm_compute; reflexivity).
  destruct (get_schedule example_solved 7) as [e|schedule] eqn:Hget;
    [discriminate|].
  destruct example_built_eq as [p Hbuild].
  exists schedule. split; [reflexivity|].
  exact (daily_data_covers example_today "January" 7 None init
           example_built example_solved p (checking_solver example_values)
           7 schedule Hbuild (checking_solver_sound example_values)
           example_solved_eq Hget).
Defined.

(** ** The forecaster on any month and day type *)

Lemma forecast_uplift_checks (month : string) (s : Shift) (c : Category) :
  let weekday := forecast_demand month "weekday" s c in
  let weekend := forecast_demand month "weekend" s c in
  (0 <? weekday) && (weekday <=? 16) && (weekday <=? weekend)
  && (weekend <=? weekday + 1) = true.
Proof.
  unfold forecast_demand.
  destruct (historical_demand !! month) as [table|] eqn:Hm; cbn [default].
  - apply elem_of_list_to_map_2 in Hm. unfold historical_demand_items in Hm.
    repeat (apply elem_of_cons in Hm as [Hm | Hm];
            [ injection Hm as -> ->; destruct s, c; vm_compute; reflexivity | ]).
    by apply elem_of_nil in Hm.
  - destruct s, c; vm_compute; reflexivity.
Qed.

(** X11: [forecast_demand] answers for every month string and every
    day-type string.  A month that the historical table does not have gets
    February's numbers; any day type other than the exact string "weekend"
    gets the weekday numbers; the weekday demand is between 1 and 16 people
    and the weekend uplift adds nobody or one person, never removes one. *)
Theorem forecast_demand_any_input (month day_type : string) (s : Shift)
  (c : Category) :
  0 < forecast_demand month "weekday" s c ≤ 16
  ∧ forecast_demand month "weekday" s c
    ≤ forecast_demand month "weekend" s c
    ≤ forecast_demand month "weekday" s c + 1
  ∧ (day_type ≠ "weekend"%string →
     forecast_demand month day_type s c = forecast_demand month "weekday" s c)
  ∧ (historical_demand !! month = None →
     forecast_demand month day_type s c
     = forecast_demand "February" day_type s c).
Proof.
  pose proof (forecast_uplift_checks month s c) as Hc. cbn zeta in Hc.
  split; [lia|]. split; [lia|]. split.
  - intros Hne. unfold forecast_demand.
    by rewrite (proj2 (String.eqb_neq day_type "weekend") Hne).
  - intros Hm. unfold forecast_demand. by rewrite Hm.
Qed.

(** ** A lower bound on the cost *)






(** ** Extractions of one scheduler over different numbers of days *)

Lemma extract_loop_prefix (read : Key → exn + Q) (keys1 keys2 : list Key)
  (m2 : gmap Key Q) :
  extract_loop read keys2 ∅ = inr m2 →
  (∀ k, k ∈ keys1 → k ∈ keys2) →
  ∃ m1, extract_loop read keys1 ∅ = inr m1
        ∧ ∀ k, k ∈ keys1 → m1 !! k = m2 !! k.
Proof.
  intros Hloop2 Hsub.
  destruct (extract_loop_total read keys1 ∅) as [m1 Hloop1].
  { intros k Hk%Hsub.
    destruct (extract_loop_inr_dom _ _ _ _ Hloop2 k Hk) as [q Hq].
    exists q. by apply (extract_loop_lookup _ _ _ k Hloop2). }
  exists m1. split; [done|]. intros k Hk.
  destruct (extract_loop_inr_dom _ _ _ _ Hloop1 k Hk) as [q1 Hq1].
  destruct (extract_loop_inr_dom _ _ _ _ Hloop2 k (Hsub k Hk)) as [q2 Hq2].
  pose proof (proj2 (extract_loop_lookup _ _ _ k Hloop1) q1 Hq1) as Hr1.
  pose proof (proj2 (extract_loop_lookup _ _ _ k Hloop2) q2 Hq2) as Hr2.
  rewrite Hq1, Hq2. congruence.
Qed.

Lemma extract_loop_None (read : Key → exn + Q) (keys : list Key)
  (m : gmap Key Q) (k : Key) :
  extract_loop read keys ∅ = inr m → k ∉ keys → m !! k = None.
Proof.
  intros Hloop Hk. apply eq_None_not_Some. intros Hs.
  by apply (extract_loop_lookup _ _ _ k Hloop) in Hs.
Qed.

(** X13: extraction is closed under shortening and consistent.  When
    [get_schedule] succeeds for some number of days on a scheduler, in any
    state, it succeeds for every smaller number, and the shorter schedule
    has the same [total_cost] and [staff_changes] and, on its own days, the
    same regular and overtime entries as the longer one. *)
Theorem get_schedule_prefix (self : StaffScheduler) (num_days fewer_days : Z)
  (schedule : Schedule) :
  get_schedule self num_days = inr schedule →
  fewer_days ≤ num_days →
  ∃ shorter,
    get_schedule self fewer_days = inr shorter
    ∧ total_cost shorter = total_cost schedule
    ∧ staff_changes shorter = staff_changes schedule
    ∧ ∀ d s c, d < fewer_days →
        regular shorter !! (d, s, c) = regular schedule !! (d, s, c)
        ∧ overtime shorter !! (d, s, c) = overtime schedule !! (d, s, c).
Proof.
  intros Hget Hle.
  pose proof Hget as (p & Hp & Hst & Hreg & Hot & Hch & Hcost)%get_schedule_inr.
  destruct (extract_loop_prefix _ (all_keys fewer_days) _ _ Hreg)
    as (reg & Hreg' & Hregs).
  { intros [[d s] c]. rewrite !elem_of_all_keys. lia. }
  destruct (extract_loop_prefix _ (overtime_keys fewer_days) _ _ Hot)
    as (ot & Hot' & Hots).
  { intros [[d s] c]. rewrite !elem_of_overtime_keys. intros [? ?]. split; [lia|done]. }
  eexists. split.
  { unfold get_schedule. rewrite Hp, Hst.
    cbn [LpStatus_name String.eqb Ascii.eqb Bool.eqb negb].
    rewrite Hcost, Hreg', Hot', Hch. reflexivity. }
  cbn [total_cost staff_changes regular overtime].
  split; [done|]. split; [done|].
  intros d s c Hd. split.
  - destruct (decide ((d, s, c) ∈ all_keys fewer_days)) as [Hin|Hnin].
    + by apply Hregs.
    + rewrite (extract_loop_None _ _ _ _ Hreg' Hnin). symmetry.
      apply (extract_loop_None _ _ _ _ Hreg).
      rewrite elem_of_all_keys in *. lia.
  - destruct (decide ((d, s, c) ∈ overtime_keys fewer_days)) as [Hin|Hnin].
    + by apply Hots.
    + rewrite (extract_loop_None _ _ _ _ Hot' Hnin). symmetry.
      apply (extract_loop_None _ _ _ _ Hot).
      rewrite elem_of_overtime_keys in *. intros [? ?]. apply Hnin.
      split; [lia|done].
Qed.

Lemma get_schedule_prefix_witness :
  ∃ schedule shorter,
    get_schedule example_solved 7 = inr schedule
    ∧ get_schedule example_solved 3 = inr shorter
    ∧ total_cost shorter = total_cost schedule
    ∧ regular shorter !! (2, Night, Nurses) = regular schedule !! (2, Night, Nurses).
Proof.
  assert (is_inr (get_schedule example_solved 7) = true) as Hrun
    by (vm_compute; reflexivity).
  destruct (get_schedule example_solved 7) as [e|schedule] eqn:Hget;
    [discriminate|].
  destruct (get_schedule_prefix example_solved 7 3 schedule Hget ltac:(lia))
    as (shorter & Hshort & Hcost & _ & Hentries).
  exists schedule, shorter. split; [reflexivity|]. split; [exact Hshort|].
  split; [exact Hcost|].
  exact (proj1 (Hentries 2 Night Nurses ltac:(lia))).
Defined.

(** * The costs in binary64 *)

(** ** Integers that binary64 holds, and the operations that do not round *)

Lemma bit_length_pos (N : positive) : 1 ≤ bit_length N.
Proof. unfold bit_length. lia. Qed.

Lemma bit_length_bounds (N : positive) :
  2 ^ (bit_length N - 1) ≤ Z.pos N < 2 ^ bit_length N.
Proof.
  unfold bit_length. induction N as [N IH|N IH|]; cbn [digits2_pos].
  - rewrite Pos2Z.inj_succ.
    replace (Z.succ (Z.pos (digits2_pos N)) - 1)
      with (Z.succ (Z.pos (digits2_pos N) - 1)) by lia.
    rewrite !Z.pow_succ_r by lia. lia.
  - rewrite Pos2Z.inj_succ.
    replace (Z.succ (Z.pos (digits2_pos N)) - 1)
      with (Z.succ (Z.pos (digits2_pos N) - 1)) by lia.
    rewrite !Z.pow_succ_r by lia. lia.
  - simpl. lia.
Qed.

Lemma bit_length_unique (N : positive) (d : Z) :
  2 ^ (d - 1) ≤ Z.pos N < 2 ^ d → bit_length N = d.
Proof.
  intros [Hl Hu]. pose proof (bit_length_bounds N) as [Hl' Hu'].
  pose proof (bit_length_pos N).
  assert (0 < d).
  { destruct (Z_lt_le_dec 0 d); [done|].
    assert (2 ^ d ≤ 2 ^ 0) by (apply Z.pow_le_mono_r; lia). simpl in *. lia. }
  destruct (Z_lt_le_dec (bit_length N) d).
  - assert (2 ^ bit_length N ≤ 2 ^ (d - 1)) by (apply Z.pow_le_mono_r; lia). lia.
  - destruct (Z_lt_le_dec d (bit_length N)); [|lia].
    assert (2 ^ d ≤ 2 ^ (bit_length N - 1)) by (apply Z.pow_le_mono_r; lia). lia.
Qed.

Lemma pshift_Z (N : positive) (j : nat) :
  Z.pos (pshift N j) = Z.pos N * 2 ^ Z.of_nat j.
Proof.
  induction j as [|j IH]; cbn [pshift].
  - simpl. lia.
  - rewrite Nat2Z.inj_succ, Z.pow_succ_r by lia. lia.
Qed.

Lemma bit_length_pshift (N : positive) (j : nat) :
  bit_length (pshift N j) = bit_length N + Z.of_nat j.
Proof.
  unfold bit_length. induction j as [|j IH]; cbn [pshift digits2_pos]; [lia|].
  rewrite Pos2Z.inj_succ, IH. lia.
Qed.

Lemma pshift_add (N : positive) (i j : nat) :
  pshift (pshift N i) j = pshift N (i + j).
Proof.
  induction j as [|j IH]; cbn [pshift].
  - by rewrite Nat.add_0_r.
  - rewrite Nat.add_succ_r. cbn [pshift]. by rewrite IH.
Qed.

Lemma iter_pos_nat {A : Type} (f : A → A) (n : positive) (x : A) :
  SpecFloat.iter_pos f n x = @Nat.iter (Pos.to_nat n) A f x.
Proof.
  revert x. induction n as [n IH|n IH|]; intros x; cbn [SpecFloat.iter_pos].
  - rewrite !IH, Pos2Nat.inj_xI.
    replace (S (2 * Pos.to_nat n)) with (Pos.to_nat n + (Pos.to_nat n + 1))%nat by lia.
    rewrite !Nat.iter_add. simpl. done.
  - rewrite !IH, Pos2Nat.inj_xO.
    replace (2 * Pos.to_nat n)%nat with (Pos.to_nat n + Pos.to_nat n)%nat by lia.
    by rewrite Nat.iter_add.
  - done.
Qed.

Lemma Pos_iter_xO (N : positive) (d : positive) :
  Pos.iter xO N d = pshift N (Pos.to_nat d).
Proof.
  rewrite Pos2Nat.inj_iter.
  induction (Pos.to_nat d) as [|j IH]; [done|]. simpl. by rewrite IH.
Qed.

Lemma iter_shr_1 (N : positive) (j : nat) :
  @Nat.iter j _ shr_1 {| shr_m := Z.pos (pshift N j); shr_r := false; shr_s := false |}
  = {| shr_m := Z.pos N; shr_r := false; shr_s := false |}.
Proof.
  induction j as [|j IH]; [done|].
  rewrite Nat.iter_succ_r. cbn [pshift shr_1 orb]. apply IH.
Qed.

(** Rounding a number that needs no rounding. *)
Lemma binary_round_aux_exact (s : bool) (N : positive) (k : nat) :
  bit_length N ≤ 53 → 53 - bit_length N ≤ Z.of_nat k →
  binary_round_aux prec emax s (Z.pos (pshift N k)) (- Z.of_nat k) loc_Exact
  = Zfin s N.
Proof.
  intros HN Hk. pose proof (bit_length_pos N) as Hd.
  unfold binary_round_aux, shr_fexp, Zfin. cbn [Zdigits2 shr_record_of_loc].
  fold (bit_length (pshift N k)). rewrite bit_length_pshift.
  replace (bit_length N + Z.of_nat k + - Z.of_nat k) with (bit_length N) by lia.
  assert (fexp prec emax (bit_length N) = bit_length N - 53) as ->.
  { unfold fexp, emin, prec, emax. lia. }
  set (j := Z.to_nat (53 - bit_length N)).
  assert (k = (j + Z.to_nat (bit_length N - 53 + Z.of_nat k))%nat) as Hkj by lia.
  assert (shr {| shr_m := Z.pos (pshift N k); shr_r := false; shr_s := false |}
            (- Z.of_nat k) (bit_length N - 53 - - Z.of_nat k)
          = ({| shr_m := Z.pos (pshift N j); shr_r := false; shr_s := false |},
             bit_length N - 53)) as ->.
  { unfold shr. destruct (bit_length N - 53 - - Z.of_nat k) as [|p|p] eqn:Hn.
    - f_equal; [|lia]. do 3 f_equal. lia.
    - f_equal; [|lia]. rewrite iter_pos_nat.
      rewrite Hkj at 1. rewrite <- pshift_add.
      replace (Z.to_nat (bit_length N - 53 + Z.of_nat k)) with (Pos.to_nat p) by lia.
      apply iter_shr_1.
    - lia. }
  cbn [shr_m loc_of_shr_record round_nearest_even Zdigits2].
  fold (bit_length (pshift N j)). rewrite bit_length_pshift.
  replace (bit_length N + Z.of_nat j + (bit_length N - 53)) with (bit_length N)
    by (unfold j; lia).
  assert (fexp prec emax (bit_length N) = bit_length N - 53) as ->.
  { unfold fexp, emin, prec, emax. lia. }
  replace (bit_length N - 53 - (bit_length N - 53)) with 0 by lia.
  cbn [shr shr_m].
  replace (bit_length N - 53 <=? emax - prec) with true; [done|].
  symmetry. apply Z.leb_le. unfold emax, prec. lia.
Qed.

Lemma fexp_bit_length (N : positive) :
  fexp prec emax (bit_length N) = bit_length N - 53.
Proof. pose proof (bit_length_pos N). unfold fexp, emin, prec, emax. lia. Qed.

Lemma binary_round_exact (s : bool) (N : positive) (k : nat) :
  bit_length N ≤ 53 →
  binary_round prec emax s (pshift N k) (- Z.of_nat k) = Zfin s N.
Proof.
  intros HN. pose proof (bit_length_pos N) as Hd.
  unfold binary_round. fold (bit_length (pshift N k)). rewrite bit_length_pshift.
  replace (bit_length N + Z.of_nat k + - Z.of_nat k) with (bit_length N) by lia.
  rewrite fexp_bit_length. unfold shl_align.
  destruct (bit_length N - 53 - - Z.of_nat k) as [|p|p] eqn:Hn.
  - apply binary_round_aux_exact; lia.
  - apply binary_round_aux_exact; lia.
  - rewrite Pos_iter_xO, pshift_add.
    replace (bit_length N - 53) with (- Z.of_nat (k + Pos.to_nat p)) by lia.
    apply binary_round_aux_exact; lia.
Qed.

Lemma bit_length_le_53 (N : positive) : Z.pos N < 2 ^ 53 → bit_length N ≤ 53.
Proof.
  intros HN. pose proof (bit_length_bounds N) as [Hl _].
  destruct (Z_lt_le_dec 53 (bit_length N)); [|done].
  assert (2 ^ 53 ≤ 2 ^ (bit_length N - 1)) by (apply Z.pow_le_mono_r; lia). lia.
Qed.

Lemma binary_normalize_Z (z : Z) :
  Z.abs z < 2 ^ 53 → binary_normalize prec emax z 0 false = Z2SF false z.
Proof.
  intros Hz. destruct z as [|N|N]; [done| |]; cbn [binary_normalize Z2SF].
  - apply (binary_round_exact false N 0), bit_length_le_53. lia.
  - apply (binary_round_exact true N 0), bit_length_le_53. lia.
Qed.

Lemma valid_Z2SF (sz : bool) (z : Z) :
  Z.abs z < 2 ^ 53 → valid_binary (Z2SF sz z) = true.
Proof.
  intros Hz.
  assert (∀ s N, Z.pos N < 2 ^ 53 → valid_binary (Zfin s N) = true) as Hfin.
  { intros s N HN. apply bit_length_le_53 in HN. pose proof (bit_length_pos N).
    unfold Zfin, valid_binary, bounded, canonical_mantissa.
    fold (bit_length (pshift N (Z.to_nat (53 - bit_length N)))).
    rewrite bit_length_pshift.
    replace (bit_length N + Z.of_nat (Z.to_nat (53 - bit_length N)) + (bit_length N - 53))
      with (bit_length N) by lia.
    rewrite fexp_bit_length, Z.eqb_refl. cbn [andb].
    apply Z.leb_le. unfold emax, prec. lia. }
  destruct z; [done|apply Hfin; lia|apply Hfin; lia].
Qed.

Lemma shl_align_Zfin (N : positive) (ez : Z) :
  bit_length N ≤ 53 → ez ≤ bit_length N - 53 →
  (shl_align (pshift N (Z.to_nat (53 - bit_length N))) (bit_length N - 53) ez).1
  = pshift N (Z.to_nat (- ez)).
Proof.
  intros HN Hez. pose proof (bit_length_pos N). unfold shl_align.
  destruct (ez - (bit_length N - 53)) as [|p|p] eqn:Hn; cbn [fst].
  - f_equal. lia.
  - lia.
  - rewrite Pos_iter_xO, pshift_add. f_equal. lia.
Qed.

Lemma Z2SF_signed (sz s : bool) (N : positive) :
  Z2SF sz (signed s N) = Zfin s N.
Proof. by destruct s. Qed.

Lemma binary_normalize_shift (z : Z) (k : nat) :
  Z.abs z < 2 ^ 53 →
  binary_normalize prec emax (z * 2 ^ Z.of_nat k) (- Z.of_nat k) false
  = Z2SF false z.
Proof.
  intros Hz.
  assert (0 < 2 ^ Z.of_nat k) by (apply Z.pow_pos_nonneg; lia).
  destruct z as [|N|N]; cbn [Z2SF].
  - done.
  - assert (Z.pos N * 2 ^ Z.of_nat k = Z.pos (pshift N k)) as ->
      by (by rewrite pshift_Z).
    apply binary_round_exact, bit_length_le_53. lia.
  - assert (Z.neg N * 2 ^ Z.of_nat k = Z.neg (pshift N k)) as ->
      by (rewrite <- !Pos2Z.opp_pos, pshift_Z; lia).
    apply binary_round_exact, bit_length_le_53. lia.
Qed.

Lemma SFadd_Z2SF (sa sb : bool) (a b : Z) :
  Z.abs a < 2 ^ 53 → Z.abs b < 2 ^ 53 → Z.abs (a + b) < 2 ^ 53 →
  ∃ sz, SFadd prec emax (Z2SF sa a) (Z2SF sb b) = Z2SF sz (a + b).
Proof.
  intros Ha Hb Hab.
  assert (∀ s N, a = signed s N → Z2SF sa a = Zfin s N) as Hfa
    by (intros s N ->; apply Z2SF_signed).
  assert (∀ s N, b = signed s N → Z2SF sb b = Zfin s N) as Hfb
    by (intros s N ->; apply Z2SF_signed).
  assert (a = 0 ∨ ∃ s N, a = signed s N) as [->|(s & A & HA)]
    by (destruct a as [|N|N];
        [by left|right; by exists false, N|right; by exists true, N]).
  { destruct b as [|N|N]; cbn [Z2SF SFadd Zfin Z.add].
    - destruct sa, sb; eauto.
    - by exists false.
    - by exists false. }
  assert (b = 0 ∨ ∃ s N, b = signed s N) as [->|(t & B & HB)]
    by (destruct b as [|N|N];
        [by left|right; by exists false, N|right; by exists true, N]).
  { rewrite Z.add_0_r. rewrite (Hfa s A HA). exists false.
    rewrite HA, Z2SF_signed. done. }
  rewrite (Hfa s A HA), (Hfb t B HB).
  assert (bit_length A ≤ 53) as HdA
    by (apply bit_length_le_53; destruct s; subst; simpl in *; lia).
  assert (bit_length B ≤ 53) as HdB
    by (apply bit_length_le_53; destruct t; subst; simpl in *; lia).
  pose proof (bit_length_pos A). pose proof (bit_length_pos B).
  unfold Zfin at 1 2. cbn [SFadd].
  set (ez := Z.min (bit_length A - 53) (bit_length B - 53)).
  rewrite (shl_align_Zfin A ez), (shl_align_Zfin B ez) by lia.
  set (k := Z.to_nat (- ez)).
  assert (cond_Zopp s (Z.pos (pshift A k)) + cond_Zopp t (Z.pos (pshift B k))
          = (a + b) * 2 ^ Z.of_nat k) as ->.
  { rewrite !pshift_Z, HA, HB. destruct s, t; cbn [cond_Zopp signed]; lia. }
  replace ez with (- Z.of_nat k) by lia.
  exists false. by apply binary_normalize_shift.
Qed.

Lemma bit_length_mul_ge (A B : positive) :
  bit_length A + bit_length B - 1 ≤ bit_length (A * B).
Proof.
  pose proof (bit_length_bounds A) as [HA _]. pose proof (bit_length_bounds B) as [HB _].
  pose proof (bit_length_bounds (A * B)) as [_ HAB].
  pose proof (bit_length_pos A). pose proof (bit_length_pos B).
  destruct (Z_lt_le_dec (bit_length (A * B)) (bit_length A + bit_length B - 1)); [|done].
  assert (2 ^ bit_length (A * B) ≤ 2 ^ (bit_length A - 1 + (bit_length B - 1)))
    by (apply Z.pow_le_mono_r; lia).
  rewrite Z.pow_add_r in * by lia. rewrite Pos2Z.inj_mul in HAB.
  assert (2 ^ (bit_length A - 1) * 2 ^ (bit_length B - 1) ≤ Z.pos A * Z.pos B)
    by (apply Z.mul_le_mono_nonneg; lia).
  lia.
Qed.

Lemma SFmul_Z2SF (sa sb : bool) (a b : Z) :
  Z.abs a < 2 ^ 53 → Z.abs b < 2 ^ 53 → Z.abs (a * b) < 2 ^ 53 →
  ∃ sz, SFmul prec emax (Z2SF sa a) (Z2SF sb b) = Z2SF sz (a * b).
Proof.
  intros Ha Hb Hab.
  destruct a as [|A|A], b as [|B|B]; cbn [Z2SF Zfin SFmul Z.mul]; eauto;
    match goal with
    | |- ∃ _, binary_round_aux _ _ ?s (Z.pos (pshift ?A ?i * pshift ?B ?j))
                (?ea + ?eb) _ = _ =>
        assert (bit_length A ≤ 53) by (apply bit_length_le_53; lia);
        assert (bit_length B ≤ 53) by (apply bit_length_le_53; lia);
        pose proof (bit_length_pos A); pose proof (bit_length_pos B);
        pose proof (bit_length_pos (A * B));
        pose proof (bit_length_mul_ge A B);
        assert (bit_length (A * B) ≤ 53) by (apply bit_length_le_53; lia);
        assert (pshift A i * pshift B j = pshift (A * B) (i + j))%positive as ->
          by (apply Pos2Z.inj; rewrite Pos2Z.inj_mul, !pshift_Z, Pos2Z.inj_mul,
                Nat2Z.inj_add, Z.pow_add_r by lia; ring);
        replace (ea + eb) with (- Z.of_nat (i + j)) by lia;
        exists false; apply binary_round_aux_exact
    end.
  all: try lia.
Qed.

Lemma is_int_float_of_int (z : Z) :
  Z.abs z < 2 ^ 53 → is_int (Py.float_of_int z) z.
Proof.
  intros Hz. exists false. unfold Py.float_of_int.
  rewrite binary_normalize_Z by done. by apply Prim2SF_SF2Prim, valid_Z2SF.
Qed.

Lemma is_int_add (x y : float) (a b : Z) :
  is_int x a → is_int y b →
  Z.abs a < 2 ^ 53 → Z.abs b < 2 ^ 53 → Z.abs (a + b) < 2 ^ 53 →
  is_int (x + y) (a + b).
Proof.
  intros [sa Hx] [sb Hy] Ha Hb Hab. unfold is_int.
  rewrite add_spec, Hx, Hy. by apply SFadd_Z2SF.
Qed.

Lemma is_int_mul (x y : float) (a b : Z) :
  is_int x a → is_int y b →
  Z.abs a < 2 ^ 53 → Z.abs b < 2 ^ 53 → Z.abs (a * b) < 2 ^ 53 →
  is_int (x * y) (a * b).
Proof.
  intros [sa Hx] [sb Hy] Ha Hb Hab. unfold is_int.
  rewrite mul_spec, Hx, Hy. by apply SFmul_Z2SF.
Qed.

(** Multiplying an even integer by [1.5]. *)
Lemma is_int_mul_1_5 (x : float) (h : Z) :
  is_int x (2 * h) → Z.abs (3 * h) < 2 ^ 53 → is_int (x * 1.5) (3 * h).
Proof.
  intros [sa Hx] Hh. unfold is_int. rewrite mul_spec, Hx.
  change (Prim2SF 1.5) with (S754_finite false (pshift 3 51) (-52)).
  assert (∀ s H, Z.pos (3 * H) < 2 ^ 53 →
            SFmul prec emax (Zfin s (xO H)) (S754_finite false (pshift 3 51) (-52))
            = Zfin s (3 * H)) as Hfin.
  { intros s H HH. pose proof (bit_length_pos (3 * H)).
    assert (bit_length (3 * H) ≤ 53) by (by apply bit_length_le_53).
    assert (bit_length (xO H) ≤ 53).
    { apply bit_length_le_53. lia. }
    pose proof (bit_length_pos (xO H)).
    unfold Zfin at 1. cbn [SFmul]. rewrite xorb_false_r.
    set (i := Z.to_nat (53 - bit_length H~0)).
    assert (pshift H~0 i * pshift 3 51 = pshift (3 * H) (i + 52))%positive as ->.
    { apply Pos2Z.inj. rewrite Pos2Z.inj_mul, !pshift_Z.
      replace (Z.of_nat (i + 52)) with (Z.of_nat i + 52) by lia.
      rewrite Z.pow_add_r by lia. lia. }
    replace (bit_length H~0 - 53 + -52) with (- Z.of_nat (i + 52)) by lia.
    apply binary_round_aux_exact; lia. }
  destruct h as [|H|H]; cbn [Z.mul Z2SF Pos.mul].
  - cbn [SFmul]. eauto.
  - exists false. apply Hfin. lia.
  - exists false. apply Hfin. lia.
Qed.

Lemma SFeqb_Z2SF (X : spec_float) (z : Z) :
  SFeqb X (Z2SF false z) = true ↔ ∃ sz, X = Z2SF sz z.
Proof.
  assert (∀ s N, SFeqb X (Zfin s N) = true ↔ X = Zfin s N) as Hfin.
  { intros s N. unfold Zfin. set (m := pshift _ _). set (e := bit_length N - 53).
    split; [|intros ->].
    - unfold SFeqb.
      destruct X as [t|t| |t m' e']; cbn [SFcompare]; try (by destruct s);
        try (by destruct t); try (by destruct s, t).
      destruct t, s; try done.
      + destruct (e' ?= e) eqn:He; try done.
        apply Z.compare_eq in He as ->.
        destruct (Pos.compare_cont Eq m' m) eqn:Hm; try done.
        by apply Pos.compare_eq in Hm as ->.
      + destruct (e' ?= e) eqn:He; try done.
        apply Z.compare_eq in He as ->.
        destruct (Pos.compare_cont Eq m' m) eqn:Hm; try done.
        by apply Pos.compare_eq in Hm as ->.
    - unfold SFeqb. cbn [SFcompare]. rewrite Z.compare_refl.
      fold (Pos.compare m m). rewrite Pos.compare_refl. by destruct s. }
  destruct z as [|N|N]; cbn [Z2SF].
  - split.
    + destruct X as [t|t| |t m e]; try done; [eauto|by destruct t|by destruct t].
    + by intros [sz ->].
  - rewrite Hfin. split; [intros ->; by exists false|by intros [_ ->]].
  - rewrite Hfin. split; [intros ->; by exists false|by intros [_ ->]].
Qed.

(** Python's [x == float(z)]. *)
Lemma eqb_float_of_int (x : float) (z : Z) :
  Z.abs z < 2 ^ 53 →
  PrimFloat.eqb x (Py.float_of_int z) = true ↔ is_int x z.
Proof.
  intros Hz. destruct (is_int_float_of_int z Hz) as [sz Hsz].
  rewrite FloatAxioms.eqb_spec, Hsz. unfold is_int.
  rewrite <- (SFeqb_Z2SF (Prim2SF x)). by destruct z.
Qed.


(** Two floats that have the same integer value are equal for [==]. *)
Lemma is_int_eqb (x y : float) (z : Z) :
  Z.abs z < 2 ^ 53 → is_int x z → is_int y z → PrimFloat.eqb x y = true.
Proof.
  intros Hz Hx [sy Hy]. rewrite FloatAxioms.eqb_spec, Hy.
  assert (SFeqb (Prim2SF x) (Z2SF false z) = true) as Heq
    by (by apply SFeqb_Z2SF).
  by destruct z.
Qed.

(** ** Sums of integers in binary64 *)

Lemma pow_2_53 : 2 ^ 53 = 9007199254740992.
Proof. reflexivity. Qed.

Lemma sum_exact (B : Z) (xs : list float) (zs : list Z) :
  0 ≤ B →
  Forall2 (λ x z, is_int x z ∧ Z.abs z ≤ B) xs zs →
  ∀ (acc : float) (a : Z),
    is_int acc a → Z.abs a + Z.of_nat (length zs) * B < 2 ^ 53 →
    is_int (foldl PrimFloat.add acc xs) (a + zsum zs)
    ∧ Z.abs (a + zsum zs) ≤ Z.abs a + Z.of_nat (length zs) * B.
Proof.
  intros HB. induction 1 as [|x z xs zs [Hx Hz] _ IH]; intros acc a Hacc Ha.
  - cbn [foldl zsum foldr length]. rewrite Z.add_0_r. split; [done|lia].
  - cbn [foldl zsum foldr length] in *. fold (zsum zs).
    rewrite Nat2Z.inj_succ in *.
    destruct (IH (acc + x)%float (a + z)) as [Hint Hle].
    + apply is_int_add; [done|done|lia..].
    + lia.
    + rewrite Z.add_assoc. split; [done|lia].
Qed.

Lemma sum64_exact (B : Z) (xs : list float) (zs : list Z) :
  0 ≤ B →
  Forall2 (λ x z, is_int x z ∧ Z.abs z ≤ B) xs zs →
  Z.of_nat (length zs) * B < 2 ^ 53 →
  is_int (sum64 xs) (zsum zs) ∧ Z.abs (zsum zs) ≤ Z.of_nat (length zs) * B.
Proof.
  intros HB Hxs Hlen.
  destruct (sum_exact B xs zs HB Hxs (Py.float_of_int 0) 0) as [Hint Hle].
  - apply is_int_float_of_int. rewrite pow_2_53. lia.
  - simpl. lia.
  - by rewrite Z.add_0_l in *.
Qed.

Lemma zsum_app (l1 l2 : list Z) : zsum (l1 ++ l2) = zsum l1 + zsum l2.
Proof. unfold zsum. induction l1 as [|x l1 IH]; simpl; [done|]. rewrite IH. lia. Qed.

Lemma qsum_inject_Z {A : Type} (f : A → Z) (g : A → Q) (l : list A) :
  (∀ x, (g x == inject_Z (f x))%Q) →
  (qsum (g <$> l) == inject_Z (zsum (f <$> l)))%Q.
Proof.
  intros Hfg. induction l as [|x l IH]; [reflexivity|].
  rewrite !fmap_cons, qsum_cons, IH, Hfg. cbn [zsum foldr]. fold (zsum (f <$> l)).
  by rewrite inject_Z_plus.
Qed.

Lemma Forall2_fmap_diag {A B C : Type} (P : B → C → Prop) (f : A → B)
  (g : A → C) (l : list A) :
  (∀ x, x ∈ l → P (f x) (g x)) → Forall2 P (f <$> l) (g <$> l).
Proof.
  intros Hfg. apply Forall2_fmap, Forall_Forall2_diag, Forall_forall, Hfg.
Qed.

Lemma length_all_keys (n : Z) : length (all_keys n) = (Z.to_nat n * 9)%nat.
Proof.
  unfold all_keys. rewrite (length_bind_const _ _ 9), length_range; [done|].
  intros d. reflexivity.
Qed.

Lemma length_overtime_keys (n : Z) :
  length (overtime_keys n) = (Z.to_nat n * 6)%nat.
Proof.
  unfold overtime_keys. rewrite (length_bind_const _ _ 6), length_range; [done|].
  intros d. reflexivity.
Qed.

Lemma overtime_coefficient (c : Category) :
  (Py.float_of_int 8 * (1.5 * Py.float_of_int (hourly_wages c)))%float
  = Py.float_of_int (hourly_wages c * 12).
Proof. destruct c; vm_compute; reflexivity. Qed.

Lemma objective_items64_eq (n : Z) :
  objective_items64 n
  = ((λ k : Key, (Staff_Assigned k, Py.float_of_int (hourly_wages k.2 * 8)))
       <$> all_keys n)
    ++ ((λ k : Key, (Overtime k, Py.float_of_int (hourly_wages k.2 * 12)))
          <$> overtime_keys n)
    ++ ((λ c, (Staff_Hired c, Py.float_of_int (hiring_cost c)))
          <$> staff_categories)
    ++ ((λ c, (Staff_Fired c, Py.float_of_int (firing_cost c)))
          <$> staff_categories).
Proof.
  unfold objective_items64.
  pose proof (bind_all_keys
                (λ k : Key, (Staff_Assigned k,
                             Py.float_of_int (hourly_wages k.2 * 8))) n) as Hr.
  pose proof (bind_overtime_keys
                (λ k : Key, (Overtime k,
                             (Py.float_of_int 8
                              * (1.5 * Py.float_of_int (hourly_wages k.2)))%float))
                n) as Ho.
  cbn [snd] in Hr, Ho. rewrite Hr, Ho, !bind_singleton_fmap.
  do 2 f_equal. apply list_fmap_ext. intros _ k _. cbn beta.
  by rewrite overtime_coefficient.
Qed.

Section binary64_costs.

Variables (varValue : LpVariable → float) (z : LpVariable → Z).
Hypothesis Hvalues : ∀ v, is_int (varValue v) (z v) ∧ Z.abs (z v) ≤ 1000000000.

Lemma product_exact (v : LpVariable) (k : Z) :
  0 ≤ k ≤ 7500 →
  is_int (varValue v * Py.float_of_int k) (z v * k)
  ∧ Z.abs (z v * k) ≤ 7500000000000.
Proof.
  intros Hk. destruct (Hvalues v) as [Hv Hz]. split; [|nia].
  apply is_int_mul; [done| |rewrite pow_2_53..]; [|lia|lia|nia].
  apply is_int_float_of_int. rewrite pow_2_53. lia.
Qed.

Lemma wage_bounds (c : Category) :
  0 ≤ hourly_wages c * 8 ≤ 7500 ∧ 0 ≤ hourly_wages c * 12 ≤ 7500
  ∧ 0 ≤ hiring_cost c ≤ 7500 ∧ 0 ≤ firing_cost c ≤ 7500.
Proof. destruct c; simpl; lia. Qed.

Lemma regular_term_exact (v : LpVariable) (c : Category) :
  is_int (varValue v * Py.float_of_int (hourly_wages c) * Py.float_of_int 8)
    (z v * (hourly_wages c * 8))
  ∧ Z.abs (z v * (hourly_wages c * 8)) ≤ 7500000000000.
Proof.
  destruct (Hvalues v) as [Hv Hz]. pose proof (wage_bounds c) as Hw.
  split; [|nia]. rewrite Z.mul_assoc.
  apply is_int_mul; [|apply is_int_float_of_int|rewrite pow_2_53..];
    [|rewrite pow_2_53; lia|nia|lia|nia].
  apply is_int_mul; [done|apply is_int_float_of_int|rewrite pow_2_53..];
    [rewrite pow_2_53|..]; nia.
Qed.

Lemma overtime_term_exact (v : LpVariable) (c : Category) :
  is_int (varValue v * Py.float_of_int (hourly_wages c) * 1.5 * Py.float_of_int 8)
    (z v * (hourly_wages c * 12))
  ∧ Z.abs (z v * (hourly_wages c * 12)) ≤ 7500000000000.
Proof.
  destruct (Hvalues v) as [Hv Hz]. pose proof (wage_bounds c) as Hw.
  split; [|nia].
  assert (∃ w, hourly_wages c = 2 * w ∧ 0 ≤ w ≤ 225) as (w & Hc & Hw2)
    by (destruct c; [exists 150|exists 225|exists 125]; simpl; lia).
  replace (z v * (hourly_wages c * 12)) with (3 * (z v * w) * 8) by lia.
  apply is_int_mul; [|apply is_int_float_of_int|rewrite pow_2_53..];
    [|rewrite pow_2_53; lia|nia|lia|nia].
  apply is_int_mul_1_5; [|rewrite pow_2_53; nia].
  replace (2 * (z v * w)) with (z v * hourly_wages c) by lia.
  apply is_int_mul; [done|apply is_int_float_of_int|rewrite pow_2_53..];
    [rewrite pow_2_53|..]; nia.
Qed.

End binary64_costs.


Lemma example_integers_small (v : LpVariable) :
  -1000000000 ≤ example_integers v ≤ 1000000000.
Proof.
  destruct v as [[[d s] c]|k|c|k|c]; cbn [example_integers]; [|lia| |lia|].
  - pose proof (forecast_demand_bounds "January"
                  (day_type_on example_today "January" d) s c).
    unfold demand_on. lia.
  - destruct c; simpl; lia.
  - destruct c; simpl; lia.
Qed.

(** ** The objective and the recomputed sums *)

Lemma value64_sum64 (varValue : LpVariable → float)
  (items : list (LpVariable * float)) :
  value64 varValue (Py.float_of_int 0) items
  = sum64 ((λ t, (varValue t.1 * t.2)%float) <$> items).
Proof. unfold value64, sum64. symmetry. apply foldl_fmap. Qed.

(** X14: on integer solver values of magnitude at most [10^9], and a model
    of at most 31 days (no month has more), the binary64 computations of
    the program do not round.  The running sum PuLP forms for
    [pulp.value(objective)] and the sum of the four sums [app.py] recomputes
    are the same float, equal for [==] to the float of an integer
    [total]; and [total] is the value of the objective in exact arithmetic,
    which the [total_cost] of the schedules above stands for. *)
Theorem binary64_costs_exact (n : Z) (varValue : LpVariable → float)
  (z : LpVariable → Z) :
  n ≤ 31 →
  (∀ v, PrimFloat.eqb (varValue v) (Py.float_of_int (z v)) = true
        ∧ -1000000000 ≤ z v ≤ 1000000000) →
  ∃ total : Z,
    (inject_Z total == value (λ v, inject_Z (z v)) (total_cost_objective n))%Q
    ∧ PrimFloat.eqb (total_cost64 varValue n) (Py.float_of_int total) = true
    ∧ PrimFloat.eqb (recomputed_cost64 varValue n) (Py.float_of_int total) = true
    ∧ PrimFloat.eqb (total_cost64 varValue n) (recomputed_cost64 varValue n)
      = true.
Proof.
  intros Hn Hv. pose proof pow_2_53 as Hpow.
  assert (∀ v, is_int (varValue v) (z v) ∧ Z.abs (z v) ≤ 1000000000) as Hvalues.
  { intros v. destruct (Hv v) as [Heq Hz]. split; [|lia].
    apply (proj1 (eqb_float_of_int (varValue v) (z v) ltac:(lia)) Heq). }
  clear Hv.
  set (fr := λ k : Key, z (Staff_Assigned k) * (hourly_wages k.2 * 8)).
  set (fo := λ k : Key, z (Overtime k) * (hourly_wages k.2 * 12)).
  set (fh := λ c, z (Staff_Hired c) * hiring_cost c).
  set (ff := λ c, z (Staff_Fired c) * firing_cost c).
  set (R := zsum (fr <$> all_keys n)). set (O := zsum (fo <$> overtime_keys n)).
  set (H := zsum (fh <$> staff_categories)).
  set (F := zsum (ff <$> staff_categories)).
  set (B := 7500000000000).
  assert (Z.of_nat (length (all_keys n)) ≤ 279) as Hlr
    by (rewrite length_all_keys; lia).
  assert (Z.of_nat (length (overtime_keys n)) ≤ 186) as Hlo
    by (rewrite length_overtime_keys; lia).
  assert (Z.of_nat (length staff_categories) = 3) as Hlc by done.
  assert (is_int (regular_cost64 (λ k, varValue (Staff_Assigned k)) n) R
          ∧ Z.abs R ≤ 279 * B) as [HR HRb].
  { unfold regular_cost64.
    pose proof (bind_all_keys
                  (λ k : Key, (varValue (Staff_Assigned k)
                               * Py.float_of_int (hourly_wages k.2)
                               * Py.float_of_int 8)%float) n) as Hb.
    cbn [snd] in Hb. rewrite Hb.
    destruct (sum64_exact B _ (fr <$> all_keys n) ltac:(done)
                (Forall2_fmap_diag _ _ fr (all_keys n)
                   (λ k _, regular_term_exact varValue z Hvalues
                             (Staff_Assigned k) k.2))) as [Hi Hb'].
    - rewrite length_fmap. unfold B. lia.
    - split; [done|]. rewrite length_fmap in Hb'. unfold B in *. lia. }
  assert (is_int (overtime_cost64 (λ k, varValue (Overtime k)) n) O
          ∧ Z.abs O ≤ 186 * B) as [HO HOb].
  { unfold overtime_cost64.
    pose proof (bind_overtime_keys
                  (λ k : Key, (varValue (Overtime k)
                               * Py.float_of_int (hourly_wages k.2) * 1.5
                               * Py.float_of_int 8)%float) n) as Hb.
    cbn [snd] in Hb. rewrite Hb.
    destruct (sum64_exact B _ (fo <$> overtime_keys n) ltac:(done)
                (Forall2_fmap_diag _ _ fo (overtime_keys n)
                   (λ k _, overtime_term_exact varValue z Hvalues
                             (Overtime k) k.2))) as [Hi Hb'].
    - rewrite length_fmap. unfold B. lia.
    - split; [done|]. rewrite length_fmap in Hb'. unfold B in *. lia. }
  assert (is_int (hiring_cost64 (λ c, varValue (Staff_Hired c))) H
          ∧ Z.abs H ≤ 3 * B) as [HH HHb].
  { unfold hiring_cost64. rewrite bind_singleton_fmap.
    destruct (sum64_exact B _ (fh <$> staff_categories) ltac:(done)
                (Forall2_fmap_diag _ _ fh staff_categories
                   (λ c _, product_exact varValue z Hvalues (Staff_Hired c)
                             (hiring_cost c)
                             (proj1 (proj2 (proj2 (wage_bounds c)))))))
      as [Hi Hb'].
    - rewrite length_fmap. unfold B. lia.
    - split; [done|]. rewrite length_fmap in Hb'. unfold B in *. lia. }
  assert (is_int (firing_cost64 (λ c, varValue (Staff_Fired c))) F
          ∧ Z.abs F ≤ 3 * B) as [HF HFb].
  { unfold firing_cost64. rewrite bind_singleton_fmap.
    destruct (sum64_exact B _ (ff <$> staff_categories) ltac:(done)
                (Forall2_fmap_diag _ _ ff staff_categories
                   (λ c _, product_exact varValue z Hvalues (Staff_Fired c)
                             (firing_cost c)
                             (proj2 (proj2 (proj2 (wage_bounds c)))))))
      as [Hi Hb'].
    - rewrite length_fmap. unfold B. lia.
    - split; [done|]. rewrite length_fmap in Hb'. unfold B in *. lia. }
  exists (R + O + H + F).
  assert (Z.abs (R + O + H + F) < 2 ^ 53) as Htotal by (unfold B in *; lia).
  assert (is_int (total_cost64 varValue n) (R + O + H + F)) as Htot.
  { unfold total_cost64.
    rewrite value64_sum64, objective_items64_eq, !fmap_app, <- !list_fmap_compose.
    unfold R, O, H, F. rewrite <- !Z.add_assoc, <- !zsum_app.
    apply (sum64_exact B); [done| |].
    + repeat apply Forall2_app; apply Forall2_fmap_diag; intros x _;
        cbn [compose fst snd].
      * apply (product_exact varValue z Hvalues), wage_bounds.
      * apply (product_exact varValue z Hvalues), wage_bounds.
      * apply (product_exact varValue z Hvalues), wage_bounds.
      * apply (product_exact varValue z Hvalues), wage_bounds.
    + rewrite !length_app, !length_fmap, !Nat2Z.inj_add. unfold B. lia. }
  assert (is_int (recomputed_cost64 varValue n) (R + O + H + F)) as Hrec.
  { unfold recomputed_cost64.
    apply is_int_add;
      [apply is_int_add; [apply is_int_add; [exact HR|exact HO|..]|exact HH|..]
      |exact HF|..];
      unfold B in *; lia. }
  split; [|split; [|split]].
  - rewrite value_total_cost_objective. unfold cost_of_days.
    rewrite (qsum_inject_Z fr), (qsum_inject_Z fo), (qsum_inject_Z fh),
      (qsum_inject_Z ff).
    + by rewrite !inject_Z_plus.
    + intros c. unfold ff. by rewrite inject_Z_mult.
    + intros c. unfold fh. by rewrite inject_Z_mult.
    + intros k. unfold fo. rewrite !inject_Z_mult.
      change (inject_Z 12) with 12%Q. ring.
    + intros k. unfold fr. rewrite !inject_Z_mult.
      change (inject_Z 8) with 8%Q. ring.
  - by apply (proj2 (eqb_float_of_int _ _ Htotal)).
  - by apply (proj2 (eqb_float_of_int _ _ Htotal)).
  - by apply (is_int_eqb _ _ (R + O + H + F)).
Qed.

Lemma binary64_costs_exact_witness :
  ∃ total : Z,
    (inject_Z total
     == value (λ v, inject_Z (example_integers v)) (total_cost_objective 7))%Q
    ∧ PrimFloat.eqb (total_cost64 example_floats 7) (Py.float_of_int total) = true
    ∧ PrimFloat.eqb (recomputed_cost64 example_floats 7) (Py.float_of_int total)
      = true
    ∧ PrimFloat.eqb (total_cost64 example_floats 7)
        (recomputed_cost64 example_floats 7) = true.
Proof.
  apply (binary64_costs_exact 7 example_floats example_integers); [lia|].
  intros v. pose proof (example_integers_small v) as Hz.
  split; [|exact Hz].
  apply eqb_float_of_int, is_int_float_of_int; rewrite pow_2_53; lia.
Defined.

(** The same two computations on values that are not integers: the
    examples with an overtime of [1e-7] in every overtime variable.  The
    running sum of the objective and the sum of the recomputed sums round
    differently and are two different floats, which Python prints as
    2187000.013859998 and 2187000.0138600003. *)
Lemma binary64_costs_differ_on_inexact_values :
  total_cost64 example_floats_inexact 7 = 0x1.0af7c01c62a17p+21%float
  ∧ recomputed_cost64 example_floats_inexact 7 = 0x1.0af7c01c62a1cp+21%float
  ∧ PrimFloat.eqb (total_cost64 example_floats_inexact 7)
      (recomputed_cost64 example_floats_inexact 7) = false.
Proof. vm_compute. done. Qed.
